(** * Rate limiter of the AI assistant: model and verified properties

    Shallow embedding of [src/security/rate_limiter.py].

    Modelling conventions.
    - Python [int] is [Z].  Clock readings and the retry hints computed
      from them are exact rationals [Q]; equalities between computed
      rationals are stated with [==].  The burst multiplier is a binary64
      value ([spec_float] at precision 53), and [int(limit * burst)] is
      computed as Python computes it: the [int] is converted to the nearest
      double, the two doubles are multiplied with one rounding to nearest
      even, and the product is truncated; a conversion that cannot be made
      raises [OverflowError] or [ValueError].
    - [Optional[str]] is [option string]; Python truthiness of such a value
      ([if user_id:]) is [truthy]: neither [None] nor the empty string.
    - [defaultdict] and [dict] keyed by strings are [gmap string _]; indexing
      a [defaultdict] at a missing key inserts the default value.
    - A raised exception is a value of [exn]; the human-readable message
      and the log calls carry no state and are left out.
    - Every method is a function in the state-and-exception monad [M] over
      the [World]: the limiter object together with the Redis server it
      talks to.  A state change made before an exception is raised persists,
      as in Python.
    - [time.time()] is the argument [now] of a call; the reads that one call
      makes (the one in the method body and the ones of the
      [RateLimitState] default factory) return that same instant.
    - The Redis server is part of the world.  Between two calls the
      environment may stop or resume the server, and a key that has a
      time-to-live may expire; the server's clock is not modelled, so an
      expiry is an event that can befall such a key at any time.  A
      sequence of calls ([run]) is one during which no such event occurs;
      [play] interleaves calls and events. *)

From Stdlib Require Import ZArith QArith Qround Qminmax Lqa Lia List SpecFloat.
From stdpp Require Import base option strings gmap pretty.

Local Open Scope Z_scope.

(** ** Data model *)

(** Binary64 floats, with the operations of the standard library's
    specification of IEEE 754 arithmetic. *)
Definition float64 : Set := spec_float.

Definition float_mul (x y : float64) : float64 := SFmul 53 1024 x y.

(** The float that the source text [n/d] of a decimal literal denotes:
    the double nearest to the quotient (for [n] and [d] below [2^53]).
    [float_lit 3 2] is [1.5], [float_lit 23 20] is [1.15]. *)
Definition float_lit (n d : Z) : float64 :=
  SFdiv 53 1024 (binary_normalize 53 1024 n 0 false)
                (binary_normalize 53 1024 d 0 false).

Record RateLimitConfig := mkConfig {
  enabled : bool;
  requests_per_minute : Z;
  requests_per_hour : Z;
  tokens_per_minute : Z;
  tokens_per_hour : Z;
  max_concurrent_requests : Z;
  per_user : bool;
  burst_multiplier : float64;
  use_redis : bool;
  redis_host : string;
  redis_port : Z;
  redis_db : Z;
  redis_prefix : string;
  require_user_id : bool;
  fallback_to_session : bool
}.

(** The dataclass defaults. *)
Definition default_config : RateLimitConfig :=
  {| enabled := true;
     requests_per_minute := 60;
     requests_per_hour := 1000;
     tokens_per_minute := 100000;
     tokens_per_hour := 1000000;
     max_concurrent_requests := 10;
     per_user := true;
     burst_multiplier := float_lit 3 2;
     use_redis := false;
     redis_host := "localhost";
     redis_port := 6379;
     redis_db := 1;
     redis_prefix := "ratelimit:";
     require_user_id := false;
     fallback_to_session := true |}.

Record RateLimitState := mkState {
  count : Z;
  tokens : Z;
  window_start : Q;
  concurrent : Z
}.

(** [RateLimitState()] built while the clock reads [t]. *)
Definition RateLimitState_new (t : Q) : RateLimitState :=
  {| count := 0; tokens := 0; window_start := t; concurrent := 0 |}.

(** [RateLimitExceeded(message, limit_type, retry_after)], and the two
    built-in exceptions that a conversion between [int] and [float] can
    raise. *)
Inductive exn :=
| RateLimitExceeded (limit_type : string) (retry_after : option Q)
| OverflowError
| ValueError.

Inductive result (A : Type) :=
| Ok (a : A)
| Raise (e : exn).
Arguments Ok {A} a.
Arguments Raise {A} e.

(** Python truthiness of an [Optional[str]]. *)
Definition truthy (o : option string) : bool :=
  match o with
  | Some s => negb (String.eqb s "")
  | None => false
  end.

(** [float(n)], the conversion that [n * x] applies to its [int] operand:
    the nearest double, ties to even; past the largest double Python raises
    [OverflowError]. *)
Definition float_of_int (n : Z) : result float64 :=
  match binary_normalize 53 1024 n 0 false with
  | S754_infinity _ => Raise OverflowError
  | x => Ok x
  end.

(** [int(x)] of a float: truncation toward zero; an infinity raises
    [OverflowError] and a NaN raises [ValueError]. *)
Definition int_of_float (x : float64) : result Z :=
  match x with
  | S754_zero _ => Ok 0
  | S754_finite sign m e =>
      let a := if 0 <=? e then Z.pos m * 2 ^ e else Z.pos m / 2 ^ (- e) in
      Ok (if sign then - a else a)
  | S754_infinity _ => Raise OverflowError
  | S754_nan => Raise ValueError
  end.

(** [int(limit * burst)] for an [int] limit and a [float] multiplier. *)
Definition burst_limit (limit : Z) (burst : float64) : result Z :=
  match float_of_int limit with
  | Ok x => int_of_float (float_mul x burst)
  | Raise e => Raise e
  end.

(** [x // y] and [x % y] on floats, for a positive [y]. *)
Definition float_floordiv (x y : Q) : Z := Qfloor (x / y).
Definition float_mod (x y : Q) : Q := (x - y * inject_Z (float_floordiv x y))%Q.

(** [max(0, r)]: Python keeps the first argument unless the second is
    strictly greater. *)
Definition max0 (r : Q) : Q := if Qle_bool r 0 then 0%Q else r.

(** ** Identifier resolution *)

(** [RateLimiter._get_identifier]. *)
Definition _get_identifier (cfg : RateLimitConfig)
    (user_id session_id : option string) : result string :=
  if truthy user_id then Ok (default "" user_id)
  else if require_user_id cfg then
    Raise (RateLimitExceeded "authentication" None)
  else if fallback_to_session cfg && truthy session_id then
    Ok ("session:" +:+ default "" session_id)
  else Ok "anonymous".

(** ** The Redis server and its client-side backend *)

(** The external service: whether the [redis] package can be imported,
    whether the server answers, the integer counters it holds and the
    time-to-live last set on each key. *)
Record RedisServer := mkServer {
  installed : bool;
  reachable : bool;
  kv : gmap string Z;
  ttl : gmap string Z
}.

Definition set_kv (srv : RedisServer) (m : gmap string Z) (t : gmap string Z)
    : RedisServer :=
  {| installed := installed srv; reachable := reachable srv;
     kv := m; ttl := t |}.

(** Server commands.  [None] stands for the exception that the client
    library raises when the server does not answer. *)
Definition redis_get (srv : RedisServer) (key : string) : option (option Z) :=
  if reachable srv then Some (kv srv !! key) else None.

(** The pipeline [INCRBY key amount; EXPIRE key ttl], run as one
    transaction; the first reply is the new value. *)
Definition redis_incrby_expire (srv : RedisServer) (key : string)
    (amount t : Z) : option (Z * RedisServer) :=
  if reachable srv then
    let v := default 0 (kv srv !! key) + amount in
    Some (v, set_kv srv (<[key := v]> (kv srv)) (<[key := t]> (ttl srv)))
  else None.

Definition redis_decr (srv : RedisServer) (key : string)
    : option (Z * RedisServer) :=
  if reachable srv then
    let v := default 0 (kv srv !! key) - 1 in
    Some (v, set_kv srv (<[key := v]> (kv srv)) (ttl srv))
  else None.

(** [SET key value] also clears the key's time-to-live. *)
Definition redis_set (srv : RedisServer) (key : string) (v : Z)
    : option RedisServer :=
  if reachable srv then
    Some (set_kv srv (<[key := v]> (kv srv)) (delete key (ttl srv)))
  else None.

Inductive RedisClient := Redis_client.

Record RedisRateLimitBackend := mkBackend {
  _client : option RedisClient;
  _initialized : bool
}.

(** [RedisRateLimitBackend.__init__]. *)
Definition RedisRateLimitBackend_new : RedisRateLimitBackend :=
  {| _client := None; _initialized := false |}.

(** A backend method runs on the backend object and the server. *)
Definition B (A : Type) : Type :=
  RedisRateLimitBackend -> RedisServer -> A * RedisRateLimitBackend * RedisServer.

(** [RedisRateLimitBackend._ensure_connected]. *)
Definition _ensure_connected : B bool := fun b srv =>
  if _initialized b then (bool_decide (is_Some (_client b)), b, srv)
  else
    if negb (installed srv) then
      (false, {| _client := _client b; _initialized := true |}, srv)
    else if reachable srv then
      (true, {| _client := Some Redis_client; _initialized := true |}, srv)
    else
      (false, {| _client := None; _initialized := true |}, srv).

(** [RedisRateLimitBackend._make_key]. *)
Definition _make_key (cfg : RateLimitConfig) (identifier window : string)
    : string :=
  redis_prefix cfg +:+ identifier +:+ ":" +:+ window.

(** [RedisRateLimitBackend.get_count]. *)
Definition get_count (cfg : RateLimitConfig) (identifier window : string)
    : B Z := fun b srv =>
  let '(ok, b, srv) := _ensure_connected b srv in
  if negb ok then (0, b, srv)
  else match redis_get srv (_make_key cfg identifier window) with
       | Some c => (default 0 c, b, srv)
       | None => (0, b, srv)
       end.

(** [RedisRateLimitBackend.increment]. *)
Definition increment (cfg : RateLimitConfig) (identifier window : string)
    (t : Z) (amount : Z) : B Z := fun b srv =>
  let '(ok, b, srv) := _ensure_connected b srv in
  if negb ok then (0, b, srv)
  else match redis_incrby_expire srv (_make_key cfg identifier window)
               amount t with
       | Some (v, srv') => (v, b, srv')
       | None => (0, b, srv)
       end.

(** [RedisRateLimitBackend.get_concurrent]. *)
Definition get_concurrent (cfg : RateLimitConfig) (identifier : string)
    : B Z := fun b srv =>
  let '(ok, b, srv) := _ensure_connected b srv in
  if negb ok then (0, b, srv)
  else match redis_get srv (_make_key cfg identifier "concurrent") with
       | Some c => (default 0 c, b, srv)
       | None => (0, b, srv)
       end.

(** [RedisRateLimitBackend.incr_concurrent], with its default [ttl=300]. *)
Definition incr_concurrent (cfg : RateLimitConfig) (identifier : string)
    (t : Z) : B Z := fun b srv =>
  let '(ok, b, srv) := _ensure_connected b srv in
  if negb ok then (0, b, srv)
  else match redis_incrby_expire srv (_make_key cfg identifier "concurrent")
               1 t with
       | Some (v, srv') => (v, b, srv')
       | None => (0, b, srv)
       end.

(** [RedisRateLimitBackend.decr_concurrent]. *)
Definition decr_concurrent (cfg : RateLimitConfig) (identifier : string)
    : B Z := fun b srv =>
  let '(ok, b, srv) := _ensure_connected b srv in
  if negb ok then (0, b, srv)
  else
    let key := _make_key cfg identifier "concurrent" in
    match redis_decr srv key with
    | Some (c, srv') =>
        if c <? 0 then
          match redis_set srv' key 0 with
          | Some srv'' => (0, b, srv'')
          | None => (0, b, srv')
          end
        else (c, b, srv')
    | None => (0, b, srv)
    end.

(** ** The limiter object *)

Record RateLimiter := mkLimiter {
  config : RateLimitConfig;
  _enabled : bool;
  _redis_backend : option RedisRateLimitBackend;
  _user_minute_state : gmap string RateLimitState;
  _user_hour_state : gmap string RateLimitState;
  _global_minute_state : RateLimitState;
  _global_hour_state : RateLimitState;
  _concurrent_requests : gmap string Z;
  _global_concurrent : Z
}.

(** [RateLimiter.__init__], run while the clock reads [t]. *)
Definition RateLimiter_new (cfg : RateLimitConfig) (t : Q) : RateLimiter :=
  {| config := cfg;
     _enabled := enabled cfg;
     _redis_backend :=
       if use_redis cfg then Some RedisRateLimitBackend_new else None;
     _user_minute_state := ∅;
     _user_hour_state := ∅;
     _global_minute_state := RateLimitState_new t;
     _global_hour_state := RateLimitState_new t;
     _concurrent_requests := ∅;
     _global_concurrent := 0 |}.

Definition set_redis_backend (l : RateLimiter)
    (b : option RedisRateLimitBackend) : RateLimiter :=
  mkLimiter (config l) (_enabled l) b (_user_minute_state l)
    (_user_hour_state l) (_global_minute_state l) (_global_hour_state l)
    (_concurrent_requests l) (_global_concurrent l).

Definition set_user_minute_state (l : RateLimiter)
    (m : gmap string RateLimitState) : RateLimiter :=
  mkLimiter (config l) (_enabled l) (_redis_backend l) m
    (_user_hour_state l) (_global_minute_state l) (_global_hour_state l)
    (_concurrent_requests l) (_global_concurrent l).

Definition set_user_hour_state (l : RateLimiter)
    (m : gmap string RateLimitState) : RateLimiter :=
  mkLimiter (config l) (_enabled l) (_redis_backend l) (_user_minute_state l)
    m (_global_minute_state l) (_global_hour_state l)
    (_concurrent_requests l) (_global_concurrent l).

Definition set_global_minute_state (l : RateLimiter) (s : RateLimitState)
    : RateLimiter :=
  mkLimiter (config l) (_enabled l) (_redis_backend l) (_user_minute_state l)
    (_user_hour_state l) s (_global_hour_state l)
    (_concurrent_requests l) (_global_concurrent l).

Definition set_global_hour_state (l : RateLimiter) (s : RateLimitState)
    : RateLimiter :=
  mkLimiter (config l) (_enabled l) (_redis_backend l) (_user_minute_state l)
    (_user_hour_state l) (_global_minute_state l) s
    (_concurrent_requests l) (_global_concurrent l).

Definition set_concurrent_requests (l : RateLimiter) (m : gmap string Z)
    : RateLimiter :=
  mkLimiter (config l) (_enabled l) (_redis_backend l) (_user_minute_state l)
    (_user_hour_state l) (_global_minute_state l) (_global_hour_state l)
    m (_global_concurrent l).

Definition set_global_concurrent (l : RateLimiter) (c : Z) : RateLimiter :=
  mkLimiter (config l) (_enabled l) (_redis_backend l) (_user_minute_state l)
    (_user_hour_state l) (_global_minute_state l) (_global_hour_state l)
    (_concurrent_requests l) c.

(** ** The world and the monad of the methods *)

Record World := mkWorld {
  limiter : RateLimiter;
  server : RedisServer
}.

Definition M (A : Type) : Type := World -> result A * World.

Definition ret {A} (a : A) : M A := fun w => (Ok a, w).
Definition raise {A} (e : exn) : M A := fun w => (Raise e, w).
Definition bind {A B} (m : M A) (k : A -> M B) : M B := fun w =>
  match m w with
  | (Ok a, w') => k a w'
  | (Raise e, w') => (Raise e, w')
  end.

Declare Scope rl_scope.
Delimit Scope rl_scope with rl.
Notation "x <- c1 ;; c2" := (bind c1 (fun x => c2))
  (at level 100, c1 at next level, right associativity) : rl_scope.
Notation "c1 ;; c2" := (bind c1 (fun _ => c2))
  (at level 100, right associativity) : rl_scope.
Local Open Scope rl_scope.

Definition gets {A} (f : RateLimiter -> A) : M A := fun w =>
  (Ok (f (limiter w)), w).
Definition modify (f : RateLimiter -> RateLimiter) : M unit := fun w =>
  (Ok tt, mkWorld (f (limiter w)) (server w)).
Definition lift {A} (r : result A) : M A := fun w => (r, w).

(** A call [await self._redis_backend.m(...)].  The limiter only makes such
    a call after testing that the backend object exists. *)
Definition call_backend {A} (dflt : A) (m : B A) : M A := fun w =>
  match _redis_backend (limiter w) with
  | Some b =>
      let '(a, b', srv') := m b (server w) in
      (Ok a, mkWorld (set_redis_backend (limiter w) (Some b')) srv')
  | None => (Ok dflt, w)
  end.

(** ** The local window store *)

(** [self._user_minute_state[identifier] if self.config.per_user else
    self._global_minute_state]: the state object the name is bound to.
    Indexing the [defaultdict] at a new key inserts a fresh state. *)
Definition minute_state_of (identifier : string) (now : Q)
    : M RateLimitState := fun w =>
  let l := limiter w in
  if per_user (config l) then
    match _user_minute_state l !! identifier with
    | Some s => (Ok s, w)
    | None =>
        let s := RateLimitState_new now in
        (Ok s, mkWorld (set_user_minute_state l
                          (<[identifier := s]> (_user_minute_state l)))
                       (server w))
    end
  else (Ok (_global_minute_state l), w).

(** The limiter after a write to a field of that object: the object bound
    to [minute_state] now is [s]. *)
Definition put_minute (l : RateLimiter) (identifier : string)
    (s : RateLimitState) : RateLimiter :=
  if per_user (config l) then
    set_user_minute_state l (<[identifier := s]> (_user_minute_state l))
  else set_global_minute_state l s.

Definition store_minute_state (identifier : string) (s : RateLimitState)
    : M unit :=
  modify (fun l => put_minute l identifier s).

Definition hour_state_of (identifier : string) (now : Q)
    : M RateLimitState := fun w =>
  let l := limiter w in
  if per_user (config l) then
    match _user_hour_state l !! identifier with
    | Some s => (Ok s, w)
    | None =>
        let s := RateLimitState_new now in
        (Ok s, mkWorld (set_user_hour_state l
                          (<[identifier := s]> (_user_hour_state l)))
                       (server w))
    end
  else (Ok (_global_hour_state l), w).

Definition put_hour (l : RateLimiter) (identifier : string)
    (s : RateLimitState) : RateLimiter :=
  if per_user (config l) then
    set_user_hour_state l (<[identifier := s]> (_user_hour_state l))
  else set_global_hour_state l s.

Definition store_hour_state (identifier : string) (s : RateLimitState)
    : M unit :=
  modify (fun l => put_hour l identifier s).

(** [self._concurrent_requests[identifier]] on the [defaultdict(int)]. *)
Definition concurrent_of (identifier : string) : M Z := fun w =>
  let l := limiter w in
  match _concurrent_requests l !! identifier with
  | Some c => (Ok c, w)
  | None =>
      (Ok 0, mkWorld (set_concurrent_requests l
                        (<[identifier := 0]> (_concurrent_requests l)))
                     (server w))
  end.

Definition set_count (s : RateLimitState) (c : Z) : RateLimitState :=
  mkState c (tokens s) (window_start s) (concurrent s).
Definition set_tokens (s : RateLimitState) (t : Z) : RateLimitState :=
  mkState (count s) t (window_start s) (concurrent s).
Definition set_window_start (s : RateLimitState) (t : Q) : RateLimitState :=
  mkState (count s) (tokens s) t (concurrent s).

(** [a >= b] and [a > b] on floats. *)
Definition float_ge (a b : Q) : bool := Qle_bool b a.
Definition float_gt (a b : Q) : bool := negb (Qle_bool a b).

(** [RateLimiter._cleanup_windows]: the limiter it leaves, and the method. *)
Definition cleaned (now : Q) (l : RateLimiter) : RateLimiter :=
  let l := set_user_minute_state l
    (filter (fun kv => float_gt (now - window_start kv.2) 120 = false)
            (_user_minute_state l)) in
  let l := set_user_hour_state l
    (filter (fun kv => float_gt (now - window_start kv.2) 7200 = false)
            (_user_hour_state l)) in
  set_concurrent_requests l
    (filter (fun kv => kv.2 ≠ 0) (_concurrent_requests l)).

Definition _cleanup_windows (now : Q) : M unit := modify (cleaned now).

(** ** The orchestrator *)

(** [RateLimiter._check_concurrent_limit]. *)
Definition _check_concurrent_limit (identifier : string) : M unit :=
  cfg <- gets config ;;
  current <- (if per_user cfg then concurrent_of identifier
              else gets _global_concurrent) ;;
  if current >=? max_concurrent_requests cfg then
    raise (RateLimitExceeded "concurrent" (Some 1%Q))
  else ret tt.

(** [RateLimiter._check_request_limit]. *)
Definition _check_request_limit (identifier : string) (now : Q) : M unit :=
  cfg <- gets config ;;
  (* Per-minute limit *)
  minute_state <- minute_state_of identifier now ;;
  minute_state <-
    (if float_ge (now - window_start minute_state) 60 then
       let s := set_window_start (set_count minute_state 0) now in
       store_minute_state identifier s ;; ret s
     else ret minute_state) ;;
  max_requests <-
    lift (burst_limit (requests_per_minute cfg) (burst_multiplier cfg)) ;;
  if count minute_state >=? max_requests then
    let retry_after := (60 - (now - window_start minute_state))%Q in
    raise (RateLimitExceeded "requests_per_minute" (Some (max0 retry_after)))
  else
  (* Per-hour limit *)
  hour_state <- hour_state_of identifier now ;;
  hour_state <-
    (if float_ge (now - window_start hour_state) 3600 then
       let s := set_window_start (set_count hour_state 0) now in
       store_hour_state identifier s ;; ret s
     else ret hour_state) ;;
  if count hour_state >=? requests_per_hour cfg then
    let retry_after := (3600 - (now - window_start hour_state))%Q in
    raise (RateLimitExceeded "requests_per_hour" (Some (max0 retry_after)))
  else ret tt.

(** [RateLimiter._check_token_limit]. *)
Definition _check_token_limit (identifier : string) (tokens_ : Z) (now : Q)
    : M unit :=
  cfg <- gets config ;;
  minute_state <- minute_state_of identifier now ;;
  max_tokens <-
    lift (burst_limit (tokens_per_minute cfg) (burst_multiplier cfg)) ;;
  if tokens minute_state + tokens_ >? max_tokens then
    let retry_after := (60 - (now - window_start minute_state))%Q in
    raise (RateLimitExceeded "tokens_per_minute" (Some (max0 retry_after)))
  else ret tt.

(** [RateLimiter._check_limit_memory]. *)
Definition _check_limit_memory (identifier : string) (estimated_tokens : Z)
    (now : Q) : M bool :=
  _cleanup_windows now ;;
  _check_concurrent_limit identifier ;;
  _check_request_limit identifier now ;;
  (if estimated_tokens >? 0 then
     _check_token_limit identifier estimated_tokens now
   else ret tt) ;;
  ret true.

(** The window names [f"minute:{int(now // 60)}"] and
    [f"hour:{int(now // 3600)}"]. *)
Definition minute_window (now : Q) : string :=
  "minute:" +:+ pretty (float_floordiv now 60).
Definition hour_window (now : Q) : string :=
  "hour:" +:+ pretty (float_floordiv now 3600).

(** [RateLimiter._check_limit_redis]. *)
Definition _check_limit_redis (identifier : string) (estimated_tokens : Z)
    (now : Q) : M bool :=
  cfg <- gets config ;;
  concurrent_ <- call_backend 0 (get_concurrent cfg identifier) ;;
  if concurrent_ >=? max_concurrent_requests cfg then
    raise (RateLimitExceeded "concurrent" (Some 1%Q))
  else
  minute_count <- call_backend 0 (get_count cfg identifier (minute_window now)) ;;
  max_requests <-
    lift (burst_limit (requests_per_minute cfg) (burst_multiplier cfg)) ;;
  if minute_count >=? max_requests then
    let retry_after := (60 - float_mod now 60)%Q in
    raise (RateLimitExceeded "requests_per_minute" (Some retry_after))
  else
  hour_count <- call_backend 0 (get_count cfg identifier (hour_window now)) ;;
  if hour_count >=? requests_per_hour cfg then
    let retry_after := (3600 - float_mod now 3600)%Q in
    raise (RateLimitExceeded "requests_per_hour" (Some retry_after))
  else ret true.

(** The test [self._redis_backend and self.config.use_redis]. *)
Definition redis_active (l : RateLimiter) : bool :=
  bool_decide (is_Some (_redis_backend l)) && use_redis (config l).

(** [RateLimiter.check_limit]. *)
Definition check_limit (user_id : option string) (estimated_tokens : Z)
    (session_id : option string) (now : Q) : M bool :=
  en <- gets _enabled ;;
  if negb en then ret true
  else
    cfg <- gets config ;;
    identifier <- lift (_get_identifier cfg user_id session_id) ;;
    redis <- gets redis_active ;;
    if redis then _check_limit_redis identifier estimated_tokens now
    else _check_limit_memory identifier estimated_tokens now.

(** [RateLimiter.record_request]. *)
Definition record_request (user_id : option string) (tokens_used : Z)
    (session_id : option string) (now : Q) : M unit :=
  en <- gets _enabled ;;
  if negb en then ret tt
  else
    cfg <- gets config ;;
    identifier <- lift (_get_identifier cfg user_id session_id) ;;
    redis <- gets redis_active ;;
    if redis then
      call_backend 0 (increment cfg identifier (minute_window now) 120 1) ;;
      call_backend 0 (increment cfg identifier (hour_window now) 7200 1) ;;
      ret tt
    else
      minute_state <- minute_state_of identifier now ;;
      let minute_state := set_count minute_state (count minute_state + 1) in
      let minute_state :=
        set_tokens minute_state (tokens minute_state + tokens_used) in
      store_minute_state identifier minute_state ;;
      hour_state <- hour_state_of identifier now ;;
      let hour_state := set_count hour_state (count hour_state + 1) in
      let hour_state :=
        set_tokens hour_state (tokens hour_state + tokens_used) in
      store_hour_state identifier hour_state.

(** [RateLimiter.acquire_concurrent_slot]. *)
Definition acquire_concurrent_slot (user_id session_id : option string)
    : M unit :=
  en <- gets _enabled ;;
  if negb en then ret tt
  else
    cfg <- gets config ;;
    identifier <- lift (_get_identifier cfg user_id session_id) ;;
    redis <- gets redis_active ;;
    if redis then
      call_backend 0 (incr_concurrent cfg identifier 300) ;; ret tt
    else if per_user cfg then
      c <- concurrent_of identifier ;;
      modify (fun l => set_concurrent_requests l
                (<[identifier := c + 1]> (_concurrent_requests l)))
    else
      modify (fun l => set_global_concurrent l (_global_concurrent l + 1)).

(** [RateLimiter.release_concurrent_slot]. *)
Definition release_concurrent_slot (user_id session_id : option string)
    : M unit :=
  en <- gets _enabled ;;
  if negb en then ret tt
  else
    cfg <- gets config ;;
    identifier <- lift (_get_identifier cfg user_id session_id) ;;
    redis <- gets redis_active ;;
    if redis then
      call_backend 0 (decr_concurrent cfg identifier) ;; ret tt
    else if per_user cfg then
      c <- concurrent_of identifier ;;
      modify (fun l => set_concurrent_requests l
                (<[identifier := Z.max 0 (c - 1)]> (_concurrent_requests l)))
    else
      modify (fun l =>
        set_global_concurrent l (Z.max 0 (_global_concurrent l - 1))).

(** One dimension of [get_usage]'s answer. *)
Record Usage := mkUsage {
  used : Z;
  limit_ : Z;
  remaining : Z
}.

Record UsageReport := mkReport {
  requests_minute : Usage;
  requests_hour : Usage;
  tokens_minute : Usage;
  concurrent_used : Z;
  concurrent_limit : Z
}.

(** [RateLimiter.get_usage].  The fresh [RateLimitState()] that [dict.get]
    is given as a default has zero counters. *)
Definition get_usage (l : RateLimiter) (user_id : option string) (now : Q)
    : UsageReport :=
  let identifier := if truthy user_id then default "" user_id else "global" in
  let minute_state :=
    default (RateLimitState_new now) (_user_minute_state l !! identifier) in
  let hour_state :=
    default (RateLimitState_new now) (_user_hour_state l !! identifier) in
  let cfg := config l in
  {| requests_minute :=
       mkUsage (count minute_state) (requests_per_minute cfg)
         (Z.max 0 (requests_per_minute cfg - count minute_state));
     requests_hour :=
       mkUsage (count hour_state) (requests_per_hour cfg)
         (Z.max 0 (requests_per_hour cfg - count hour_state));
     tokens_minute :=
       mkUsage (tokens minute_state) (tokens_per_minute cfg)
         (Z.max 0 (tokens_per_minute cfg - tokens minute_state));
     concurrent_used := default 0 (_concurrent_requests l !! identifier);
     concurrent_limit := max_concurrent_requests cfg |}.

(** ** Sequences of calls *)

Inductive call :=
| Check (user_id : option string) (estimated_tokens : Z)
        (session_id : option string) (now : Q)
| Record_request (user_id : option string) (tokens_used : Z)
        (session_id : option string) (now : Q)
| Acquire (user_id session_id : option string)
| Release (user_id session_id : option string).

(** What the caller sees of one call. *)
Inductive answer :=
| Allowed            (* [check_limit] returned [True] *)
| Returned           (* a method without result returned *)
| Raised (e : exn).

Definition step (c : call) (w : World) : answer * World :=
  match c with
  | Check u n s now =>
      match check_limit u n s now w with
      | (Ok _, w') => (Allowed, w')
      | (Raise e, w') => (Raised e, w')
      end
  | Record_request u n s now =>
      match record_request u n s now w with
      | (Ok _, w') => (Returned, w')
      | (Raise e, w') => (Raised e, w')
      end
  | Acquire u s =>
      match acquire_concurrent_slot u s w with
      | (Ok _, w') => (Returned, w')
      | (Raise e, w') => (Raised e, w')
      end
  | Release u s =>
      match release_concurrent_slot u s w with
      | (Ok _, w') => (Returned, w')
      | (Raise e, w') => (Raised e, w')
      end
  end.

Fixpoint run (cs : list call) (w : World) : list answer * World :=
  match cs with
  | [] => ([], w)
  | c :: cs =>
      let '(a, w1) := step c w in
      let '(rest, w2) := run cs w1 in
      (a :: rest, w2)
  end.

(** The answer of a call that does nothing. *)
Definition quiet (c : call) : answer :=
  match c with
  | Check _ _ _ _ => Allowed
  | _ => Returned
  end.

(** A world whose limiter was just constructed. *)
Definition new_world (cfg : RateLimitConfig) (t : Q) (srv : RedisServer)
    : World :=
  mkWorld (RateLimiter_new cfg t) srv.

(** A server that is installed, answers and holds nothing. *)
Definition empty_server : RedisServer :=
  {| installed := true; reachable := true; kv := ∅; ttl := ∅ |}.

(** A server that does not answer. *)
Definition dead_server : RedisServer :=
  {| installed := true; reachable := false; kv := ∅; ttl := ∅ |}.

(** ** The environment of the limiter *)






(** ** Notions used in the statements *)

(** The window state that the limiter holds for an identifier: the entry of
    the per-user table, or the global state when limits are global. *)
Definition cur_minute (l : RateLimiter) (identifier : string)
    : option RateLimitState :=
  if per_user (config l) then _user_minute_state l !! identifier
  else Some (_global_minute_state l).

Definition cur_hour (l : RateLimiter) (identifier : string)
    : option RateLimitState :=
  if per_user (config l) then _user_hour_state l !! identifier
  else Some (_global_hour_state l).

(** The concurrency counter of an identifier in the local store. *)
Definition cur_concurrent (l : RateLimiter) (identifier : string) : Z :=
  if per_user (config l) then default 0 (_concurrent_requests l !! identifier)
  else _global_concurrent l.

(** The state an indexing of the table yields at time [now]. *)
Definition minute_at (l : RateLimiter) (identifier : string) (now : Q)
    : RateLimitState :=
  default (RateLimitState_new now) (cur_minute l identifier).

Definition hour_at (l : RateLimiter) (identifier : string) (now : Q)
    : RateLimitState :=
  default (RateLimitState_new now) (cur_hour l identifier).

(** A window is stale at [now] when its period has elapsed. *)
Definition stale (period now : Q) (s : RateLimitState) : bool :=
  float_ge (now - window_start s) period.

(** What the rollover of [_check_request_limit] leaves of a window. *)
Definition rolled (period now : Q) (s : RateLimitState) : RateLimitState :=
  if stale period now s then set_window_start (set_count s 0) now else s.

(** What [record_request] leaves of a window after a request that used
    [n] tokens. *)
Definition recorded (n : Z) (s : RateLimitState) : RateLimitState :=
  set_tokens (set_count s (count s + 1)) (tokens s + n).

(** The counters of a window state [m'] against those of [m]: each is the
    same or zero, and both are the same when [m] is not stale. *)
Definition kept (period now : Q) (m m' : RateLimitState) : Prop :=
  (count m' = count m \/ count m' = 0) /\
  (tokens m' = tokens m \/ tokens m' = 0) /\
  (stale period now m = false ->
   count m' = count m /\ tokens m' = tokens m /\
   stale period now m' = false).

(** The ceilings as the checks compute them, [int(requests_per_minute *
    burst_multiplier)] and [int(tokens_per_minute * burst_multiplier)], and
    their values where the computation succeeds. *)
Definition requests_ceiling (cfg : RateLimitConfig) : result Z :=
  burst_limit (requests_per_minute cfg) (burst_multiplier cfg).
Definition tokens_ceiling (cfg : RateLimitConfig) : result Z :=
  burst_limit (tokens_per_minute cfg) (burst_multiplier cfg).

Definition ceiling_value (r : result Z) : Z :=
  match r with
  | Ok m => m
  | Raise _ => 0
  end.

Definition max_requests (cfg : RateLimitConfig) : Z :=
  ceiling_value (requests_ceiling cfg).
Definition max_tokens (cfg : RateLimitConfig) : Z :=
  ceiling_value (tokens_ceiling cfg).

(** The limiter after [self._concurrent_requests[identifier]] was read. *)
Definition touched_concurrent (l : RateLimiter) (identifier : string)
    : RateLimiter :=
  if per_user (config l) then
    set_concurrent_requests l
      (<[identifier := default 0 (_concurrent_requests l !! identifier)]>
         (_concurrent_requests l))
  else l.

(** The start of the fixed window that the distributed backend counts in:
    the window named [int(now // period)] starts at that multiple of the
    period. *)
Definition redis_window_start (period now : Q) : Q :=
  (period * inject_Z (float_floordiv now period))%Q.

(** The request count that the distributed backend holds for an identifier
    in a window (an absent key counts as 0). *)
Definition redis_count (w : World) (identifier window : string) : Z :=
  default 0 (kv (server w)
              !! _make_key (config (limiter w)) identifier window).

(** The limiter after its local concurrency counter for an identifier was
    assigned. *)
Definition put_concurrent (l : RateLimiter) (identifier : string) (v : Z)
    : RateLimiter :=
  if per_user (config l) then
    set_concurrent_requests l (<[identifier := v]> (_concurrent_requests l))
  else set_global_concurrent l v.

(** The concurrency counter of an identifier in the backend that is in use:
    the value of the identifier's Redis key (an absent key counts as 0), or
    the local counter. *)
Definition concurrency_counter (w : World) (identifier : string) : Z :=
  if redis_active (limiter w) then
    default 0 (kv (server w)
                !! _make_key (config (limiter w)) identifier "concurrent")
  else cur_concurrent (limiter w) identifier.

Definition is_slot_call (c : call) : bool :=
  match c with
  | Acquire _ _ | Release _ _ => true
  | _ => false
  end.


Definition is_acquire (c : call) : bool :=
  match c with
  | Acquire _ _ => true
  | _ => false
  end.

(** Whether a caller resolved to [identifier'] counts on the counter of
    [identifier]: always on the one global counter of the local store,
    otherwise when the identifiers agree. *)
Definition shares (l : RateLimiter) (identifier' identifier : string) : bool :=
  (negb (redis_active l) && negb (per_user (config l)))
  || String.eqb identifier' identifier.

(** What a call means for the counter of [identifier]: [Some true] an
    acquire, [Some false] a release, [None] nothing. *)
Definition slot_effect (l : RateLimiter) (identifier : string) (c : call)
    : option bool :=
  match c with
  | Acquire u s =>
      match _get_identifier (config l) u s with
      | Ok i => if shares l i identifier then Some true else None
      | Raise _ => None
      end
  | Release u s =>
      match _get_identifier (config l) u s with
      | Ok i => if shares l i identifier then Some false else None
      | Raise _ => None
      end
  | _ => None
  end.

(** The effect of the counter update that a slot call makes. *)
Definition slot_update (o : option bool) (c : Z) : Z :=
  match o with
  | Some true => c + 1
  | Some false => Z.max 0 (c - 1)
  | None => c
  end.


(** The distributed backend answers: the package is installed, the server
    reachable, and no earlier connection attempt has failed. *)
Definition healthy (w : World) : Prop :=
  installed (server w) = true /\ reachable (server w) = true /\
  forall b, _redis_backend (limiter w) = Some b ->
    _initialized b = true -> is_Some (_client b).

(** ** Configurations used in the examples *)

(** The defaults with the limiter switched off and a user id required. *)
Definition disabled_strict_config : RateLimitConfig :=
  mkConfig false 60 1000 100000 1000000 10 true (float_lit 3 2) false
    "localhost" 6379 1 "ratelimit:" true true.

(** The defaults with a user id required. *)
Definition strict_config : RateLimitConfig :=
  mkConfig true 60 1000 100000 1000000 10 true (float_lit 3 2) false
    "localhost" 6379 1 "ratelimit:" true true.

(** The defaults with the distributed backend selected. *)
Definition redis_config : RateLimitConfig :=
  mkConfig true 60 1000 100000 1000000 10 true (float_lit 3 2) true
    "localhost" 6379 1 "ratelimit:" false true.

(** The defaults with one global set of counters. *)
Definition global_config : RateLimitConfig :=
  mkConfig true 60 1000 100000 1000000 10 false (float_lit 3 2) false
    "localhost" 6379 1 "ratelimit:" false true.

(** The defaults with no request allowed per minute. *)
Definition closed_config : RateLimitConfig :=
  mkConfig true 0 1000 100000 1000000 10 true (float_lit 3 2) false
    "localhost" 6379 1 "ratelimit:" false true.

(** The same on the distributed backend. *)
Definition closed_redis_config : RateLimitConfig :=
  mkConfig true 0 1000 100000 1000000 10 true (float_lit 3 2) true
    "localhost" 6379 1 "ratelimit:" false true.

(** A world in which one request of 5 tokens was recorded at time 0. *)
Definition one_request_world : World :=
  (run [Record_request (Some "u1") 5 None 0]
       (new_world default_config 0 empty_server)).2.

(** Calls of [check_limit] only. *)
Definition is_check (c : call) : bool :=
  match c with
  | Check _ _ _ _ => true
  | _ => false
  end.

(** The counters that the local store holds for an identifier: request
    count and tokens of the minute window, request count of the hour
    window (zero where the store has no entry). *)
Definition counters (l : RateLimiter) (identifier : string) : Z * Z * Z :=
  (count (minute_at l identifier 0), tokens (minute_at l identifier 0),
   count (hour_at l identifier 0)).

(** A counter is the same as before or zero. *)
Definition same_or_zero (x x' : Z) : Prop := x' = x \/ x' = 0.

(** A world in which 1000 requests were recorded at time 0. *)
Definition hour_saturated_world : World :=
  (run (repeat (Record_request (Some "u1") 0 None 0) 1000)
       (new_world default_config 0 empty_server)).2.

(** What does not change in the life of a limiter: its configuration,
    whether it is enabled and which backend it uses. *)
Definition setup (l : RateLimiter) : RateLimitConfig * bool * bool :=
  (config l, _enabled l, redis_active l).






(** A world in which one request of 150000 tokens, the whole burst
    allowance of a minute, was checked and recorded at time 0. *)
Definition token_saturated_world : World :=
  (run [Check (Some "u1") 0 None 0; Record_request (Some "u1") 150000 None 0]
       (new_world default_config 0 empty_server)).2.

(** The same with one global set of counters. *)
Definition token_saturated_global_world : World :=
  (run [Check (Some "u1") 0 None 0; Record_request (Some "u1") 150000 None 0]
       (new_world global_config 0 empty_server)).2.

(** Ninety requests recorded at time 0 and then a check. *)
Definition ninety_then_check : list call :=
  repeat (Record_request (Some "u1") 0 None 0) 90
  ++ [Check (Some "u1") 0 None 0].

(** ** Administration: reset and close *)

(** [RateLimiter.reset], run while the clock reads [now]: one user's entries
    are popped from the three tables, or, without a user id, all tables are
    cleared and the global state is built anew. *)
Definition reset (user_id : option string) (now : Q) : M unit :=
  modify (fun l =>
    if truthy user_id then
      let u := default "" user_id in
      let l := set_user_minute_state l (delete u (_user_minute_state l)) in
      let l := set_user_hour_state l (delete u (_user_hour_state l)) in
      set_concurrent_requests l (delete u (_concurrent_requests l))
    else
      mkLimiter (config l) (_enabled l) (_redis_backend l) ∅ ∅
        (RateLimitState_new now) (RateLimitState_new now) ∅ 0).

(** [RedisRateLimitBackend.close]. *)
Definition backend_close : B unit := fun b srv =>
  match _client b with
  | Some _ => (tt, {| _client := None; _initialized := _initialized b |}, srv)
  | None => (tt, b, srv)
  end.

(** [RateLimiter.close]. *)
Definition close : M unit := call_backend tt backend_close.

(** ** Notions used in the further properties *)

(** A backend object as the constructor and the methods leave it: it holds
    no client before its first connection attempt. *)
Definition backend_wf (b : RedisRateLimitBackend) : Prop :=
  _initialized b = false -> _client b = None.

(** A backend that made its connection attempt and holds no client: the
    attempt failed, or the backend was closed. *)
Definition backend_off (b : RedisRateLimitBackend) : Prop :=
  _initialized b = true /\ _client b = None.

(** What a check answers when every counter it reads is zero. *)
Definition open_answer (cfg : RateLimitConfig) (now : Q) : answer :=
  if 0 >=? max_concurrent_requests cfg then
    Raised (RateLimitExceeded "concurrent" (Some 1%Q))
  else
    match requests_ceiling cfg with
    | Raise e => Raised e
    | Ok ceiling =>
        if 0 >=? ceiling then
          Raised (RateLimitExceeded "requests_per_minute"
                    (Some (60 - float_mod now 60)%Q))
        else if 0 >=? requests_per_hour cfg then
          Raised (RateLimitExceeded "requests_per_hour"
                    (Some (3600 - float_mod now 3600)%Q))
        else Allowed
    end.

(** What a call answers on a limiter whose distributed backend is off. *)
Definition off_answer (cfg : RateLimitConfig) (c : call) : answer :=
  match c with
  | Check u _ s now =>
      match _get_identifier cfg u s with
      | Ok _ => open_answer cfg now
      | Raise e => Raised e
      end
  | Record_request u _ s _ | Acquire u s | Release u s =>
      match _get_identifier cfg u s with
      | Ok _ => Returned
      | Raise e => Raised e
      end
  end.

(** The identifier a call is made for, when its caller resolves. *)
Definition caller (cfg : RateLimitConfig) (c : call) : option string :=
  match c with
  | Check u _ s _ | Record_request u _ s _ | Acquire u s | Release u s =>
      match _get_identifier cfg u s with
      | Ok i => Some i
      | Raise _ => None
      end
  end.

(** The world [w] with the local tables and counters of [l'] in place of
    its own. *)
Definition with_local (l' : RateLimiter) (w : World) : World :=
  mkWorld
    (mkLimiter (config (limiter w)) (_enabled (limiter w))
       (_redis_backend (limiter w)) (_user_minute_state l')
       (_user_hour_state l') (_global_minute_state l')
       (_global_hour_state l') (_concurrent_requests l')
       (_global_concurrent l'))
    (server w).

(** One request per minute and per hour, no burst allowance. *)
Definition one_rpm_config : RateLimitConfig :=
  mkConfig true 1 1 100000 1000000 10 true (float_lit 1 1) false
    "localhost" 6379 1 "ratelimit:" false true.

(** A world of that configuration in which one request was recorded at
    time 0. *)
Definition one_rpm_world : World :=
  (run [Record_request (Some "u1") 0 None 0]
       (new_world one_rpm_config 0 empty_server)).2.

(** Whether two instants lie in the same calendar minute, or hour. *)
Definition same_minute (t t' : Q) : bool :=
  Z.eqb (float_floordiv t' 60) (float_floordiv t 60).
Definition same_hour (t t' : Q) : bool :=
  Z.eqb (float_floordiv t' 3600) (float_floordiv t 3600).

(** How many of the instants [ts] satisfy [p]. *)
Definition how_many (p : Q -> bool) (ts : list Q) : Z :=
  Z.of_nat (length (List.filter p ts)).

(** A caller recording one request at each of the instants [ts]. *)
Definition records_at (u s : option string) (ts : list Q) : list call :=
  map (fun t => Record_request u 0 s t) ts.

(** A caller recording requests, each with its token count and instant. *)
Definition records (u s : option string) (rs : list (Z * Q)) : list call :=
  map (fun r => Record_request u r.1 s r.2) rs.

Definition total_tokens (rs : list (Z * Q)) : Z :=
  foldr (fun r acc => r.1 + acc) 0 rs.

(** ** Proof support *)

(** Case analysis on every test that a closed form of a check makes. *)
Ltac split_checks :=
  repeat match goal with
         | |- context [requests_ceiling ?c] => destruct (requests_ceiling c)
         | |- context [tokens_ceiling ?c] => destruct (tokens_ceiling c)
         | |- context [if ?c then _ else _] => destruct c
         end.

Ltac unfold_m :=
  unfold check_limit, record_request, acquire_concurrent_slot,
    release_concurrent_slot, _check_limit_memory, _check_limit_redis,
    _check_request_limit, _check_token_limit, _check_concurrent_limit,
    _cleanup_windows, minute_state_of, hour_state_of, store_minute_state,
    store_hour_state, concurrent_of, call_backend,
    bind, ret, raise, gets, modify, lift in *.

(** ** Identifier resolution (C8) *)

(** C8. Identifier resolution: a present user id (one that is neither [None]
    nor the empty string, the test [if user_id:] of the source) is returned
    as it is; otherwise the call fails with the identity-required error
    ([limit_type] "authentication") when the configuration requires a user
    id; otherwise it returns "session:" followed by the session id when
    session fallback is enabled and a session id is present; otherwise it
    returns the shared "anonymous" bucket. *)
Theorem get_identifier_policy (cfg : RateLimitConfig)
    (user_id session_id : option string) :
  (forall u, user_id = Some u -> u <> "" ->
     _get_identifier cfg user_id session_id = Ok u) /\
  (truthy user_id = false -> require_user_id cfg = true ->
     _get_identifier cfg user_id session_id =
       Raise (RateLimitExceeded "authentication" None)) /\
  (forall s, truthy user_id = false -> require_user_id cfg = false ->
     fallback_to_session cfg = true -> session_id = Some s -> s <> "" ->
     _get_identifier cfg user_id session_id = Ok ("session:" +:+ s)) /\
  (truthy user_id = false -> require_user_id cfg = false ->
     fallback_to_session cfg = false \/ truthy session_id = false ->
     _get_identifier cfg user_id session_id = Ok "anonymous").
Proof.
  unfold _get_identifier. repeat split.
  - intros u -> Hu. simpl.
    destruct (String.eqb_spec u ""); [contradiction | reflexivity].
  - intros -> ->. reflexivity.
  - intros s -> -> -> -> Hs. simpl.
    destruct (String.eqb_spec s ""); [contradiction | reflexivity].
  - intros -> -> [-> | ->]; [reflexivity |].
    rewrite andb_false_r. reflexivity.
Qed.

Lemma get_identifier_policy_witness :
  _get_identifier default_config (Some "alice") (Some "s1") = Ok "alice" /\
  _get_identifier default_config None (Some "s1") = Ok "session:s1" /\
  _get_identifier default_config None None = Ok "anonymous" /\
  _get_identifier strict_config (Some "") (Some "s1") =
    Raise (RateLimitExceeded "authentication" None).
Proof.
  destruct (get_identifier_policy default_config (Some "alice") (Some "s1"))
    as (H1 & _).
  destruct (get_identifier_policy default_config None (Some "s1"))
    as (_ & _ & H3 & _).
  destruct (get_identifier_policy default_config None None)
    as (_ & _ & _ & H4).
  destruct (get_identifier_policy strict_config (Some "") (Some "s1"))
    as (_ & H2 & _).
  split; [apply H1; [reflexivity | discriminate] |].
  split; [apply (H3 "s1"); try reflexivity; discriminate |].
  split; [apply H4; [reflexivity | reflexivity | right; reflexivity] |].
  apply H2; reflexivity.
Defined.

(** ** A disabled limiter (C10) *)

Lemma step_disabled (c : call) (w : World) :
  _enabled (limiter w) = false -> step c w = (quiet c, w).
Proof.
  intros H. destruct c; simpl; unfold_m; rewrite H; reflexivity.
Qed.

Lemma run_disabled (cs : list call) (w : World) :
  _enabled (limiter w) = false -> run cs w = (map quiet cs, w).
Proof.
  intros H. induction cs as [| c cs IH]; simpl; [reflexivity |].
  rewrite (step_disabled c w H), IH. reflexivity.
Qed.

(** C10. When the configuration flag [enabled] is [False], every call of
    [check_limit] answers allowed and [record_request],
    [acquire_concurrent_slot] and [release_concurrent_slot] return, whatever
    their arguments (also with [require_user_id] set and neither a user id
    nor a session id), and the limiter and the server are left as they
    were: no identity-required error is raised. *)
Theorem disabled_limiter_is_inert (cfg : RateLimitConfig) (t : Q)
    (srv : RedisServer) (cs : list call) :
  enabled cfg = false ->
  run cs (new_world cfg t srv) = (map quiet cs, new_world cfg t srv).
Proof.
  intros H. apply run_disabled. exact H.
Qed.

Lemma disabled_limiter_is_inert_witness :
  run [Check None 5 None 0; Record_request None 5 None 0;
       Acquire None None; Release None None]
      (new_world disabled_strict_config 0 empty_server)
  = ([Allowed; Returned; Returned; Returned],
     new_world disabled_strict_config 0 empty_server).
Proof.
  apply (disabled_limiter_is_inert disabled_strict_config 0 empty_server).
  reflexivity.
Defined.

(** ** The local checks in closed form *)

Lemma put_minute_cur (l : RateLimiter) (id : string) (s : RateLimitState) :
  cur_minute l id = Some s -> put_minute l id s = l.
Proof.
  unfold cur_minute, put_minute. destruct l as [cfg en rb um uh gm gh cr gc].
  simpl. destruct (per_user cfg); unfold set_user_minute_state,
    set_global_minute_state; simpl; intros H.
  - rewrite (insert_id um id s H). reflexivity.
  - congruence.
Qed.

Lemma put_minute_put (l : RateLimiter) (id : string) (s s' : RateLimitState) :
  put_minute (put_minute l id s) id s' = put_minute l id s'.
Proof.
  unfold put_minute. destruct l as [cfg en rb um uh gm gh cr gc]. simpl.
  destruct (per_user cfg) eqn:E; unfold set_user_minute_state,
    set_global_minute_state; simpl; rewrite E; [| reflexivity].
  rewrite insert_insert_eq. reflexivity.
Qed.

Lemma put_hour_cur (l : RateLimiter) (id : string) (s : RateLimitState) :
  cur_hour l id = Some s -> put_hour l id s = l.
Proof.
  unfold cur_hour, put_hour. destruct l as [cfg en rb um uh gm gh cr gc].
  simpl. destruct (per_user cfg); unfold set_user_hour_state,
    set_global_hour_state; simpl; intros H.
  - rewrite (insert_id uh id s H). reflexivity.
  - congruence.
Qed.

Lemma put_hour_put (l : RateLimiter) (id : string) (s s' : RateLimitState) :
  put_hour (put_hour l id s) id s' = put_hour l id s'.
Proof.
  unfold put_hour. destruct l as [cfg en rb um uh gm gh cr gc]. simpl.
  destruct (per_user cfg) eqn:E; unfold set_user_hour_state,
    set_global_hour_state; simpl; rewrite E; [| reflexivity].
  rewrite insert_insert_eq. reflexivity.
Qed.

Lemma minute_state_of_eq (id : string) (now : Q) (w : World) :
  minute_state_of id now w =
    (Ok (minute_at (limiter w) id now),
     mkWorld (put_minute (limiter w) id (minute_at (limiter w) id now))
             (server w)).
Proof.
  unfold minute_state_of, minute_at.
  destruct (cur_minute (limiter w) id) as [s |] eqn:E; simpl.
  - rewrite (put_minute_cur _ _ _ E). unfold cur_minute in E.
    destruct w as [l srv]; simpl in *.
    destruct (per_user (config l)); [rewrite E; reflexivity |].
    congruence.
  - unfold cur_minute in E. unfold put_minute.
    destruct (per_user (config (limiter w))); [| discriminate].
    rewrite E. reflexivity.
Qed.

Lemma hour_state_of_eq (id : string) (now : Q) (w : World) :
  hour_state_of id now w =
    (Ok (hour_at (limiter w) id now),
     mkWorld (put_hour (limiter w) id (hour_at (limiter w) id now))
             (server w)).
Proof.
  unfold hour_state_of, hour_at.
  destruct (cur_hour (limiter w) id) as [s |] eqn:E; simpl.
  - rewrite (put_hour_cur _ _ _ E). unfold cur_hour in E.
    destruct w as [l srv]; simpl in *.
    destruct (per_user (config l)); [rewrite E; reflexivity |].
    congruence.
  - unfold cur_hour in E. unfold put_hour.
    destruct (per_user (config (limiter w))); [| discriminate].
    rewrite E. reflexivity.
Qed.

Lemma config_put_minute (l : RateLimiter) (id : string) (s : RateLimitState) :
  config (put_minute l id s) = config l.
Proof. unfold put_minute. destruct (per_user (config l)); reflexivity. Qed.

Lemma config_put_hour (l : RateLimiter) (id : string) (s : RateLimitState) :
  config (put_hour l id s) = config l.
Proof. unfold put_hour. destruct (per_user (config l)); reflexivity. Qed.

Lemma cur_minute_put_minute (l : RateLimiter) (id : string)
    (s : RateLimitState) :
  cur_minute (put_minute l id s) id = Some s.
Proof.
  unfold cur_minute. rewrite config_put_minute. unfold put_minute.
  destruct (per_user (config l)); simpl; [| reflexivity].
  apply lookup_insert_eq.
Qed.

Lemma cur_hour_put_hour (l : RateLimiter) (id : string) (s : RateLimitState) :
  cur_hour (put_hour l id s) id = Some s.
Proof.
  unfold cur_hour. rewrite config_put_hour. unfold put_hour.
  destruct (per_user (config l)); simpl; [| reflexivity].
  apply lookup_insert_eq.
Qed.

Lemma cur_hour_put_minute (l : RateLimiter) (id id' : string)
    (s : RateLimitState) :
  cur_hour (put_minute l id s) id' = cur_hour l id'.
Proof.
  unfold cur_hour. rewrite config_put_minute. unfold put_minute.
  destruct (per_user (config l)); reflexivity.
Qed.

Lemma cur_minute_put_hour (l : RateLimiter) (id id' : string)
    (s : RateLimitState) :
  cur_minute (put_hour l id s) id' = cur_minute l id'.
Proof.
  unfold cur_minute. rewrite config_put_hour. unfold put_hour.
  destruct (per_user (config l)); reflexivity.
Qed.

Lemma hour_at_put_minute (l : RateLimiter) (id id' : string)
    (s : RateLimitState) (now : Q) :
  hour_at (put_minute l id s) id' now = hour_at l id' now.
Proof. unfold hour_at. rewrite cur_hour_put_minute. reflexivity. Qed.

Lemma minute_at_put_minute (l : RateLimiter) (id : string)
    (s : RateLimitState) (now : Q) :
  minute_at (put_minute l id s) id now = s.
Proof. unfold minute_at. rewrite cur_minute_put_minute. reflexivity. Qed.

Lemma minute_at_put_hour (l : RateLimiter) (id id' : string)
    (s : RateLimitState) (now : Q) :
  minute_at (put_hour l id s) id' now = minute_at l id' now.
Proof. unfold minute_at. rewrite cur_minute_put_hour. reflexivity. Qed.

Lemma hour_at_put_hour (l : RateLimiter) (id : string)
    (s : RateLimitState) (now : Q) :
  hour_at (put_hour l id s) id now = s.
Proof. unfold hour_at. rewrite cur_hour_put_hour. reflexivity. Qed.

(** [_check_request_limit] in closed form: both windows are rolled over when
    stale, the minute window before its ceiling is compared and the hour
    window only when the minute ceiling was not reached. *)
Lemma check_request_limit_eq (id : string) (now : Q) (w : World) :
  _check_request_limit id now w =
    let l := limiter w in
    let ms := rolled 60 now (minute_at l id now) in
    let l1 := put_minute l id ms in
    match requests_ceiling (config l) with
    | Raise e => (Raise e, mkWorld l1 (server w))
    | Ok ceiling =>
      if count ms >=? ceiling then
        (Raise (RateLimitExceeded "requests_per_minute"
                  (Some (max0 (60 - (now - window_start ms))))),
         mkWorld l1 (server w))
      else
        let hs := rolled 3600 now (hour_at l id now) in
        let l2 := put_hour l1 id hs in
        if count hs >=? requests_per_hour (config l) then
          (Raise (RateLimitExceeded "requests_per_hour"
                    (Some (max0 (3600 - (now - window_start hs))))),
           mkWorld l2 (server w))
        else (Ok tt, mkWorld l2 (server w))
    end.
Proof.
  unfold _check_request_limit, bind, gets, ret, raise, lift,
    store_minute_state, store_hour_state, modify. simpl.
  rewrite minute_state_of_eq. simpl.
  unfold rolled, stale, requests_ceiling.
  destruct (float_ge (now - window_start (minute_at (limiter w) id now)) 60)
    eqn:E1; simpl.
  all: rewrite ?put_minute_put, ?config_put_minute.
  all: destruct (burst_limit _ _) as [ceiling | e]; [| reflexivity].
  all: match goal with
       | |- context [?c >=? ?m] => destruct (c >=? m); [reflexivity |]
       end.
  all: rewrite hour_state_of_eq; simpl.
  all: unfold hour_at; rewrite ?cur_hour_put_minute.
  all: fold (hour_at (limiter w) id now).
  all: destruct (float_ge (now - window_start (hour_at (limiter w) id now))
                   3600) eqn:E2; simpl.
  all: rewrite ?put_hour_put.
  all: match goal with
       | |- context [?c >=? ?m] => destruct (c >=? m); reflexivity
       end.
Qed.

Lemma check_token_limit_eq (id : string) (n : Z) (now : Q) (w : World) :
  _check_token_limit id n now w =
    let l := limiter w in
    let ms := minute_at l id now in
    let l1 := put_minute l id ms in
    match tokens_ceiling (config l) with
    | Raise e => (Raise e, mkWorld l1 (server w))
    | Ok ceiling =>
      if tokens ms + n >? ceiling then
        (Raise (RateLimitExceeded "tokens_per_minute"
                  (Some (max0 (60 - (now - window_start ms))))),
         mkWorld l1 (server w))
      else (Ok tt, mkWorld l1 (server w))
    end.
Proof.
  unfold _check_token_limit, bind, gets, ret, raise, lift. simpl.
  rewrite minute_state_of_eq. simpl. unfold tokens_ceiling.
  destruct (burst_limit _ _) as [ceiling | e]; [| reflexivity].
  match goal with
  | |- context [?c >? ?m] => destruct (c >? m); reflexivity
  end.
Qed.

Lemma check_concurrent_limit_eq (id : string) (w : World) :
  _check_concurrent_limit id w =
    let l := limiter w in
    let l1 := touched_concurrent l id in
    if cur_concurrent l id >=? max_concurrent_requests (config l) then
      (Raise (RateLimitExceeded "concurrent" (Some 1%Q)),
       mkWorld l1 (server w))
    else (Ok tt, mkWorld l1 (server w)).
Proof.
  unfold _check_concurrent_limit, bind, gets, ret, raise, concurrent_of,
    cur_concurrent, touched_concurrent. simpl.
  destruct w as [l srv]; simpl.
  destruct (per_user (config l)); simpl.
  - destruct (_concurrent_requests l !! id) as [c |] eqn:E; simpl.
    + rewrite (insert_id _ _ _ E).
      destruct l; simpl; destruct (c >=? _); reflexivity.
    + destruct (0 >=? _); reflexivity.
  - destruct (_ >=? _); reflexivity.
Qed.

Lemma config_touched_concurrent (l : RateLimiter) (id : string) :
  config (touched_concurrent l id) = config l.
Proof.
  unfold touched_concurrent. destruct (per_user (config l)); reflexivity.
Qed.

Lemma config_cleaned (now : Q) (l : RateLimiter) :
  config (cleaned now l) = config l.
Proof. reflexivity. Qed.

Lemma cur_minute_touched_concurrent (l : RateLimiter) (id id' : string) :
  cur_minute (touched_concurrent l id) id' = cur_minute l id'.
Proof.
  unfold cur_minute. rewrite config_touched_concurrent.
  unfold touched_concurrent. destruct (per_user (config l)); reflexivity.
Qed.

Lemma cur_hour_touched_concurrent (l : RateLimiter) (id id' : string) :
  cur_hour (touched_concurrent l id) id' = cur_hour l id'.
Proof.
  unfold cur_hour. rewrite config_touched_concurrent.
  unfold touched_concurrent. destruct (per_user (config l)); reflexivity.
Qed.

(** [_check_limit_memory] in closed form.  The limits are compared in the
    order concurrency, minute requests, hour requests and, for a positive
    estimate, minute tokens; each exception leaves the state built so far. *)
Lemma check_limit_memory_eq (id : string) (n : Z) (now : Q) (w : World) :
  _check_limit_memory id n now w =
    let l := cleaned now (limiter w) in
    let cfg := config (limiter w) in
    let l0 := touched_concurrent l id in
    if cur_concurrent l id >=? max_concurrent_requests cfg then
      (Raise (RateLimitExceeded "concurrent" (Some 1%Q)),
       mkWorld l0 (server w))
    else
      let ms := rolled 60 now (minute_at l id now) in
      let l1 := put_minute l0 id ms in
      match requests_ceiling cfg with
      | Raise e => (Raise e, mkWorld l1 (server w))
      | Ok ceiling =>
        if count ms >=? ceiling then
          (Raise (RateLimitExceeded "requests_per_minute"
                    (Some (max0 (60 - (now - window_start ms))))),
           mkWorld l1 (server w))
        else
          let hs := rolled 3600 now (hour_at l id now) in
          let l2 := put_hour l1 id hs in
          if count hs >=? requests_per_hour cfg then
            (Raise (RateLimitExceeded "requests_per_hour"
                      (Some (max0 (3600 - (now - window_start hs))))),
             mkWorld l2 (server w))
          else if n >? 0 then
            match tokens_ceiling cfg with
            | Raise e => (Raise e, mkWorld l2 (server w))
            | Ok token_ceiling =>
              if tokens ms + n >? token_ceiling then
                (Raise (RateLimitExceeded "tokens_per_minute"
                          (Some (max0 (60 - (now - window_start ms))))),
                 mkWorld l2 (server w))
              else (Ok true, mkWorld l2 (server w))
            end
          else (Ok true, mkWorld l2 (server w))
      end.
Proof.
  unfold _check_limit_memory, _cleanup_windows, modify.
  unfold bind at 1. unfold bind at 1.
  rewrite check_concurrent_limit_eq. cbv zeta. simpl limiter. simpl server.
  rewrite config_cleaned.
  destruct (_ >=? max_concurrent_requests _); [reflexivity |].
  unfold bind at 1. rewrite check_request_limit_eq. cbv zeta.
  simpl limiter. simpl server.
  rewrite config_touched_concurrent, config_cleaned.
  unfold minute_at, hour_at.
  rewrite cur_minute_touched_concurrent, cur_hour_touched_concurrent.
  fold (minute_at (cleaned now (limiter w)) id now).
  fold (hour_at (cleaned now (limiter w)) id now).
  destruct (requests_ceiling _) as [ceiling | e]; [| reflexivity].
  destruct (_ >=? ceiling); [reflexivity |].
  destruct (_ >=? requests_per_hour _); [reflexivity |].
  unfold bind, ret. destruct (n >? 0); simpl; [| reflexivity].
  rewrite check_token_limit_eq. cbv zeta. simpl limiter. simpl server.
  rewrite minute_at_put_hour, minute_at_put_minute.
  rewrite config_put_hour, config_put_minute, config_touched_concurrent,
    config_cleaned.
  rewrite put_minute_cur
    by (rewrite cur_minute_put_hour; apply cur_minute_put_minute).
  destruct (tokens_ceiling _) as [token_ceiling | e]; [| reflexivity].
  destruct (_ >? token_ceiling); reflexivity.
Qed.

(** ** Arithmetic of the retry hints *)

Lemma max0_Qmax (r : Q) : (max0 r == Qmax 0 r)%Q.
Proof.
  unfold max0. destruct (Qle_bool r 0) eqn:E.
  - apply Qle_bool_iff in E. symmetry. apply Q.max_l. exact E.
  - symmetry. apply Q.max_r.
    destruct (Qlt_le_dec 0 r) as [H | H]; [apply Qlt_le_weak; exact H |].
    apply Qle_bool_iff in H. congruence.
Qed.

Lemma float_mod_bounds (x p : Q) :
  (0 < p)%Q -> (0 <= float_mod x p)%Q /\ (float_mod x p < p)%Q.
Proof.
  intros Hp. unfold float_mod, float_floordiv.
  pose proof (Qfloor_le (x / p)) as H1.
  pose proof (Qlt_floor (x / p)) as H2.
  rewrite inject_Z_plus in H2.
  assert (Hx : (x == p * (x / p))%Q).
  { symmetry. apply Qmult_div_r. intros E. rewrite E in Hp.
    exact (Qlt_irrefl 0 Hp). }
  set (f := inject_Z (Qfloor (x / p))) in *.
  set (y := (x / p)%Q) in *.
  assert (H3 : (p * f <= p * y)%Q) by (apply Qmult_le_l; assumption).
  assert (H4 : (p * y < p * (f + inject_Z 1))%Q)
    by (apply Qmult_lt_l; assumption).
  change (inject_Z 1) with 1%Q in H4.
  split; [lra |]. lra.
Qed.

(** A backend call never raises. *)
Lemma call_backend_ok {A} (d : A) (m : B A) (w : World) :
  exists a w', call_backend d m w = (Ok a, w').
Proof.
  unfold call_backend. destruct (_redis_backend (limiter w)) as [b |].
  - destruct (m b (server w)) as [[a b'] srv']. eauto.
  - eauto.
Qed.

(** [_check_limit_redis] in closed form: three reads of the backend, each
    followed by its comparison; the estimate of tokens is not used. *)
Lemma check_limit_redis_eq (id : string) (n : Z) (now : Q) (w : World) :
  let cfg := config (limiter w) in
  exists c mc hc w1 w2 w3,
    call_backend 0 (get_concurrent cfg id) w = (Ok c, w1) /\
    call_backend 0 (get_count cfg id (minute_window now)) w1 = (Ok mc, w2) /\
    call_backend 0 (get_count cfg id (hour_window now)) w2 = (Ok hc, w3) /\
    _check_limit_redis id n now w =
      if c >=? max_concurrent_requests cfg then
        (Raise (RateLimitExceeded "concurrent" (Some 1%Q)), w1)
      else
        match requests_ceiling cfg with
        | Raise e => (Raise e, w2)
        | Ok ceiling =>
          if mc >=? ceiling then
            (Raise (RateLimitExceeded "requests_per_minute"
                      (Some (60 - float_mod now 60)%Q)), w2)
          else if hc >=? requests_per_hour cfg then
            (Raise (RateLimitExceeded "requests_per_hour"
                      (Some (3600 - float_mod now 3600)%Q)), w3)
          else (Ok true, w3)
        end.
Proof.
  intros cfg.
  destruct (call_backend_ok 0 (get_concurrent cfg id) w) as (c & w1 & E1).
  destruct (call_backend_ok 0 (get_count cfg id (minute_window now)) w1)
    as (mc & w2 & E2).
  destruct (call_backend_ok 0 (get_count cfg id (hour_window now)) w2)
    as (hc & w3 & E3).
  exists c, mc, hc, w1, w2, w3. repeat split; try assumption.
  unfold _check_limit_redis, bind, gets, raise, ret, lift. simpl.
  fold cfg. fold (requests_ceiling cfg). rewrite E1.
  destruct (c >=? _); [reflexivity |]. rewrite E2.
  destruct (requests_ceiling cfg) as [ceiling | e]; [| reflexivity].
  destruct (mc >=? _); [reflexivity |]. rewrite E3.
  destruct (hc >=? _); reflexivity.
Qed.

(** [check_limit] once the limiter is enabled and the caller identified. *)
Lemma check_limit_enabled (u s : option string) (n : Z) (now : Q) (w : World)
    (id : string) :
  _enabled (limiter w) = true ->
  _get_identifier (config (limiter w)) u s = Ok id ->
  check_limit u n s now w =
    if redis_active (limiter w) then _check_limit_redis id n now w
    else _check_limit_memory id n now w.
Proof.
  intros He Hid. unfold check_limit, bind, gets, ret, lift.
  rewrite He. cbn [negb]. cbv beta iota. rewrite Hid.
  destruct (redis_active (limiter w)); reflexivity.
Qed.

Lemma check_limit_unidentified (u s : option string) (n : Z) (now : Q)
    (w : World) (e : exn) :
  _enabled (limiter w) = true ->
  _get_identifier (config (limiter w)) u s = Raise e ->
  check_limit u n s now w = (Raise e, w).
Proof.
  intros He Hid. unfold check_limit, bind, gets, ret, lift.
  rewrite He. cbn [negb]. cbv beta iota. rewrite Hid. reflexivity.
Qed.

(** ** The ceilings *)

(** Computing a ceiling raises nothing but the two conversion errors. *)
Lemma burst_limit_error (limit : Z) (burst : float64) (e : exn) :
  burst_limit limit burst = Raise e -> e = OverflowError \/ e = ValueError.
Proof.
  unfold burst_limit, float_of_int, int_of_float.
  destruct (binary_normalize 53 1024 limit 0 false);
    try (intros [= <-]; auto; fail);
    destruct (float_mul _ burst); intros [= <-]; auto.
Qed.

Lemma ceiling_not_rejection (limit : Z) (burst : float64) (ty : string)
    (r : option Q) :
  burst_limit limit burst <> Raise (RateLimitExceeded ty r).
Proof.
  intros H. destruct (burst_limit_error _ _ _ H); discriminate.
Qed.

(** The product is the binary64 one: [5 * 1.2] is the double [6.0] though
    the double [1.2] lies below 6/5, and [100 * 1.15] is a double below
    115.  A product that is infinite or not a number has no integer
    value, and an [int] past the largest double has no float. *)
Lemma burst_limit_examples :
  burst_limit 60 (float_lit 3 2) = Ok 90 /\
  burst_limit 100000 (float_lit 3 2) = Ok 150000 /\
  burst_limit 5 (float_lit 6 5) = Ok 6 /\
  burst_limit 50 (float_lit 6 5) = Ok 60 /\
  burst_limit 100 (float_lit 23 20) = Ok 114 /\
  burst_limit 1 (S754_infinity false) = Raise OverflowError /\
  burst_limit 0 (S754_infinity false) = Raise ValueError /\
  burst_limit 1 S754_nan = Raise ValueError /\
  burst_limit (2 ^ 1024) (float_lit 1 1) = Raise OverflowError.
Proof. vm_compute. repeat split; reflexivity. Qed.

Lemma max_requests_ok (cfg : RateLimitConfig) (m : Z) :
  requests_ceiling cfg = Ok m -> max_requests cfg = m.
Proof. unfold max_requests. intros ->. reflexivity. Qed.

Lemma max_tokens_ok (cfg : RateLimitConfig) (m : Z) :
  tokens_ceiling cfg = Ok m -> max_tokens cfg = m.
Proof. unfold max_tokens. intros ->. reflexivity. Qed.

(** ** Retry hints (C9) *)

(** C9. A rejected minute-window check (request count or token budget)
    carries [retry_after = 60 - (now - window_start)] clamped to at least 0,
    a rejected hour-window check carries [3600 - (now - window_start)]
    clamped likewise, and a concurrency rejection carries the hint 1.  The
    window start is the one of the identifier's window state in the local
    store; on the distributed backend it is the start of the fixed window
    that the counter is keyed by. *)
Theorem retry_after_hint (u s : option string) (n : Z) (now : Q)
    (w w' : World) (id ty : string) (r : option Q) :
  _get_identifier (config (limiter w)) u s = Ok id ->
  check_limit u n s now w = (Raise (RateLimitExceeded ty r), w') ->
  let minute_start :=
    if redis_active (limiter w) then redis_window_start 60 now
    else window_start (minute_at (limiter w') id now) in
  let hour_start :=
    if redis_active (limiter w) then redis_window_start 3600 now
    else window_start (hour_at (limiter w') id now) in
  (ty = "concurrent" -> r = Some 1%Q) /\
  (ty = "requests_per_minute" \/ ty = "tokens_per_minute" ->
     exists q, r = Some q /\ (q == Qmax 0 (60 - (now - minute_start)))%Q) /\
  (ty = "requests_per_hour" ->
     exists q, r = Some q /\ (q == Qmax 0 (3600 - (now - hour_start)))%Q).
Proof.
  intros Hid Hc. cbv zeta.
  destruct (_enabled (limiter w)) eqn:He.
  2:{ unfold check_limit, bind, gets, ret in Hc. simpl in Hc.
      rewrite He in Hc. discriminate. }
  rewrite (check_limit_enabled u s n now w id He Hid) in Hc.
  destruct (redis_active (limiter w)) eqn:Hr.
  - destruct (check_limit_redis_eq id n now w)
      as (c & mc & hc & w1 & w2 & w3 & _ & _ & _ & E).
    rewrite E in Hc. clear E.
    pose proof (float_mod_bounds now 60 ltac:(reflexivity)) as [B1 B2].
    pose proof (float_mod_bounds now 3600 ltac:(reflexivity)) as [B3 B4].
    unfold float_mod in *. unfold redis_window_start.
    destruct (c >=? _); [inversion Hc; subst; clear Hc |].
    { split; [intros _; reflexivity |].
      split; [intros [? | ?]; discriminate | discriminate]. }
    destruct (requests_ceiling _) as [ceiling | e0] eqn:Ec.
    2:{ injection Hc as -> _. destruct (ceiling_not_rejection _ _ _ _ Ec). }
    destruct (mc >=? _); [inversion Hc; subst; clear Hc |].
    { split; [discriminate |]. split; [| discriminate].
      intros _. eexists; split; [reflexivity |].
      rewrite Q.max_r by lra. lra. }
    destruct (hc >=? _); [inversion Hc; subst; clear Hc | discriminate].
    split; [discriminate |]. split; [intros [? | ?]; discriminate |].
    intros _. eexists; split; [reflexivity |].
    rewrite Q.max_r by lra. lra.
  - rewrite check_limit_memory_eq in Hc. cbv zeta in Hc.
    destruct (_ >=? max_concurrent_requests _); [inversion Hc; subst; clear Hc |].
    { split; [intros _; reflexivity |].
      split; [intros [? | ?]; discriminate | discriminate]. }
    destruct (requests_ceiling _) as [ceiling | e0] eqn:Ec.
    2:{ injection Hc as -> _. destruct (ceiling_not_rejection _ _ _ _ Ec). }
    destruct (_ >=? ceiling); [inversion Hc; subst; clear Hc |].
    { split; [discriminate |]. split; [| discriminate].
      intros _. eexists; split; [reflexivity |].
      cbn [limiter]. rewrite minute_at_put_minute. apply max0_Qmax. }
    destruct (_ >=? requests_per_hour _); [inversion Hc; subst; clear Hc |].
    { split; [discriminate |]. split; [intros [? | ?]; discriminate |].
      intros _. eexists; split; [reflexivity |].
      cbn [limiter]. rewrite hour_at_put_hour. apply max0_Qmax. }
    destruct (n >? 0); [| discriminate].
    destruct (tokens_ceiling _) as [token_ceiling | e0] eqn:Et.
    2:{ injection Hc as -> _. destruct (ceiling_not_rejection _ _ _ _ Et). }
    destruct (_ >? token_ceiling); [inversion Hc; subst; clear Hc | discriminate].
    split; [discriminate |]. split; [| discriminate].
    intros _. eexists; split; [reflexivity |].
    cbn [limiter]. rewrite minute_at_put_hour, minute_at_put_minute.
    apply max0_Qmax.
Qed.

Lemma retry_after_hint_witness :
  (exists q, Some 60%Q = Some q /\
     (q == Qmax 0 (60 - (5 - window_start
        (minute_at
           (limiter (snd (check_limit (Some "u1") 0 None 5
                            (new_world closed_config 0 empty_server))))
           "u1" 5))))%Q) /\
  (exists q, Some 55%Q = Some q /\
     (q == Qmax 0 (60 - (5 - redis_window_start 60 5)))%Q).
Proof.
  split.
  - refine (proj1 (proj2 (retry_after_hint (Some "u1") None 0 5
      (new_world closed_config 0 empty_server)
      (snd (check_limit (Some "u1") 0 None 5
              (new_world closed_config 0 empty_server)))
      "u1" "requests_per_minute" (Some 60%Q) _ _)) _).
    + reflexivity.
    + vm_compute. reflexivity.
    + left. reflexivity.
  - refine (proj1 (proj2 (retry_after_hint (Some "u1") None 0 5
      (new_world closed_redis_config 0 empty_server)
      (snd (check_limit (Some "u1") 0 None 5
              (new_world closed_redis_config 0 empty_server)))
      "u1" "requests_per_minute" (Some 55%Q) _ _)) _).
    + reflexivity.
    + vm_compute. reflexivity.
    + left. reflexivity.
Defined.

(** ** Concurrency slots (C7) *)

Lemma length_append (a b : string) :
  String.length (a +:+ b) = (String.length a + String.length b)%nat.
Proof. induction a as [| c a IH]; simpl; [reflexivity | rewrite IH; reflexivity]. Qed.

Lemma append_inj_l (a b t : string) : a +:+ t = b +:+ t -> a = b.
Proof.
  revert b. induction a as [| c a IH]; intros [| c' b] H; simpl in H.
  - reflexivity.
  - apply (f_equal String.length) in H.
    rewrite ?length_append in H. simpl in H. rewrite ?length_append in H. lia.
  - apply (f_equal String.length) in H.
    rewrite ?length_append in H. simpl in H. rewrite ?length_append in H. lia.
  - injection H as -> H. f_equal. apply IH. exact H.
Qed.

Lemma make_key_inj (cfg : RateLimitConfig) (i j window : string) :
  _make_key cfg i window = _make_key cfg j window -> i = j.
Proof.
  unfold _make_key. intros H. apply String.app_inj in H.
  apply append_inj_l in H. exact H.
Qed.

Lemma get_identifier_enabled_acquire (u s : option string) (w : World) :
  _enabled (limiter w) = true ->
  acquire_concurrent_slot u s w =
    match _get_identifier (config (limiter w)) u s with
    | Raise e => (Raise e, w)
    | Ok i =>
        if redis_active (limiter w) then
          let '(_, w1) :=
            call_backend 0 (incr_concurrent (config (limiter w)) i 300) w in
          (Ok tt, w1)
        else
          (Ok tt,
           mkWorld (put_concurrent (limiter w) i
                      (cur_concurrent (limiter w) i + 1)) (server w))
    end.
Proof.
  intros He. unfold acquire_concurrent_slot, bind, gets, ret, lift, modify.
  rewrite He. cbn [negb]. cbv beta iota.
  destruct (_get_identifier (config (limiter w)) u s) as [i | e];
    [| reflexivity].
  destruct (redis_active (limiter w)).
  - destruct (call_backend_ok 0 (incr_concurrent (config (limiter w)) i 300) w)
      as (a & w1 & E). rewrite E. reflexivity.
  - unfold put_concurrent, cur_concurrent, concurrent_of.
    destruct (per_user (config (limiter w))) eqn:Ep; simpl; [| reflexivity].
    destruct (_concurrent_requests (limiter w) !! i) eqn:E; simpl.
    + reflexivity.
    + unfold set_concurrent_requests. simpl. rewrite insert_insert_eq.
      reflexivity.
Qed.

Lemma get_identifier_enabled_release (u s : option string) (w : World) :
  _enabled (limiter w) = true ->
  release_concurrent_slot u s w =
    match _get_identifier (config (limiter w)) u s with
    | Raise e => (Raise e, w)
    | Ok i =>
        if redis_active (limiter w) then
          let '(_, w1) :=
            call_backend 0 (decr_concurrent (config (limiter w)) i) w in
          (Ok tt, w1)
        else
          (Ok tt,
           mkWorld (put_concurrent (limiter w) i
                      (Z.max 0 (cur_concurrent (limiter w) i - 1)))
                   (server w))
    end.
Proof.
  intros He. unfold release_concurrent_slot, bind, gets, ret, lift, modify.
  rewrite He. cbn [negb]. cbv beta iota.
  destruct (_get_identifier (config (limiter w)) u s) as [i | e];
    [| reflexivity].
  destruct (redis_active (limiter w)).
  - destruct (call_backend_ok 0 (decr_concurrent (config (limiter w)) i) w)
      as (a & w1 & E). rewrite E. reflexivity.
  - unfold put_concurrent, cur_concurrent, concurrent_of.
    destruct (per_user (config (limiter w))) eqn:Ep; simpl; [| reflexivity].
    destruct (_concurrent_requests (limiter w) !! i) eqn:E; simpl.
    + reflexivity.
    + unfold set_concurrent_requests. simpl. rewrite insert_insert_eq.
      reflexivity.
Qed.

Lemma cur_concurrent_put (l : RateLimiter) (i j : string) (v : Z) :
  cur_concurrent (put_concurrent l i v) j =
    if negb (per_user (config l)) || String.eqb i j then v
    else cur_concurrent l j.
Proof.
  unfold cur_concurrent, put_concurrent.
  destruct (per_user (config l)) eqn:Ep; simpl; rewrite Ep; [| reflexivity].
  simpl. destruct (String.eqb_spec i j) as [-> | Hn].
  - rewrite lookup_insert_eq. reflexivity.
  - rewrite lookup_insert_ne by exact Hn. reflexivity.
Qed.

(** The backend object after a healthy connection test. *)
Lemma ensure_connected_healthy (b : RedisRateLimitBackend) (srv : RedisServer) :
  installed srv = true -> reachable srv = true ->
  (_initialized b = true -> is_Some (_client b)) ->
  exists b', _ensure_connected b srv = (true, b', srv) /\
             _initialized b' = true /\ is_Some (_client b').
Proof.
  intros Hi Hr Hb. unfold _ensure_connected.
  destruct (_initialized b) eqn:E.
  - exists b. specialize (Hb eq_refl).
    rewrite bool_decide_eq_true_2 by exact Hb. auto.
  - rewrite Hi, Hr. simpl. eexists. split; [reflexivity |].
    split; [reflexivity | eexists; reflexivity].
Qed.

Lemma ensure_connected_server (b : RedisRateLimitBackend) (srv : RedisServer) :
  (_ensure_connected b srv).2 = srv.
Proof.
  unfold _ensure_connected.
  destruct (_initialized b), (installed srv), (reachable srv); reflexivity.
Qed.

(** What [increment] does to the counters of the server. *)
Lemma increment_kv (cfg : RateLimitConfig) (i window : string) (t amount : Z)
    (b : RedisRateLimitBackend) (srv : RedisServer) :
  let key := _make_key cfg i window in
  let srv' := (increment cfg i window t amount b srv).2 in
  let b' := (increment cfg i window t amount b srv).1.2 in
  let bumped := <[key := default 0 (kv srv !! key) + amount]> (kv srv) in
  installed srv' = installed srv /\ reachable srv' = reachable srv /\
  (kv srv' = kv srv \/ kv srv' = bumped) /\
  (installed srv = true -> reachable srv = true ->
   (_initialized b = true -> is_Some (_client b)) ->
   kv srv' = bumped /\ _initialized b' = true /\ is_Some (_client b')).
Proof.
  cbv zeta. unfold increment.
  destruct (_ensure_connected b srv) as [[ok b1] srv1] eqn:E.
  pose proof (ensure_connected_server b srv) as Hs. rewrite E in Hs.
  simpl in Hs. subst srv1.
  assert (Hh : installed srv = true -> reachable srv = true ->
               (_initialized b = true -> is_Some (_client b)) ->
               ok = true /\ _initialized b1 = true /\ is_Some (_client b1)).
  { intros Hi Hr Hb.
    destruct (ensure_connected_healthy b srv Hi Hr Hb) as (b' & E' & H1 & H2).
    rewrite E in E'. injection E' as -> ->. auto. }
  destruct ok; simpl.
  - unfold redis_incrby_expire. destruct (reachable srv) eqn:Hr; simpl.
    + split; [done |]; split; [done |];
        (split; [right; reflexivity |]); intros Hi _ Hb;
        destruct (Hh Hi eq_refl Hb) as (_ & ? & ?); auto.
    + split; [done |]; split; [done |];
        (split; [left; reflexivity |]); intros; discriminate.
  - split; [done |]; split; [done |];
      (split; [left; reflexivity |]); intros Hi Hr Hb;
      destruct (Hh Hi Hr Hb) as (? & _); discriminate.
Qed.

(** What [incr_concurrent] does to the counters of the server. *)
Lemma incr_concurrent_kv (cfg : RateLimitConfig) (i : string)
    (b : RedisRateLimitBackend) (srv : RedisServer) :
  let key := _make_key cfg i "concurrent" in
  let srv' := (incr_concurrent cfg i 300 b srv).2 in
  let b' := (incr_concurrent cfg i 300 b srv).1.2 in
  let bumped := <[key := default 0 (kv srv !! key) + 1]> (kv srv) in
  installed srv' = installed srv /\ reachable srv' = reachable srv /\
  (kv srv' = kv srv \/ kv srv' = bumped) /\
  (installed srv = true -> reachable srv = true ->
   (_initialized b = true -> is_Some (_client b)) ->
   kv srv' = bumped /\ _initialized b' = true /\ is_Some (_client b')).
Proof. exact (increment_kv cfg i "concurrent" 300 1 b srv). Qed.

(** What [decr_concurrent] does to the counters of the server. *)
Lemma decr_concurrent_kv (cfg : RateLimitConfig) (i : string)
    (b : RedisRateLimitBackend) (srv : RedisServer) :
  let key := _make_key cfg i "concurrent" in
  let srv' := (decr_concurrent cfg i b srv).2 in
  let b' := (decr_concurrent cfg i b srv).1.2 in
  let dropped :=
    <[key := Z.max 0 (default 0 (kv srv !! key) - 1)]> (kv srv) in
  installed srv' = installed srv /\ reachable srv' = reachable srv /\
  (kv srv' = kv srv \/ kv srv' = dropped) /\
  (installed srv = true -> reachable srv = true ->
   (_initialized b = true -> is_Some (_client b)) ->
   kv srv' = dropped /\ _initialized b' = true /\ is_Some (_client b')).
Proof.
  cbv zeta. unfold decr_concurrent.
  destruct (_ensure_connected b srv) as [[ok b1] srv1] eqn:E.
  pose proof (ensure_connected_server b srv) as Hs. rewrite E in Hs.
  simpl in Hs. subst srv1.
  assert (Hh : installed srv = true -> reachable srv = true ->
               (_initialized b = true -> is_Some (_client b)) ->
               ok = true /\ _initialized b1 = true /\ is_Some (_client b1)).
  { intros Hi Hr Hb.
    destruct (ensure_connected_healthy b srv Hi Hr Hb) as (b' & E' & H1 & H2).
    rewrite E in E'. injection E' as -> ->. auto. }
  destruct ok; simpl.
  - unfold redis_decr, redis_set. destruct (reachable srv) eqn:Hr; simpl.
    + rewrite Hr.
      destruct (Z.ltb_spec (default 0 (kv srv !! _make_key cfg i "concurrent") - 1) 0)
        as [Hlt | Hge]; simpl.
      * rewrite insert_insert_eq. rewrite Z.max_l by lia.
        split; [done |]; split; [done |];
        (split; [right; reflexivity |]); intros Hi _ Hb;
        destruct (Hh Hi eq_refl Hb) as (_ & ? & ?); auto.
      * rewrite Z.max_r by lia.
        split; [done |]; split; [done |];
        (split; [right; reflexivity |]); intros Hi _ Hb;
        destruct (Hh Hi eq_refl Hb) as (_ & ? & ?); auto.
    + split; [done |]; split; [done |];
        (split; [left; reflexivity |]); intros; discriminate.
  - split; [done |]; split; [done |];
      (split; [left; reflexivity |]); intros Hi Hr Hb;
      destruct (Hh Hi Hr Hb) as (? & _); discriminate.
Qed.

Lemma redis_active_put_concurrent (l : RateLimiter) (i : string) (v : Z) :
  config (put_concurrent l i v) = config l /\
  _enabled (put_concurrent l i v) = _enabled l /\
  redis_active (put_concurrent l i v) = redis_active l.
Proof.
  unfold put_concurrent, redis_active.
  destruct (per_user (config l)); simpl; auto.
Qed.

(** The counters of all identifiers after a local assignment. *)
Lemma local_put_counter (w : World) (i j : string) (v : Z) :
  redis_active (limiter w) = false ->
  concurrency_counter
    (mkWorld (put_concurrent (limiter w) i v) (server w)) j =
  if shares (limiter w) i j then v else concurrency_counter w j.
Proof.
  intros Hr. unfold concurrency_counter, shares. cbn [limiter server].
  destruct (redis_active_put_concurrent (limiter w) i v) as (_ & _ & ->).
  rewrite Hr. simpl. apply cur_concurrent_put.
Qed.

(** The counters of all identifiers after a backend call that leaves the
    counter of [i] at [f] of its old value, or fails and changes nothing. *)
Lemma redis_call_counter (w : World) (b b' : RedisRateLimitBackend)
    (srv' : RedisServer) (i j : string) (f : Z -> Z) :
  let cfg := config (limiter w) in
  let key := _make_key cfg i "concurrent" in
  let w1 := mkWorld (set_redis_backend (limiter w) (Some b')) srv' in
  redis_active (limiter w) = true ->
  _redis_backend (limiter w) = Some b ->
  (kv srv' = kv (server w) \/
   kv srv' = <[key := f (default 0 (kv (server w) !! key))]> (kv (server w))) ->
  redis_active (limiter w1) = true /\
  (concurrency_counter w1 j = concurrency_counter w j \/
   concurrency_counter w1 j = f (concurrency_counter w j)) /\
  (kv srv' = <[key := f (default 0 (kv (server w) !! key))]> (kv (server w)) ->
   concurrency_counter w1 j =
     if shares (limiter w) i j then f (concurrency_counter w j)
     else concurrency_counter w j).
Proof.
  cbv zeta. intros Hr Hb Hkv.
  assert (Hr1 : redis_active (set_redis_backend (limiter w) (Some b')) = true).
  { unfold redis_active in *. simpl.
    apply andb_true_iff in Hr as [_ ->].
    reflexivity. }
  assert (Hcase : forall m,
    m = <[_make_key (config (limiter w)) i "concurrent" :=
            f (default 0 (kv (server w)
                 !! _make_key (config (limiter w)) i "concurrent"))]>
          (kv (server w)) ->
    default 0 (m !! _make_key (config (limiter w)) j "concurrent") =
      if shares (limiter w) i j
      then f (default 0 (kv (server w)
                 !! _make_key (config (limiter w)) j "concurrent"))
      else default 0 (kv (server w)
                 !! _make_key (config (limiter w)) j "concurrent")).
  { intros m ->. unfold shares. rewrite Hr. simpl.
    destruct (String.eqb_spec i j) as [-> | Hn].
    - rewrite lookup_insert_eq. reflexivity.
    - rewrite lookup_insert_ne; [reflexivity |].
      intros E. apply Hn. exact (make_key_inj _ _ _ _ E). }
  unfold concurrency_counter. cbn [limiter server]. rewrite Hr1, Hr.
  change (config (set_redis_backend (limiter w) (Some b')))
    with (config (limiter w)).
  split; [reflexivity |]. split.
  - destruct Hkv as [-> | E]; [left; reflexivity |].
    rewrite (Hcase _ E). destruct (shares (limiter w) i j); auto.
  - intros E. exact (Hcase _ E).
Qed.

(** One acquire or release on an enabled limiter: the configuration and the
    choice of backend stay, every counter stays or moves as the call says
    (up by one, or down by one without passing zero), and with an answering
    backend the counters move exactly as [slot_effect] says. *)
Lemma slot_step (c : call) (w : World) :
  is_slot_call c = true -> _enabled (limiter w) = true ->
  let w1 := (step c w).2 in
  config (limiter w1) = config (limiter w) /\
  _enabled (limiter w1) = true /\
  redis_active (limiter w1) = redis_active (limiter w) /\
  (forall j, concurrency_counter w1 j = concurrency_counter w j \/
             concurrency_counter w1 j =
               slot_update (Some (is_acquire c)) (concurrency_counter w j)) /\
  ((redis_active (limiter w) = true -> healthy w) ->
   (redis_active (limiter w1) = true -> healthy w1) /\
   forall j, concurrency_counter w1 j =
     slot_update (slot_effect (limiter w) j c) (concurrency_counter w j)).
Proof.
  intros Hc He. cbv zeta.
  destruct c as [| | u s | u s]; try discriminate; simpl step.
  - (* acquire *)
    rewrite (get_identifier_enabled_acquire u s w He).
    simpl slot_effect.
    destruct (_get_identifier (config (limiter w)) u s) as [i | e] eqn:Hid.
    2:{ cbn [snd]. split; [done |]. split; [done |]. split; [done |].
        split; [intros j; left; done |].
        intros Hw. split; [done |]. intros j. done. }
    destruct (redis_active (limiter w)) eqn:Hr.
    + assert (Hb : exists b, _redis_backend (limiter w) = Some b).
      { unfold redis_active in Hr. apply andb_true_iff in Hr as [Hs _].
        apply bool_decide_eq_true_1 in Hs. destruct Hs as [b Hs]. eauto. }
      destruct Hb as [b Hb]. unfold call_backend. rewrite Hb.
      pose proof (incr_concurrent_kv (config (limiter w)) i b (server w))
        as (Hi & Hre & Hkv & Hh). cbv zeta in *.
      destruct (incr_concurrent (config (limiter w)) i 300 b (server w))
        as [[a b'] srv'] eqn:E. cbn [fst snd] in *.
      destruct (redis_call_counter w b b' srv' i i (fun c => c + 1) Hr Hb Hkv)
        as (Hr1 & _).
      split; [reflexivity |]. split; [exact He |]. split; [exact Hr1 |].
      split.
      * intros j.
        destruct (redis_call_counter w b b' srv' i j (fun c => c + 1)
                    Hr Hb Hkv) as (_ & [H | H] & _); auto.
      * intros Hw. destruct (Hw eq_refl) as (Hwi & Hwr & Hwb).
        destruct (Hh Hwi Hwr (Hwb b Hb)) as (Hk & Hb1 & Hb2).
        split.
        -- intros _. unfold healthy. cbn [limiter server].
           split; [congruence |]. split; [congruence |].
           intros b0 Eb0 _. simpl in Eb0. injection Eb0 as <-. exact Hb2.
        -- intros j.
           destruct (redis_call_counter w b b' srv' i j (fun c => c + 1)
                       Hr Hb Hkv) as (_ & _ & H).
           rewrite (H Hk). destruct (shares (limiter w) i j); reflexivity.
    + cbn [snd limiter].
      destruct (redis_active_put_concurrent (limiter w) i
                  (cur_concurrent (limiter w) i + 1)) as (Hc1 & He1 & Hr1).
      split; [exact Hc1 |]. split; [congruence |]. split; [congruence |].
      assert (Hcur : cur_concurrent (limiter w) i = concurrency_counter w i).
      { unfold concurrency_counter. rewrite Hr. reflexivity. }
      assert (Hj : forall j, shares (limiter w) i j = true ->
                concurrency_counter w j = concurrency_counter w i).
      { intros j Hs. unfold concurrency_counter, shares in *.
        rewrite Hr in *. simpl in Hs. unfold cur_concurrent.
        destruct (per_user (config (limiter w))); simpl in Hs;
          [| reflexivity].
        apply String.eqb_eq in Hs. subst. reflexivity. }
      split.
      * intros j. rewrite (local_put_counter w i j _ Hr), Hcur.
        destruct (shares (limiter w) i j) eqn:Hs; [| auto].
        rewrite (Hj j Hs). auto.
      * intros _. split; [intros Hx; congruence |].
        intros j. rewrite (local_put_counter w i j _ Hr), Hcur.
        destruct (shares (limiter w) i j) eqn:Hs; [| reflexivity].
        rewrite (Hj j Hs). reflexivity.
  - (* release *)
    rewrite (get_identifier_enabled_release u s w He).
    simpl slot_effect.
    destruct (_get_identifier (config (limiter w)) u s) as [i | e] eqn:Hid.
    2:{ cbn [snd]. split; [done |]. split; [done |]. split; [done |].
        split; [intros j; left; done |].
        intros Hw. split; [done |]. intros j. done. }
    destruct (redis_active (limiter w)) eqn:Hr.
    + assert (Hb : exists b, _redis_backend (limiter w) = Some b).
      { unfold redis_active in Hr. apply andb_true_iff in Hr as [Hs _].
        apply bool_decide_eq_true_1 in Hs. destruct Hs as [b Hs]. eauto. }
      destruct Hb as [b Hb]. unfold call_backend. rewrite Hb.
      pose proof (decr_concurrent_kv (config (limiter w)) i b (server w))
        as (Hi & Hre & Hkv & Hh). cbv zeta in *.
      destruct (decr_concurrent (config (limiter w)) i b (server w))
        as [[a b'] srv'] eqn:E. cbn [fst snd] in *.
      destruct (redis_call_counter w b b' srv' i i
                  (fun c => Z.max 0 (c - 1)) Hr Hb Hkv) as (Hr1 & _).
      split; [reflexivity |]. split; [exact He |]. split; [exact Hr1 |].
      split.
      * intros j.
        destruct (redis_call_counter w b b' srv' i j
                    (fun c => Z.max 0 (c - 1)) Hr Hb Hkv)
          as (_ & [H | H] & _); auto.
      * intros Hw. destruct (Hw eq_refl) as (Hwi & Hwr & Hwb).
        destruct (Hh Hwi Hwr (Hwb b Hb)) as (Hk & Hb1 & Hb2).
        split.
        -- intros _. unfold healthy. cbn [limiter server].
           split; [congruence |]. split; [congruence |].
           intros b0 Eb0 _. simpl in Eb0. injection Eb0 as <-. exact Hb2.
        -- intros j.
           destruct (redis_call_counter w b b' srv' i j
                       (fun c => Z.max 0 (c - 1)) Hr Hb Hkv) as (_ & _ & H).
           rewrite (H Hk). destruct (shares (limiter w) i j); reflexivity.
    + cbn [snd limiter].
      destruct (redis_active_put_concurrent (limiter w) i
                  (Z.max 0 (cur_concurrent (limiter w) i - 1)))
        as (Hc1 & He1 & Hr1).
      split; [exact Hc1 |]. split; [congruence |]. split; [congruence |].
      assert (Hcur : cur_concurrent (limiter w) i = concurrency_counter w i).
      { unfold concurrency_counter. rewrite Hr. reflexivity. }
      assert (Hj : forall j, shares (limiter w) i j = true ->
                concurrency_counter w j = concurrency_counter w i).
      { intros j Hs. unfold concurrency_counter, shares in *.
        rewrite Hr in *. simpl in Hs. unfold cur_concurrent.
        destruct (per_user (config (limiter w))); simpl in Hs;
          [| reflexivity].
        apply String.eqb_eq in Hs. subst. reflexivity. }
      split.
      * intros j. rewrite (local_put_counter w i j _ Hr), Hcur.
        destruct (shares (limiter w) i j) eqn:Hs; [| auto].
        rewrite (Hj j Hs). auto.
      * intros _. split; [intros Hx; congruence |].
        intros j. rewrite (local_put_counter w i j _ Hr), Hcur.
        destruct (shares (limiter w) i j) eqn:Hs; [| reflexivity].
        rewrite (Hj j Hs). reflexivity.
Qed.

Lemma run_cons_snd (c : call) (cs : list call) (w : World) :
  (run (c :: cs) w).2 = (run cs (step c w).2).2.
Proof.
  simpl. destruct (step c w) as [a w1]. simpl.
  destruct (run cs w1) as [r w2]. reflexivity.
Qed.





Lemma new_world_healthy (cfg : RateLimitConfig) (t : Q) (srv : RedisServer) :
  installed srv = true -> reachable srv = true ->
  healthy (new_world cfg t srv).
Proof.
  intros Hi Hr. unfold healthy, new_world. simpl.
  split; [exact Hi |]. split; [exact Hr |].
  intros b Hb Hinit. destruct (use_redis cfg); [| discriminate].
  injection Hb as <-. discriminate.
Qed.











(** ** Cleanup and recording in closed form *)

Lemma cur_minute_cleaned (now : Q) (l : RateLimiter) (id : string) :
  cur_minute (cleaned now l) id =
    match cur_minute l id with
    | Some st =>
        if per_user (config l) && float_gt (now - window_start st) 120
        then None else Some st
    | None => None
    end.
Proof.
  unfold cur_minute, cleaned. simpl.
  destruct (per_user (config l)); simpl; [| reflexivity].
  rewrite map_lookup_filter.
  destruct (_user_minute_state l !! id) as [st |]; simpl; [| reflexivity].
  destruct (float_gt (now - window_start st) 120) eqn:E.
  - rewrite option_guard_False; [reflexivity | discriminate].
  - rewrite option_guard_True; [reflexivity | reflexivity].
Qed.

Lemma cur_hour_cleaned (now : Q) (l : RateLimiter) (id : string) :
  cur_hour (cleaned now l) id =
    match cur_hour l id with
    | Some st =>
        if per_user (config l) && float_gt (now - window_start st) 7200
        then None else Some st
    | None => None
    end.
Proof.
  unfold cur_hour, cleaned. simpl.
  destruct (per_user (config l)); simpl; [| reflexivity].
  rewrite map_lookup_filter.
  destruct (_user_hour_state l !! id) as [st |]; simpl; [| reflexivity].
  destruct (float_gt (now - window_start st) 7200) eqn:E.
  - rewrite option_guard_False; [reflexivity | discriminate].
  - rewrite option_guard_True; [reflexivity | reflexivity].
Qed.

Lemma cur_concurrent_cleaned (now : Q) (l : RateLimiter) (id : string) :
  cur_concurrent (cleaned now l) id = cur_concurrent l id.
Proof.
  unfold cur_concurrent, cleaned. simpl.
  destruct (per_user (config l)); simpl; [| reflexivity].
  rewrite map_lookup_filter.
  destruct (_concurrent_requests l !! id) as [c |]; simpl; [| reflexivity].
  destruct (decide (c = 0)) as [-> | Hn].
  - rewrite option_guard_False; [reflexivity | auto].
  - rewrite option_guard_True; [reflexivity | exact Hn].
Qed.

(** [record_request] on the local store, in closed form. *)
Lemma record_request_local (u s : option string) (n : Z) (now : Q)
    (w : World) (id : string) :
  _enabled (limiter w) = true ->
  redis_active (limiter w) = false ->
  _get_identifier (config (limiter w)) u s = Ok id ->
  record_request u n s now w =
    (Ok tt,
     mkWorld
       (put_hour
          (put_minute (limiter w) id
             (recorded n (minute_at (limiter w) id now)))
          id (recorded n (hour_at (limiter w) id now)))
       (server w)).
Proof.
  intros He Hr Hid.
  unfold record_request, bind, gets, ret, lift, store_minute_state,
    store_hour_state, modify.
  rewrite He. cbn [negb]. cbv beta iota. rewrite Hid, Hr.
  rewrite minute_state_of_eq. cbn [limiter server].
  rewrite hour_state_of_eq. cbn [limiter server].
  rewrite !put_minute_put, hour_at_put_minute, put_hour_put.
  reflexivity.
Qed.

(** ** Recording (C3) *)

Lemma window_keys_differ (cfg : RateLimitConfig) (id : string) (now : Q) :
  _make_key cfg id (minute_window now) <> _make_key cfg id (hour_window now).
Proof.
  unfold _make_key, minute_window, hour_window. intros H.
  do 3 apply String.app_inj in H. discriminate.
Qed.

Lemma redis_active_backend (l : RateLimiter) :
  redis_active l = true -> exists b, _redis_backend l = Some b.
Proof.
  unfold redis_active. intros H. apply andb_true_iff in H as [Hs _].
  apply bool_decide_eq_true_1 in Hs. destruct Hs as [b Hs]. eauto.
Qed.

(** [record_request] on an answering distributed backend: only the two
    request counters of the identifier's current windows move. *)
Lemma record_request_redis (u s : option string) (n : Z) (now : Q)
    (w : World) (id : string) :
  _enabled (limiter w) = true ->
  redis_active (limiter w) = true ->
  _get_identifier (config (limiter w)) u s = Ok id ->
  healthy w ->
  exists w', record_request u n s now w = (Ok tt, w') /\
    config (limiter w') = config (limiter w) /\
    kv (server w') =
      <[_make_key (config (limiter w)) id (hour_window now) :=
          redis_count w id (hour_window now) + 1]>
        (<[_make_key (config (limiter w)) id (minute_window now) :=
             redis_count w id (minute_window now) + 1]> (kv (server w))).
Proof.
  intros He Hr Hid (Hi & Hre & Hb).
  destruct (redis_active_backend _ Hr) as [b Eb].
  unfold record_request, bind, gets, ret, lift.
  rewrite He. cbn [negb]. cbv beta iota. rewrite Hid, Hr.
  unfold call_backend at 1. rewrite Eb.
  pose proof (increment_kv (config (limiter w)) id (minute_window now) 120 1
                b (server w)) as (Hi1 & Hr1 & _ & Hh1). cbv zeta in *.
  destruct (Hh1 Hi Hre (Hb b Eb)) as (Hk1 & Hb1 & Hb2). clear Hh1.
  destruct (increment (config (limiter w)) id (minute_window now) 120 1 b
              (server w)) as [[a1 b1] srv1]. cbn [fst snd] in *.
  unfold call_backend. cbn [limiter server _redis_backend set_redis_backend].
  pose proof (increment_kv (config (limiter w)) id (hour_window now) 7200 1
                b1 srv1) as (Hi2 & Hr2 & _ & Hh2). cbv zeta in *.
  destruct (Hh2 ltac:(congruence) ltac:(congruence) (fun _ => Hb2))
    as (Hk2 & _). clear Hh2.
  destruct (increment (config (limiter w)) id (hour_window now) 7200 1 b1
              srv1) as [[a2 b2] srv2]. cbn [fst snd] in *.
  eexists. split; [reflexivity |]. cbn [limiter server].
  split; [reflexivity |].
  rewrite Hk2, Hk1. unfold redis_count.
  rewrite lookup_insert_ne by apply window_keys_differ. reflexivity.
Qed.

(** C3, as stated, fails on the code: a disabled limiter records nothing,
    and a caller without user id is rejected with the identity-required
    error when the configuration requires one. *)
Lemma record_request_not_unconditional :
  (step (Record_request (Some "u1") 5 None 0)
        (new_world disabled_strict_config 0 empty_server)
   = (Returned, new_world disabled_strict_config 0 empty_server) /\
   count (minute_at (RateLimiter_new disabled_strict_config 0) "u1" 0) = 0) /\
  (step (Record_request None 5 None 0)
        (new_world strict_config 0 empty_server)).1
   = Raised (RateLimitExceeded "authentication" None).
Proof. split; [split |]; reflexivity. Qed.

(** C3, amended. [record_request] does nothing on a disabled limiter and
    raises nothing but the identity-required error of the identifier
    resolution, which leaves the state as it was.  On an enabled limiter and
    for an identified caller it returns; on the local store it then has
    added 1 to the request count and [tokens_used] to the token count of
    both the minute and the hour window, and on an answering distributed
    backend it has added 1 to the request count of both windows. *)
Theorem record_request_accounts (u s : option string) (n : Z) (now : Q)
    (w : World) :
  (_enabled (limiter w) = false -> record_request u n s now w = (Ok tt, w)) /\
  (forall e, _enabled (limiter w) = true ->
     _get_identifier (config (limiter w)) u s = Raise e ->
     record_request u n s now w = (Raise e, w) /\
     e = RateLimitExceeded "authentication" None) /\
  (forall id, _enabled (limiter w) = true ->
     _get_identifier (config (limiter w)) u s = Ok id ->
     exists w', record_request u n s now w = (Ok tt, w') /\
       (redis_active (limiter w) = false ->
        count (minute_at (limiter w') id now) =
          count (minute_at (limiter w) id now) + 1 /\
        tokens (minute_at (limiter w') id now) =
          tokens (minute_at (limiter w) id now) + n /\
        count (hour_at (limiter w') id now) =
          count (hour_at (limiter w) id now) + 1 /\
        tokens (hour_at (limiter w') id now) =
          tokens (hour_at (limiter w) id now) + n) /\
       (redis_active (limiter w) = true -> healthy w ->
        redis_count w' id (minute_window now) =
          redis_count w id (minute_window now) + 1 /\
        redis_count w' id (hour_window now) =
          redis_count w id (hour_window now) + 1)).
Proof.
  split; [| split].
  - intros He. unfold record_request, bind, gets, ret. rewrite He. reflexivity.
  - intros e He Hid. split.
    + unfold record_request, bind, gets, ret, lift.
      rewrite He. cbn [negb]. cbv beta iota. rewrite Hid. reflexivity.
    + unfold _get_identifier in Hid.
      destruct (truthy u); [discriminate |].
      destruct (require_user_id _); [congruence |].
      destruct (_ && _); discriminate.
  - intros id He Hid. destruct (redis_active (limiter w)) eqn:Hr.
    + assert (Hex : exists w', record_request u n s now w = (Ok tt, w')).
      { unfold record_request, bind, gets, ret, lift.
        rewrite He. cbn [negb]. cbv beta iota. rewrite Hid, Hr.
        destruct (call_backend_ok 0 (increment (config (limiter w)) id
                    (minute_window now) 120 1) w) as (a1 & w1 & ->).
        destruct (call_backend_ok 0 (increment (config (limiter w)) id
                    (hour_window now) 7200 1) w1) as (a2 & w2 & ->).
        eauto. }
      destruct Hex as [w' Hw']. exists w'. split; [exact Hw' |].
      split; [discriminate |]. intros _ Hh.
      destruct (record_request_redis u s n now w id He Hr Hid Hh)
        as (w2 & E2 & Hc2 & Hk2).
      rewrite Hw' in E2. injection E2 as <-.
      unfold redis_count at 1 3. rewrite Hc2, Hk2. split.
      * rewrite lookup_insert_ne
          by (intros E; exact (window_keys_differ _ _ _ (eq_sym E))).
        rewrite lookup_insert_eq. reflexivity.
      * rewrite lookup_insert_eq. reflexivity.
    + rewrite (record_request_local u s n now w id He Hr Hid).
      eexists. split; [reflexivity |]. split; [| discriminate]. intros _.
      cbn [limiter].
      rewrite minute_at_put_hour, minute_at_put_minute, hour_at_put_hour.
      repeat split; reflexivity.
Qed.

Lemma record_request_accounts_witness :
  exists w',
    record_request (Some "u1") 7 None 0
      (new_world default_config 0 empty_server) = (Ok tt, w') /\
    count (minute_at (limiter w') "u1" 0) = 1 /\
    tokens (minute_at (limiter w') "u1" 0) = 7.
Proof.
  destruct (record_request_accounts (Some "u1") None 7 0
              (new_world default_config 0 empty_server)) as (_ & _ & H).
  destruct (H "u1" eq_refl eq_refl) as (w' & E & Hl & _).
  exists w'. split; [exact E |].
  destruct (Hl eq_refl) as (Hc & Ht & _). split; [exact Hc | exact Ht].
Defined.

(** ** What a check leaves of the counters (C6) *)

Lemma minute_at_put_minute_any (l : RateLimiter) (id j : string)
    (s : RateLimitState) (now : Q) :
  minute_at (put_minute l id s) j now =
    if negb (per_user (config l)) || String.eqb id j then s
    else minute_at l j now.
Proof.
  unfold minute_at, cur_minute. rewrite config_put_minute. unfold put_minute.
  destruct (per_user (config l)); simpl; [| reflexivity].
  destruct (String.eqb_spec id j) as [-> | Hn].
  - rewrite lookup_insert_eq. reflexivity.
  - rewrite lookup_insert_ne by exact Hn. reflexivity.
Qed.

Lemma hour_at_put_hour_any (l : RateLimiter) (id j : string)
    (s : RateLimitState) (now : Q) :
  hour_at (put_hour l id s) j now =
    if negb (per_user (config l)) || String.eqb id j then s
    else hour_at l j now.
Proof.
  unfold hour_at, cur_hour. rewrite config_put_hour. unfold put_hour.
  destruct (per_user (config l)); simpl; [| reflexivity].
  destruct (String.eqb_spec id j) as [-> | Hn].
  - rewrite lookup_insert_eq. reflexivity.
  - rewrite lookup_insert_ne by exact Hn. reflexivity.
Qed.

Lemma minute_at_touched (l : RateLimiter) (id j : string) (now : Q) :
  minute_at (touched_concurrent l id) j now = minute_at l j now.
Proof. unfold minute_at. rewrite cur_minute_touched_concurrent. reflexivity. Qed.

Lemma hour_at_touched (l : RateLimiter) (id j : string) (now : Q) :
  hour_at (touched_concurrent l id) j now = hour_at l j now.
Proof. unfold hour_at. rewrite cur_hour_touched_concurrent. reflexivity. Qed.

Lemma minute_at_global (l : RateLimiter) (i j : string) (now : Q) :
  per_user (config l) = false -> minute_at l i now = minute_at l j now.
Proof. unfold minute_at, cur_minute. intros ->. reflexivity. Qed.

Lemma hour_at_global (l : RateLimiter) (i j : string) (now : Q) :
  per_user (config l) = false -> hour_at l i now = hour_at l j now.
Proof. unfold hour_at, cur_hour. intros ->. reflexivity. Qed.

Lemma kept_refl (period now : Q) (m : RateLimitState) : kept period now m m.
Proof. unfold kept. auto. Qed.

Lemma kept_rolled (period now : Q) (m m' : RateLimitState) :
  kept period now m m' -> kept period now m (rolled period now m').
Proof.
  unfold rolled. intros H. destruct (stale period now m') eqn:E; [| exact H].
  destruct H as (Hc & Ht & Hs). unfold kept. simpl.
  split; [auto |]. split; [exact Ht |]. intros Hm.
  destruct (Hs Hm) as (_ & _ & Hn). congruence.
Qed.

Lemma float_gt_ge (a p q : Q) :
  (q <= p)%Q -> float_gt a p = true -> float_ge a q = true.
Proof.
  unfold float_gt, float_ge. intros Hpq H. apply negb_true_iff in H.
  apply Qle_bool_iff. destruct (Qlt_le_dec p a) as [Hlt | Hle].
  - lra.
  - apply Qle_bool_iff in Hle. congruence.
Qed.


Lemma kept_cleaned_minute (now : Q) (l : RateLimiter) (j : string) :
  kept 60 now (minute_at l j now) (minute_at (cleaned now l) j now).
Proof.
  unfold minute_at. rewrite cur_minute_cleaned.
  destruct (cur_minute l j) as [st |]; [| apply kept_refl].
  destruct (per_user (config l) && float_gt (now - window_start st) 120)
    eqn:E; [| apply kept_refl].
  apply andb_true_iff in E as [_ E]. simpl.
  assert (Hs : stale 60 now st = true)
    by (apply (float_gt_ge _ 120 60); [lra | exact E]).
  unfold kept. simpl. rewrite Hs. repeat split; auto; discriminate.
Qed.

Lemma kept_cleaned_hour (now : Q) (l : RateLimiter) (j : string) :
  kept 3600 now (hour_at l j now) (hour_at (cleaned now l) j now).
Proof.
  unfold hour_at. rewrite cur_hour_cleaned.
  destruct (cur_hour l j) as [st |]; [| apply kept_refl].
  destruct (per_user (config l) && float_gt (now - window_start st) 7200)
    eqn:E; [| apply kept_refl].
  apply andb_true_iff in E as [_ E]. simpl.
  assert (Hs : stale 3600 now st = true)
    by (apply (float_gt_ge _ 7200 3600); [lra | exact E]).
  unfold kept. simpl. rewrite Hs. repeat split; auto; discriminate.
Qed.

Lemma cur_concurrent_touched (l : RateLimiter) (id j : string) :
  cur_concurrent (touched_concurrent l id) j = cur_concurrent l j.
Proof.
  unfold cur_concurrent. rewrite config_touched_concurrent.
  unfold touched_concurrent.
  destruct (per_user (config l)); simpl; [| reflexivity].
  destruct (String.eqb_spec id j) as [-> | Hn].
  - rewrite lookup_insert_eq. reflexivity.
  - rewrite lookup_insert_ne by exact Hn. reflexivity.
Qed.

Lemma cur_concurrent_put_minute (l : RateLimiter) (id j : string)
    (s : RateLimitState) :
  cur_concurrent (put_minute l id s) j = cur_concurrent l j.
Proof.
  unfold cur_concurrent. rewrite config_put_minute. unfold put_minute.
  destruct (per_user (config l)); reflexivity.
Qed.

Lemma cur_concurrent_put_hour (l : RateLimiter) (id j : string)
    (s : RateLimitState) :
  cur_concurrent (put_hour l id s) j = cur_concurrent l j.
Proof.
  unfold cur_concurrent. rewrite config_put_hour. unfold put_hour.
  destruct (per_user (config l)); reflexivity.
Qed.

(** The three limiters that [_check_limit_memory] can leave. *)
Lemma check_limit_memory_final (id : string) (n : Z) (now : Q) (w : World) :
  let l0 := touched_concurrent (cleaned now (limiter w)) id in
  let l1 :=
    put_minute l0 id
      (rolled 60 now (minute_at (cleaned now (limiter w)) id now)) in
  let l2 :=
    put_hour l1 id
      (rolled 3600 now (hour_at (cleaned now (limiter w)) id now)) in
  let w' := (_check_limit_memory id n now w).2 in
  server w' = server w /\
  (limiter w' = l0 \/ limiter w' = l1 \/ limiter w' = l2).
Proof.
  cbv zeta. rewrite check_limit_memory_eq. cbv zeta.
  split_checks; simpl; auto.
Qed.

Lemma check_limit_memory_kept (id : string) (n : Z) (now : Q) (w : World)
    (j : string) :
  let w' := (_check_limit_memory id n now w).2 in
  kept 60 now (minute_at (limiter w) j now) (minute_at (limiter w') j now) /\
  kept 3600 now (hour_at (limiter w) j now) (hour_at (limiter w') j now) /\
  cur_concurrent (limiter w') j = cur_concurrent (limiter w) j /\
  server w' = server w.
Proof.
  cbv zeta.
  destruct (check_limit_memory_final id n now w) as (Hs & Hl). cbv zeta in Hl.
  set (l := limiter w) in *. set (c := cleaned now l) in *.
  assert (Hm1 : kept 60 now (minute_at l j now)
                  (minute_at (put_minute (touched_concurrent c id) id
                                (rolled 60 now (minute_at c id now))) j now)).
  { rewrite minute_at_put_minute_any, config_touched_concurrent.
    change (config c) with (config l).
    destruct (per_user (config l)) eqn:Ep; simpl.
    - destruct (String.eqb_spec id j) as [-> | Hn].
      + apply kept_rolled, kept_cleaned_minute.
      + rewrite minute_at_touched. apply kept_cleaned_minute.
    - rewrite (minute_at_global c id j now Ep).
      apply kept_rolled, kept_cleaned_minute. }
  assert (Hh0 : kept 3600 now (hour_at l j now) (hour_at c j now))
    by apply kept_cleaned_hour.
  subst c. destruct Hl as [-> | [-> | ->]].
  - rewrite minute_at_touched, hour_at_touched, cur_concurrent_touched,
      cur_concurrent_cleaned.
    split; [apply kept_cleaned_minute |]. auto.
  - rewrite hour_at_put_minute, hour_at_touched, cur_concurrent_put_minute,
      cur_concurrent_touched, cur_concurrent_cleaned. auto.
  - rewrite minute_at_put_hour, cur_concurrent_put_hour,
      cur_concurrent_put_minute, cur_concurrent_touched,
      cur_concurrent_cleaned.
    split; [exact Hm1 |]. split; [| auto].
    rewrite hour_at_put_hour_any, config_put_minute,
      config_touched_concurrent.
    change (config (cleaned now l)) with (config l).
    destruct (per_user (config l)) eqn:Ep; simpl.
    + destruct (String.eqb_spec id j) as [-> | Hn].
      * apply kept_rolled, kept_cleaned_hour.
      * rewrite hour_at_put_minute, hour_at_touched. exact Hh0.
    + rewrite (hour_at_global (cleaned now l) id j now Ep).
      apply kept_rolled, kept_cleaned_hour.
Qed.

Lemma get_count_server (cfg : RateLimitConfig) (i window : string)
    (b : RedisRateLimitBackend) (srv : RedisServer) :
  (get_count cfg i window b srv).2 = srv.
Proof.
  unfold get_count.
  pose proof (ensure_connected_server b srv) as H.
  destruct (_ensure_connected b srv) as [[ok b1] srv1]. simpl in H. subst.
  destruct ok; simpl; [| reflexivity].
  destruct (redis_get _ _); reflexivity.
Qed.

Lemma get_concurrent_server (cfg : RateLimitConfig) (i : string)
    (b : RedisRateLimitBackend) (srv : RedisServer) :
  (get_concurrent cfg i b srv).2 = srv.
Proof. exact (get_count_server cfg i "concurrent" b srv). Qed.

(** A backend call that only reads leaves the server, and of the limiter
    changes at most the backend object. *)
Lemma call_backend_read {A} (d : A) (m : B A) (w : World) :
  (forall b srv, (m b srv).2 = srv) ->
  server (call_backend d m w).2 = server w /\
  exists ob, limiter (call_backend d m w).2 =
             set_redis_backend (limiter w) ob.
Proof.
  intros Hm. unfold call_backend.
  destruct (_redis_backend (limiter w)) as [b |] eqn:E.
  - specialize (Hm b (server w)).
    destruct (m b (server w)) as [[a b'] srv']. simpl in *.
    split; [exact Hm | eauto].
  - simpl. split; [reflexivity |]. exists None.
    destruct w as [l srv]. destruct l. simpl in *. subst. reflexivity.
Qed.

Lemma check_limit_redis_kept (id : string) (n : Z) (now : Q) (w : World) :
  server (_check_limit_redis id n now w).2 = server w /\
  exists ob, limiter (_check_limit_redis id n now w).2 =
             set_redis_backend (limiter w) ob.
Proof.
  destruct (check_limit_redis_eq id n now w)
    as (c & mc & hc & w1 & w2 & w3 & E1 & E2 & E3 & E). cbv zeta in *.
  pose proof (call_backend_read 0 (get_concurrent (config (limiter w)) id) w
                (get_concurrent_server _ _)) as (S1 & o1 & L1).
  rewrite E1 in S1, L1. simpl in S1, L1.
  pose proof (call_backend_read 0
                (get_count (config (limiter w)) id (minute_window now)) w1
                (get_count_server _ _ _)) as (S2 & o2 & L2).
  rewrite E2 in S2, L2. simpl in S2, L2.
  pose proof (call_backend_read 0
                (get_count (config (limiter w)) id (hour_window now)) w2
                (get_count_server _ _ _)) as (S3 & o3 & L3).
  rewrite E3 in S3, L3. simpl in S3, L3.
  rewrite L2, L1 in L3. rewrite L1 in L2.
  rewrite S2, S1 in S3. rewrite S1 in S2.
  rewrite E.
  split_checks; simpl; eauto.
Qed.

Lemma counters_at (l : RateLimiter) (j : string) (t : Q) :
  counters l j =
    (count (minute_at l j t), tokens (minute_at l j t), count (hour_at l j t)).
Proof.
  unfold counters, minute_at, hour_at.
  destruct (cur_minute l j), (cur_hour l j); reflexivity.
Qed.

Lemma check_limit_kept (u s : option string) (n : Z) (now : Q) (w : World)
    (j : string) :
  let w' := (check_limit u n s now w).2 in
  kept 60 now (minute_at (limiter w) j now) (minute_at (limiter w') j now) /\
  kept 3600 now (hour_at (limiter w) j now) (hour_at (limiter w') j now) /\
  cur_concurrent (limiter w') j = cur_concurrent (limiter w) j /\
  server w' = server w.
Proof.
  cbv zeta.
  assert (Hsame : forall w', limiter w' = limiter w -> server w' = server w ->
    kept 60 now (minute_at (limiter w) j now) (minute_at (limiter w') j now) /\
    kept 3600 now (hour_at (limiter w) j now) (hour_at (limiter w') j now) /\
    cur_concurrent (limiter w') j = cur_concurrent (limiter w) j /\
    server w' = server w).
  { intros w' -> ->. split; [apply kept_refl |]. split; [apply kept_refl |].
    auto. }
  destruct (_enabled (limiter w)) eqn:He.
  2:{ assert (E : check_limit u n s now w = (Ok true, w)).
      { unfold check_limit, bind, gets, ret. rewrite He. reflexivity. }
      rewrite E. apply Hsame; reflexivity. }
  destruct (_get_identifier (config (limiter w)) u s) as [id | e] eqn:Hid.
  2:{ rewrite (check_limit_unidentified u s n now w e He Hid).
      apply Hsame; reflexivity. }
  rewrite (check_limit_enabled u s n now w id He Hid).
  destruct (redis_active (limiter w)).
  - destruct (check_limit_redis_kept id n now w) as (Hs & ob & Hl).
    rewrite Hl, Hs. split; [apply kept_refl |]. split; [apply kept_refl |].
    auto.
  - apply check_limit_memory_kept.
Qed.

Lemma same_or_zero_trans (x y z : Z) :
  same_or_zero x y -> same_or_zero y z -> same_or_zero x z.
Proof. unfold same_or_zero. intros [-> | ->] [-> | ->]; auto. Qed.

Lemma run_checks_never_add (cs : list call) (w : World) (j : string) :
  forallb is_check cs = true ->
  same_or_zero (counters (limiter w) j).1.1
               (counters (limiter (run cs w).2) j).1.1 /\
  same_or_zero (counters (limiter w) j).1.2
               (counters (limiter (run cs w).2) j).1.2 /\
  same_or_zero (counters (limiter w) j).2
               (counters (limiter (run cs w).2) j).2 /\
  cur_concurrent (limiter (run cs w).2) j = cur_concurrent (limiter w) j /\
  server (run cs w).2 = server w.
Proof.
  revert w. induction cs as [| c cs IH]; intros w Hc.
  - simpl. unfold same_or_zero. auto.
  - simpl in Hc. apply andb_true_iff in Hc as [Hc Hcs].
    rewrite run_cons_snd.
    destruct (IH (step c w).2 Hcs) as (I1 & I2 & I3 & I4 & I5).
    destruct c as [u n s now | | |]; try discriminate.
    assert (Hw : (step (Check u n s now) w).2 = (check_limit u n s now w).2).
    { simpl. destruct (check_limit u n s now w) as [[b | e] w1]; reflexivity. }
    rewrite Hw in *.
    destruct (check_limit_kept u s n now w j)
      as ((K1 & K2 & _) & (K3 & _ & _) & K4 & K5).
    rewrite (counters_at (limiter w) j now).
    rewrite (counters_at (limiter (check_limit u n s now w).2) j now)
      in I1, I2, I3.
    simpl in *.
    split; [exact (same_or_zero_trans _ _ _ K1 I1) |].
    split; [exact (same_or_zero_trans _ _ _ K2 I2) |].
    split; [exact (same_or_zero_trans _ _ _ K3 I3) |].
    split; congruence.
Qed.

(** C6, as stated, fails on the code: a check that finds the minute window
    stale resets its request count, so the count that [get_usage] reports
    for the identifier changes from 1 to 0 across a check with no record in
    between. *)
Lemma check_resets_stale_count :
  used (requests_minute
          (get_usage (limiter one_request_world) (Some "u1") 60)) = 1 /\
  count (minute_at (limiter one_request_world) "u1" 60) = 1 /\
  (step (Check (Some "u1") 0 None 60) one_request_world).1 = Allowed /\
  used (requests_minute
          (get_usage
             (limiter (step (Check (Some "u1") 0 None 60)
                            one_request_world).2)
             (Some "u1") 60)) = 0 /\
  count (minute_at
           (limiter (step (Check (Some "u1") 0 None 60) one_request_world).2)
           "u1" 60) = 0.
Proof. vm_compute. repeat split; reflexivity. Qed.

(** C6, amended. A check never accounts a request: after any sequence of
    calls of [check_limit], every counter of every identifier in the local
    store (minute request count, minute tokens, hour request count) is what
    it was or zero, the concurrency counters and the whole server state are
    what they were; and a single check at a time when the identifier's
    minute and hour windows are not stale leaves its counters as they were.
    The only change a check makes to a counter is the reset that lazy
    rollover or cleanup makes to a stale window. *)
Theorem check_limit_accounts_nothing (cs : list call) (w : World)
    (j : string) :
  forallb is_check cs = true ->
  (same_or_zero (counters (limiter w) j).1.1
                (counters (limiter (run cs w).2) j).1.1 /\
   same_or_zero (counters (limiter w) j).1.2
                (counters (limiter (run cs w).2) j).1.2 /\
   same_or_zero (counters (limiter w) j).2
                (counters (limiter (run cs w).2) j).2 /\
   cur_concurrent (limiter (run cs w).2) j = cur_concurrent (limiter w) j /\
   server (run cs w).2 = server w) /\
  (forall u n s now,
     stale 60 now (minute_at (limiter w) j now) = false ->
     stale 3600 now (hour_at (limiter w) j now) = false ->
     counters (limiter (check_limit u n s now w).2) j =
       counters (limiter w) j).
Proof.
  intros Hc. split; [apply run_checks_never_add; exact Hc |].
  intros u n s now Hm Hh.
  destruct (check_limit_kept u s n now w j)
    as ((_ & _ & K1) & (_ & _ & K2) & _).
  destruct (K1 Hm) as (C1 & T1 & _). destruct (K2 Hh) as (C2 & _ & _).
  rewrite !(counters_at _ j now). congruence.
Qed.

Lemma check_limit_accounts_nothing_witness :
  same_or_zero 1
    (counters
       (limiter (run [Check (Some "u1") 0 None 0; Check (Some "u1") 9 None 70]
                     one_request_world).2) "u1").1.1 /\
  counters (limiter (check_limit (Some "u1") 0 None 10 one_request_world).2)
           "u1" = (1, 5, 1).
Proof.
  destruct (check_limit_accounts_nothing
              [Check (Some "u1") 0 None 0; Check (Some "u1") 9 None 70]
              one_request_world "u1" eq_refl) as ((H1 & _) & H2).
  split; [exact H1 |].
  exact (H2 (Some "u1") 0 None 10%Q eq_refl eq_refl).
Defined.

(** ** Ceilings and bursts (C5) *)

Lemma setup_put_minute (l : RateLimiter) (id : string) (s : RateLimitState) :
  setup (put_minute l id s) = setup l.
Proof.
  unfold setup, redis_active, put_minute.
  destruct (per_user (config l)); reflexivity.
Qed.

Lemma setup_put_hour (l : RateLimiter) (id : string) (s : RateLimitState) :
  setup (put_hour l id s) = setup l.
Proof.
  unfold setup, redis_active, put_hour.
  destruct (per_user (config l)); reflexivity.
Qed.

Lemma setup_touched (l : RateLimiter) (id : string) :
  setup (touched_concurrent l id) = setup l.
Proof.
  unfold setup, redis_active, touched_concurrent.
  destruct (per_user (config l)); reflexivity.
Qed.

Lemma setup_cleaned (now : Q) (l : RateLimiter) :
  setup (cleaned now l) = setup l.
Proof. reflexivity. Qed.



Lemma not_ge (a b : Z) : a < b -> (a >=? b) = false.
Proof.
  intros H. destruct (a >=? b) eqn:E; [| reflexivity].
  apply Z.geb_le in E. lia.
Qed.

Lemma ge_true (a b : Z) : b <= a -> (a >=? b) = true.
Proof. intros H. apply Z.geb_le. exact H. Qed.




Section Burst.

Variable cfg : RateLimitConfig.
Variables (t0 : Q) (u s : option string) (id : string).

Hypothesis Henabled : enabled cfg = true.
Hypothesis Hrpm : requests_per_minute cfg = 60.
Hypothesis Hburst : burst_multiplier cfg = float_lit 3 2.
Hypothesis Hrph : 90 < requests_per_hour cfg.
Hypothesis Hconc : 0 < max_concurrent_requests cfg.
Hypothesis Hid : _get_identifier cfg u s = Ok id.







Hypothesis Hlocal : use_redis cfg = false.




End Burst.

Lemma local_ceilings (u s : option string) (n : Z) (now : Q) (w : World)
    (id : string) :
  _enabled (limiter w) = true ->
  redis_active (limiter w) = false ->
  _get_identifier (config (limiter w)) u s = Ok id ->
  let cfg := config (limiter w) in
  let l := cleaned now (limiter w) in
  let ms := rolled 60 now (minute_at l id now) in
  let hs := rolled 3600 now (hour_at l id now) in
  (check_limit u n s now w).1 = Ok true <->
    cur_concurrent l id < max_concurrent_requests cfg /\
    (exists ceiling,
       burst_limit (requests_per_minute cfg) (burst_multiplier cfg)
         = Ok ceiling /\
       count ms < ceiling) /\
    count hs < requests_per_hour cfg /\
    (0 < n ->
     exists ceiling,
       burst_limit (tokens_per_minute cfg) (burst_multiplier cfg)
         = Ok ceiling /\
       tokens ms + n <= ceiling).
Proof.
  intros He Hr Hid. cbv zeta.
  rewrite (check_limit_enabled u s n now w id He Hid), Hr.
  rewrite check_limit_memory_eq. cbv zeta.
  unfold requests_ceiling, tokens_ceiling.
  rewrite !Z.geb_leb, !Z.gtb_ltb.
  destruct (Z.leb_spec (max_concurrent_requests (config (limiter w)))
              (cur_concurrent (cleaned now (limiter w)) id)).
  { simpl. split; [discriminate | lia]. }
  destruct (burst_limit (requests_per_minute _) _) as [mr | e].
  2:{ simpl. split; [discriminate |].
      intros (_ & (c & [=] & _) & _). }
  rewrite ?Z.geb_leb, ?Z.gtb_ltb.
  destruct (Z.leb_spec mr
              (count (rolled 60 now
                        (minute_at (cleaned now (limiter w)) id now)))).
  { simpl. split; [discriminate |].
    intros (_ & (c & [= <-] & ?) & _). lia. }
  destruct (Z.leb_spec (requests_per_hour (config (limiter w)))
              (count (rolled 3600 now
                        (hour_at (cleaned now (limiter w)) id now)))).
  { simpl. split; [discriminate | lia]. }
  destruct (Z.ltb_spec 0 n); simpl.
  - destruct (burst_limit (tokens_per_minute _) _) as [mt | e].
    2:{ simpl. split; [discriminate |].
        intros (_ & _ & _ & Ht). destruct (Ht H2) as (c & [=] & _). }
    rewrite ?Z.gtb_ltb.
    destruct (Z.ltb_spec mt
                (tokens (rolled 60 now
                           (minute_at (cleaned now (limiter w)) id now)) + n));
      simpl.
    + split; [discriminate |].
      intros (_ & _ & _ & Ht). destruct (Ht H2) as (c & [= <-] & ?). lia.
    + split; [intros _ | reflexivity].
      split; [lia |]. split; [exists mr; split; [reflexivity | lia] |].
      split; [lia |]. intros _. exists mt. split; [reflexivity | lia].
  - split; [intros _ | reflexivity].
    split; [lia |]. split; [exists mr; split; [reflexivity | lia] |].
    split; [lia |]. intros ?. lia.
Qed.




(** ** Where the code departs from the specification (C1, C2, C4) *)

(** C1. The rollover of a stale minute window zeroes the request count and
    moves the window start, but keeps the token count: one minute after a
    request that used the whole token allowance, a check for one token is
    still rejected, with the counters of the fresh window at 0 requests and
    150000 tokens.  With global counters the tokens are never reset, however
    long the caller waits. *)
Theorem rollover_keeps_tokens :
  stale 60 60 (minute_at (limiter token_saturated_world) "u1" 60) = true /\
  step (Check (Some "u1") 1 None 60) token_saturated_world =
    (Raised (RateLimitExceeded "tokens_per_minute" (Some 60%Q)),
     (step (Check (Some "u1") 1 None 60) token_saturated_world).2) /\
  minute_at (limiter (step (Check (Some "u1") 1 None 60)
                           token_saturated_world).2) "u1" 60 =
    {| count := 0; tokens := 150000; window_start := 60; concurrent := 0 |} /\
  (step (Check (Some "u1") 1 None 1000000) token_saturated_global_world).1 =
    Raised (RateLimitExceeded "tokens_per_minute" (Some 60%Q)).
Proof. vm_compute. repeat split; reflexivity. Qed.

(** C2. On the distributed backend the token budget is not evaluated: a
    check with an estimate far above the minute token ceiling is allowed,
    while the same check on the local store is rejected with the token
    error. *)
Theorem redis_check_skips_tokens :
  max_tokens redis_config = 150000 /\
  (step (Check (Some "u1") 1000000000 None 0)
        (new_world redis_config 0 empty_server)).1 = Allowed /\
  (step (Check (Some "u1") 1000000000 None 0)
        (new_world default_config 0 empty_server)).1 =
    Raised (RateLimitExceeded "tokens_per_minute" (Some 60%Q)).
Proof. vm_compute. repeat split; reflexivity. Qed.

(** C4. While the distributed backend is selected and does not answer, no
    call raises, but nothing is decided on the local store: every record
    is dropped (the local tables stay empty), and the check that the local
    store rejects after ninety recorded requests is allowed. *)
Theorem failing_redis_skips_local_store :
  (run ninety_then_check (new_world redis_config 0 dead_server)).1 =
    repeat Returned 90 ++ [Allowed] /\
  _user_minute_state
    (limiter (run ninety_then_check (new_world redis_config 0 dead_server)).2)
    = ∅ /\
  (run ninety_then_check (new_world default_config 0 empty_server)).1 =
    repeat Returned 90 ++
      [Raised (RateLimitExceeded "requests_per_minute" (Some 60%Q))] /\
  (step (Check (Some "u1") 150001 None 0)
        (new_world redis_config 0 dead_server)).1 = Allowed /\
  (step (Check (Some "u1") 150001 None 0)
        (new_world default_config 0 empty_server)).1 =
    Raised (RateLimitExceeded "tokens_per_minute" (Some 60%Q)).
Proof. vm_compute. repeat split; reflexivity. Qed.

(** * Further properties of the limiter *)

(** ** The connection test is made once *)

Lemma set_redis_backend_same (l : RateLimiter) (b : RedisRateLimitBackend) :
  _redis_backend l = Some b -> set_redis_backend l (Some b) = l.
Proof. destruct l. simpl. intros ->. reflexivity. Qed.

Lemma ensure_connected_off (b : RedisRateLimitBackend) (srv : RedisServer) :
  backend_off b -> _ensure_connected b srv = (false, b, srv).
Proof.
  intros [Hi Hc]. unfold _ensure_connected. rewrite Hi, Hc.
  rewrite bool_decide_eq_false_2; [reflexivity |].
  intros [x Hx]. discriminate.
Qed.

(** The outcome of the first connection attempt is the outcome of every
    later one, whatever became of the server: a backend that could connect
    keeps its client, and one that could not never tries again. *)
Theorem ensure_connected_cached (b : RedisRateLimitBackend)
    (srv : RedisServer) :
  backend_wf b ->
  let ok := (_ensure_connected b srv).1.1 in
  let b1 := (_ensure_connected b srv).1.2 in
  (forall srv', _ensure_connected b1 srv' = (ok, b1, srv')) /\
  (_initialized b = false -> ok = installed srv && reachable srv) /\
  (ok = false -> backend_off b1) /\
  backend_wf b1.
Proof.
  intros Hwf. cbv zeta. unfold _ensure_connected, backend_off, backend_wf.
  destruct (_initialized b) eqn:Hi.
  - cbn [fst snd]. rewrite Hi.
    repeat split; try discriminate; try congruence.
    destruct (_client b); [discriminate | reflexivity].
  - specialize (Hwf Hi).
    destruct (installed srv), (reachable srv); simpl; rewrite ?Hwf;
      repeat split; try discriminate; try reflexivity.
Qed.

Lemma ensure_connected_cached_witness :
  _ensure_connected
    (_ensure_connected RedisRateLimitBackend_new dead_server).1.2
    empty_server
  = (false, {| _client := None; _initialized := true |}, empty_server).
Proof.
  destruct (ensure_connected_cached RedisRateLimitBackend_new dead_server)
    as (H & _); [intros _; reflexivity |].
  exact (H empty_server).
Defined.

(** ** A backend that is off *)

Lemma backend_ops_off (cfg : RateLimitConfig) (i window : string)
    (t amount : Z) (b : RedisRateLimitBackend) (srv : RedisServer) :
  backend_off b ->
  get_count cfg i window b srv = (0, b, srv) /\
  get_concurrent cfg i b srv = (0, b, srv) /\
  increment cfg i window t amount b srv = (0, b, srv) /\
  incr_concurrent cfg i t b srv = (0, b, srv) /\
  decr_concurrent cfg i b srv = (0, b, srv).
Proof.
  intros Hoff. unfold get_count, get_concurrent, increment, incr_concurrent,
    decr_concurrent.
  rewrite (ensure_connected_off b srv Hoff). simpl. auto.
Qed.

Lemma call_backend_off {A} (d a : A) (m : B A) (w : World)
    (b : RedisRateLimitBackend) :
  _redis_backend (limiter w) = Some b ->
  m b (server w) = (a, b, server w) ->
  call_backend d m w = (Ok a, w).
Proof.
  intros Hb Hm. unfold call_backend. rewrite Hb, Hm.
  rewrite (set_redis_backend_same _ _ Hb). destruct w; reflexivity.
Qed.

Lemma step_off (c : call) (w : World) (b : RedisRateLimitBackend) :
  _enabled (limiter w) = true ->
  redis_active (limiter w) = true ->
  _redis_backend (limiter w) = Some b ->
  backend_off b ->
  step c w = (off_answer (config (limiter w)) c, w).
Proof.
  intros He Hr Hb Hoff.
  pose proof (fun i win t a =>
    backend_ops_off (config (limiter w)) i win t a b (server w) Hoff) as Hops.
  destruct c as [u n s now | u n s now | u s | u s]; simpl.
  - destruct (_get_identifier (config (limiter w)) u s) as [i | e] eqn:Hid.
    + rewrite (check_limit_enabled u s n now w i He Hid), Hr.
      unfold _check_limit_redis, bind, gets, raise, ret, lift. cbn beta.
      destruct (Hops i "" 0 0) as (_ & Hgc & _).
      rewrite (call_backend_off 0 0 _ w b Hb Hgc).
      unfold open_answer, requests_ceiling.
      destruct (0 >=? max_concurrent_requests _); [reflexivity |].
      destruct (Hops i (minute_window now) 0 0) as (Hm & _).
      rewrite (call_backend_off 0 0 _ w b Hb Hm).
      destruct (burst_limit _ _) as [ceiling | e]; [| reflexivity].
      destruct (0 >=? ceiling); [reflexivity |].
      destruct (Hops i (hour_window now) 0 0) as (Hh & _).
      rewrite (call_backend_off 0 0 _ w b Hb Hh).
      destruct (0 >=? requests_per_hour _); reflexivity.
    + rewrite (check_limit_unidentified u s n now w e He Hid). reflexivity.
  - unfold record_request, bind, gets, ret, lift.
    rewrite He. cbn [negb]. cbv beta iota.
    destruct (_get_identifier (config (limiter w)) u s) as [i | e] eqn:Hid;
      [| reflexivity].
    rewrite Hr.
    destruct (Hops i (minute_window now) 120 1) as (_ & _ & Hm & _).
    rewrite (call_backend_off 0 0 _ w b Hb Hm).
    destruct (Hops i (hour_window now) 7200 1) as (_ & _ & Hh & _).
    rewrite (call_backend_off 0 0 _ w b Hb Hh). reflexivity.
  - rewrite (get_identifier_enabled_acquire u s w He).
    destruct (_get_identifier (config (limiter w)) u s) as [i | e] eqn:Hid;
      [| reflexivity].
    rewrite Hr. destruct (Hops i "" 300 0) as (_ & _ & _ & Hi & _).
    rewrite (call_backend_off 0 0 _ w b Hb Hi). reflexivity.
  - rewrite (get_identifier_enabled_release u s w He).
    destruct (_get_identifier (config (limiter w)) u s) as [i | e] eqn:Hid;
      [| reflexivity].
    rewrite Hr. destruct (Hops i "" 0 0) as (_ & _ & _ & _ & Hd).
    rewrite (call_backend_off 0 0 _ w b Hb Hd). reflexivity.
Qed.

Lemma run_off (cs : list call) (w : World) (b : RedisRateLimitBackend) :
  _enabled (limiter w) = true ->
  redis_active (limiter w) = true ->
  _redis_backend (limiter w) = Some b ->
  backend_off b ->
  run cs w = (map (off_answer (config (limiter w))) cs, w).
Proof.
  intros He Hr Hb Hoff. induction cs as [| c cs IH]; [reflexivity |].
  simpl. rewrite (step_off c w b He Hr Hb Hoff), IH. reflexivity.
Qed.

(** With positive limits the answer of a limiter whose backend is off to
    an identified caller is that of a call that goes through. *)
Lemma off_answer_open (cfg : RateLimitConfig) (c : call) :
  0 < max_concurrent_requests cfg ->
  (exists ceiling, requests_ceiling cfg = Ok ceiling /\ 0 < ceiling) ->
  0 < requests_per_hour cfg ->
  caller cfg c <> None ->
  off_answer cfg c = quiet c.
Proof.
  intros Hc (m & Em & Hm) Hh Hcaller. unfold off_answer, caller in *.
  destruct c as [u n s now | u n s now | u s | u s];
    destruct (_get_identifier cfg u s); try congruence; simpl;
    try reflexivity.
  unfold open_answer. rewrite Em, !not_ge by lia. reflexivity.
Qed.

(** Once the backend of a limiter on the distributed store is off, the
    limiter is frozen: no call changes the limiter or the server, even when
    the server answers again, nothing is recorded, and every check is
    answered as if all counters were zero.  So with positive limits every
    call of an identified caller goes through, whatever was recorded or
    acquired before; a limit that is not positive still rejects, and a
    caller that cannot be identified still gets the identity error. *)
Theorem off_backend_freezes (cs : list call) (w : World)
    (b : RedisRateLimitBackend) :
  _enabled (limiter w) = true ->
  redis_active (limiter w) = true ->
  _redis_backend (limiter w) = Some b ->
  backend_off b ->
  let cfg := config (limiter w) in
  run cs w = (map (off_answer cfg) cs, w) /\
  (0 < max_concurrent_requests cfg ->
   (exists ceiling, requests_ceiling cfg = Ok ceiling /\ 0 < ceiling) ->
   0 < requests_per_hour cfg ->
   Forall (fun c => caller cfg c <> None) cs ->
   run cs w = (map quiet cs, w)).
Proof.
  intros He Hr Hb Hoff. cbv zeta.
  split; [exact (run_off cs w b He Hr Hb Hoff) |].
  intros Hc Hm Hh Hall. rewrite (run_off cs w b He Hr Hb Hoff).
  f_equal. induction Hall as [| c cs Hcaller _ IH]; [reflexivity |].
  simpl. rewrite IH, (off_answer_open _ c Hc Hm Hh Hcaller). reflexivity.
Qed.

Lemma off_backend_freezes_witness :
  run (repeat (Record_request (Some "u1") 0 None 0) 3
         ++ [Check (Some "u1") 0 None 0])
      (mkWorld (limiter (step (Check (Some "u1") 0 None 0)
                              (new_world redis_config 0 dead_server)).2)
               empty_server)
  = ([Returned; Returned; Returned; Allowed],
     mkWorld (limiter (step (Check (Some "u1") 0 None 0)
                            (new_world redis_config 0 dead_server)).2)
             empty_server).
Proof.
  refine (proj2 (off_backend_freezes
           (repeat (Record_request (Some "u1") 0 None 0) 3
              ++ [Check (Some "u1") 0 None 0])
           (mkWorld (limiter (step (Check (Some "u1") 0 None 0)
                                   (new_world redis_config 0 dead_server)).2)
                    empty_server)
           {| _client := None; _initialized := true |}
           eq_refl eq_refl eq_refl (conj eq_refl eq_refl)) _ _ _ _).
  - reflexivity.
  - exists 90. split; reflexivity.
  - reflexivity.
  - repeat constructor; discriminate.
Defined.

(** ** Closing the limiter *)

Lemma close_eq (w : World) :
  close w =
    match _redis_backend (limiter w) with
    | Some b =>
        (Ok tt,
         mkWorld (set_redis_backend (limiter w)
                    (Some {| _client := None;
                             _initialized := _initialized b |}))
                 (server w))
    | None => (Ok tt, w)
    end.
Proof.
  unfold close, call_backend, backend_close.
  destruct (_redis_backend (limiter w)) as [b |] eqn:Hb; [| reflexivity].
  destruct (_client b) eqn:Hc; [reflexivity |].
  destruct b as [c i]. simpl in Hc. subst c. reflexivity.
Qed.

(** [close] never raises and touches neither the server nor the local
    counters; closing twice is closing once; and a limiter on the
    distributed store whose backend had made its connection attempt is
    frozen afterwards: every later call leaves everything as it is and
    every check is answered as if all counters were zero. *)
Theorem close_switches_backend_off (w : World) :
  let w1 := (close w).2 in
  (close w).1 = Ok tt /\
  server w1 = server w /\
  (forall j t, minute_at (limiter w1) j t = minute_at (limiter w) j t /\
               hour_at (limiter w1) j t = hour_at (limiter w) j t /\
               cur_concurrent (limiter w1) j = cur_concurrent (limiter w) j) /\
  close w1 = (Ok tt, w1) /\
  (forall b cs,
     _enabled (limiter w) = true ->
     redis_active (limiter w) = true ->
     _redis_backend (limiter w) = Some b ->
     _initialized b = true ->
     run cs w1 = (map (off_answer (config (limiter w))) cs, w1)).
Proof.
  cbv zeta. rewrite close_eq.
  destruct (_redis_backend (limiter w)) as [b |] eqn:Hb.
  - cbn [fst snd limiter server].
    split; [reflexivity |]. split; [reflexivity |].
    split; [intros j t; repeat split; reflexivity |]. split.
    + rewrite close_eq. cbn [limiter server _redis_backend set_redis_backend].
      reflexivity.
    + intros b0 cs He Hr Hb0 Hi. injection Hb0 as <-.
      assert (Hr1 : redis_active
                (set_redis_backend (limiter w)
                   (Some {| _client := None;
                            _initialized := _initialized b |})) = true).
      { unfold redis_active in *. simpl.
        apply andb_true_iff in Hr as [_ ->]. reflexivity. }
      exact (run_off cs
               (mkWorld (set_redis_backend (limiter w)
                           (Some {| _client := None;
                                    _initialized := _initialized b |}))
                        (server w))
               {| _client := None; _initialized := _initialized b |}
               He Hr1 eq_refl (conj Hi eq_refl)).
  - cbn [fst snd]. split; [reflexivity |]. split; [reflexivity |].
    split; [intros j t; repeat split; reflexivity |]. split.
    + rewrite close_eq, Hb. reflexivity.
    + intros b cs _ _ Hb0. discriminate.
Qed.

Lemma close_switches_backend_off_witness :
  run [Record_request (Some "u1") 0 None 0; Check (Some "u1") 0 None 0]
      (close (step (Check (Some "u1") 0 None 0)
                   (new_world redis_config 0 empty_server)).2).2
  = ([Returned; Allowed],
     (close (step (Check (Some "u1") 0 None 0)
                  (new_world redis_config 0 empty_server)).2).2).
Proof.
  destruct (close_switches_backend_off
              (step (Check (Some "u1") 0 None 0)
                    (new_world redis_config 0 empty_server)).2)
    as (_ & _ & _ & _ & H).
  exact (H {| _client := Some Redis_client; _initialized := true |}
           [Record_request (Some "u1") 0 None 0; Check (Some "u1") 0 None 0]
           eq_refl eq_refl eq_refl eq_refl).
Defined.

(** ** Reset *)

Lemma truthy_Some (v : string) : v <> "" -> truthy (Some v) = true.
Proof.
  intros H. simpl. destruct (String.eqb_spec v ""); [contradiction | reflexivity].
Qed.

Lemma reset_user_eq (u : string) (now : Q) (w : World) :
  u <> "" ->
  reset (Some u) now w =
    (Ok tt,
     mkWorld
       (set_concurrent_requests
          (set_user_hour_state
             (set_user_minute_state (limiter w)
                (delete u (_user_minute_state (limiter w))))
             (delete u (_user_hour_state (limiter w))))
          (delete u (_concurrent_requests (limiter w))))
       (server w)).
Proof.
  intros Hu. unfold reset, modify. rewrite (truthy_Some u Hu). reflexivity.
Qed.

(** [reset(user_id)] forgets that user and nobody else: afterwards
    [get_usage] reports no use for the user and what it reported before for
    every other user; the server, the configuration and the choice of
    backend are untouched.  With per-user limits the windows and the
    concurrency counter of the user are those of a new caller and those of
    every other identifier are unchanged; with global limits nothing that a
    check reads has changed. *)
Theorem reset_user_forgets_one (u : string) (now : Q) (w : World) :
  u <> "" ->
  let l := limiter w in
  let l1 := limiter (reset (Some u) now w).2 in
  (reset (Some u) now w).1 = Ok tt /\
  server (reset (Some u) now w).2 = server w /\
  setup l1 = setup l /\
  (forall t,
     used (requests_minute (get_usage l1 (Some u) t)) = 0 /\
     used (requests_hour (get_usage l1 (Some u) t)) = 0 /\
     used (tokens_minute (get_usage l1 (Some u) t)) = 0 /\
     concurrent_used (get_usage l1 (Some u) t) = 0) /\
  (forall v t, v <> "" -> v <> u ->
     get_usage l1 (Some v) t = get_usage l (Some v) t) /\
  (per_user (config l) = true ->
     (forall t, minute_at l1 u t = RateLimitState_new t /\
                hour_at l1 u t = RateLimitState_new t) /\
     cur_concurrent l1 u = 0 /\
     (forall j t, j <> u ->
        minute_at l1 j t = minute_at l j t /\
        hour_at l1 j t = hour_at l j t /\
        cur_concurrent l1 j = cur_concurrent l j)) /\
  (per_user (config l) = false ->
     forall j t,
       minute_at l1 j t = minute_at l j t /\
       hour_at l1 j t = hour_at l j t /\
       cur_concurrent l1 j = cur_concurrent l j).
Proof.
  intros Hu. cbv zeta. rewrite (reset_user_eq u now w Hu).
  cbn [fst snd limiter server].
  split; [reflexivity |]. split; [reflexivity |]. split; [reflexivity |].
  split.
  { intros t. unfold get_usage. rewrite (truthy_Some u Hu). simpl.
    rewrite !lookup_delete_eq. simpl. auto. }
  split.
  { intros v t Hv Hvu. unfold get_usage. rewrite (truthy_Some v Hv). simpl.
    rewrite !lookup_delete_ne by congruence. reflexivity. }
  split.
  - intros Hp. unfold minute_at, hour_at, cur_minute, cur_hour,
      cur_concurrent. simpl. rewrite Hp.
    split; [intros t; rewrite !lookup_delete_eq; auto |].
    split; [rewrite lookup_delete_eq; reflexivity |].
    intros j t Hj. rewrite !lookup_delete_ne by congruence. auto.
  - intros Hp j t. unfold minute_at, hour_at, cur_minute, cur_hour,
      cur_concurrent. simpl. rewrite Hp. auto.
Qed.

Lemma reset_user_forgets_one_witness :
  used (requests_minute
          (get_usage (limiter (reset (Some "u1") 9 one_request_world).2)
                     (Some "u1") 9)) = 0.
Proof.
  destruct (reset_user_forgets_one "u1" 9 one_request_world)
    as (_ & _ & _ & H & _); [discriminate |].
  exact (proj1 (H 9%Q)).
Defined.

Lemma reset_all_eq (now : Q) (w : World) :
  reset None now w =
    (Ok tt,
     mkWorld
       (mkLimiter (config (limiter w)) (_enabled (limiter w))
          (_redis_backend (limiter w)) ∅ ∅ (RateLimitState_new now)
          (RateLimitState_new now) ∅ 0)
       (server w)).
Proof. reflexivity. Qed.

Lemma rolled_fresh_counts (period now t : Q) :
  count (rolled period t (RateLimitState_new now)) = 0 /\
  tokens (rolled period t (RateLimitState_new now)) = 0.
Proof.
  unfold rolled. destruct (stale period t (RateLimitState_new now)); auto.
Qed.

Lemma reset_all_windows (now t : Q) (w : World) (j : string) :
  let l1 := limiter (reset None now w).2 in
  (exists t', minute_at (cleaned t l1) j t = RateLimitState_new t') /\
  (exists t', hour_at (cleaned t l1) j t = RateLimitState_new t') /\
  cur_concurrent (cleaned t l1) j = 0.
Proof.
  cbv zeta. rewrite reset_all_eq. cbn [snd limiter].
  rewrite cur_concurrent_cleaned. unfold minute_at, hour_at.
  rewrite cur_minute_cleaned, cur_hour_cleaned.
  unfold cur_minute, cur_hour, cur_concurrent. simpl.
  destruct (per_user (config (limiter w))); simpl;
    rewrite ?lookup_empty; simpl; eauto.
Qed.

(** [reset()] without a user starts the local store over: every counter of
    every identifier is zero, [get_usage] reports no use for anybody, and
    the server, the configuration and the choice of backend are untouched.
    On the local store the next check of any identified caller, at any
    time, is allowed exactly when every ceiling is positive (the minute
    ceiling as the check computes it, [int(requests_per_minute *
    burst_multiplier)] in floating point) and, for a positive estimate, the
    estimate is within the minute token ceiling computed likewise. *)
Theorem reset_all_starts_over (now : Q) (w : World) :
  let w1 := (reset None now w).2 in
  (reset None now w).1 = Ok tt /\
  server w1 = server w /\
  setup (limiter w1) = setup (limiter w) /\
  (forall j, counters (limiter w1) j = (0, 0, 0) /\
             cur_concurrent (limiter w1) j = 0) /\
  (forall uid t,
     used (requests_minute (get_usage (limiter w1) uid t)) = 0 /\
     used (requests_hour (get_usage (limiter w1) uid t)) = 0 /\
     used (tokens_minute (get_usage (limiter w1) uid t)) = 0 /\
     concurrent_used (get_usage (limiter w1) uid t) = 0) /\
  (forall u s n t id,
     _enabled (limiter w) = true ->
     redis_active (limiter w) = false ->
     _get_identifier (config (limiter w)) u s = Ok id ->
     ((check_limit u n s t w1).1 = Ok true <->
        0 < max_concurrent_requests (config (limiter w)) /\
        (exists ceiling,
           requests_ceiling (config (limiter w)) = Ok ceiling /\
           0 < ceiling) /\
        0 < requests_per_hour (config (limiter w)) /\
        (0 < n ->
         exists ceiling,
           tokens_ceiling (config (limiter w)) = Ok ceiling /\
           n <= ceiling))).
Proof.
  cbv zeta. split; [reflexivity |]. split; [reflexivity |].
  split; [reflexivity |]. split.
  { intros j. rewrite reset_all_eq. cbn [snd limiter].
    unfold counters, minute_at, hour_at, cur_minute, cur_hour,
      cur_concurrent. simpl.
    destruct (per_user (config (limiter w))); simpl;
      rewrite ?lookup_empty; auto. }
  split.
  { intros uid t. rewrite reset_all_eq. cbn [snd limiter].
    unfold get_usage. simpl. rewrite !lookup_empty. simpl. auto. }
  intros u s n t id He Hr Hid.
  pose proof (local_ceilings u s n t (reset None now w).2 id) as H.
  cbv zeta in H. rewrite H by assumption. clear H.
  destruct (reset_all_windows now t w id) as ((t1 & ->) & (t2 & ->) & ->).
  destruct (rolled_fresh_counts 60 t1 t) as [-> ->].
  destruct (rolled_fresh_counts 3600 t2 t) as [-> _].
  change (config (limiter (reset None now w).2)) with (config (limiter w)).
  unfold requests_ceiling, tokens_ceiling. reflexivity.
Qed.

Lemma reset_all_starts_over_witness :
  (check_limit (Some "u1") 0 None 61 (reset None 61 hour_saturated_world).2).1
  = Ok true.
Proof.
  destruct (reset_all_starts_over 61 hour_saturated_world)
    as (_ & _ & _ & _ & _ & H).
  apply (H (Some "u1") None 0 61%Q "u1" eq_refl eq_refl eq_refl).
  split; [reflexivity |]. split; [exists 90; split; reflexivity |].
  split; [reflexivity |]. intros H0. discriminate H0.
Defined.

(** ** The local store under the distributed backend *)

Lemma with_local_self (w : World) : with_local (limiter w) w = w.
Proof. destruct w as [l srv]. destruct l. reflexivity. Qed.

Lemma call_backend_with_local {A} (d : A) (m : B A) (l' : RateLimiter)
    (w : World) :
  call_backend d m (with_local l' w) =
    ((call_backend d m w).1, with_local l' (call_backend d m w).2).
Proof.
  unfold call_backend, with_local. cbn [limiter server _redis_backend].
  destruct (_redis_backend (limiter w)) as [b |] eqn:Hb.
  - destruct (m b (server w)) as [[a b'] srv']. reflexivity.
  - cbn [fst snd]. rewrite Hb. reflexivity.
Qed.

Lemma redis_active_with_local (l' : RateLimiter) (w : World) :
  redis_active (limiter (with_local l' w)) = redis_active (limiter w).
Proof. reflexivity. Qed.

Lemma check_limit_redis_with_local (id : string) (n : Z) (now : Q)
    (l' : RateLimiter) (w : World) :
  _check_limit_redis id n now (with_local l' w) =
    ((_check_limit_redis id n now w).1,
     with_local l' (_check_limit_redis id n now w).2).
Proof.
  unfold _check_limit_redis, bind, gets, raise, ret, lift.
  change (config (limiter (with_local l' w))) with (config (limiter w)).
  cbn beta. rewrite call_backend_with_local.
  destruct (call_backend_ok 0 (get_concurrent (config (limiter w)) id) w)
    as (c & w1 & ->). cbn [fst snd].
  destruct (c >=? _); [reflexivity |].
  rewrite call_backend_with_local.
  destruct (call_backend_ok 0
              (get_count (config (limiter w)) id (minute_window now)) w1)
    as (mc & w2 & ->). cbn [fst snd].
  destruct (burst_limit _ _) as [ceiling | e]; [| reflexivity].
  destruct (mc >=? _); [reflexivity |].
  rewrite call_backend_with_local.
  destruct (call_backend_ok 0
              (get_count (config (limiter w)) id (hour_window now)) w2)
    as (hc & w3 & ->). cbn [fst snd].
  destruct (hc >=? _); reflexivity.
Qed.

Lemma record_request_redis_eq (u : option string) (n : Z)
    (s : option string) (now : Q) (w : World) :
  _enabled (limiter w) = true ->
  redis_active (limiter w) = true ->
  record_request u n s now w =
    match _get_identifier (config (limiter w)) u s with
    | Raise e => (Raise e, w)
    | Ok i =>
        let '(_, w1) :=
          call_backend 0 (increment (config (limiter w)) i
                            (minute_window now) 120 1) w in
        let '(_, w2) :=
          call_backend 0 (increment (config (limiter w)) i
                            (hour_window now) 7200 1) w1 in
        (Ok tt, w2)
    end.
Proof.
  intros He Hr. unfold record_request, bind, gets, ret, lift.
  rewrite He. cbn [negb]. cbv beta iota.
  destruct (_get_identifier (config (limiter w)) u s) as [i | e];
    [| reflexivity].
  rewrite Hr.
  destruct (call_backend_ok 0 (increment (config (limiter w)) i
              (minute_window now) 120 1) w) as (a1 & w1 & ->).
  destruct (call_backend_ok 0 (increment (config (limiter w)) i
              (hour_window now) 7200 1) w1) as (a2 & w2 & ->).
  reflexivity.
Qed.

Lemma step_with_local (c : call) (l' : RateLimiter) (w : World) :
  redis_active (limiter w) = true ->
  step c (with_local l' w) = ((step c w).1, with_local l' (step c w).2).
Proof.
  intros Hr. destruct (_enabled (limiter w)) eqn:He.
  2:{ rewrite (step_disabled c w He).
      rewrite (step_disabled c (with_local l' w)) by exact He. reflexivity. }
  assert (He' : _enabled (limiter (with_local l' w)) = true) by exact He.
  destruct c as [u n s now | u n s now | u s | u s]; simpl.
  - destruct (_get_identifier (config (limiter w)) u s) as [i | e] eqn:Hid.
    + rewrite (check_limit_enabled u s n now w i He Hid), Hr.
      rewrite (check_limit_enabled u s n now (with_local l' w) i He' Hid).
      rewrite redis_active_with_local, Hr, check_limit_redis_with_local.
      destruct (_check_limit_redis i n now w) as [[b | e] w1]; reflexivity.
    + rewrite (check_limit_unidentified u s n now w e He Hid).
      rewrite (check_limit_unidentified u s n now (with_local l' w) e He' Hid).
      reflexivity.
  - rewrite (record_request_redis_eq u n s now w He Hr).
    rewrite (record_request_redis_eq u n s now (with_local l' w) He' Hr).
    change (config (limiter (with_local l' w))) with (config (limiter w)).
    destruct (_get_identifier (config (limiter w)) u s) as [i | e];
      [| reflexivity].
    rewrite call_backend_with_local.
    destruct (call_backend 0 _ w) as [r1 w1]. cbn [fst snd].
    rewrite call_backend_with_local.
    destruct (call_backend 0 _ w1) as [r2 w2]. reflexivity.
  - rewrite (get_identifier_enabled_acquire u s w He).
    rewrite (get_identifier_enabled_acquire u s (with_local l' w) He').
    change (config (limiter (with_local l' w))) with (config (limiter w)).
    destruct (_get_identifier (config (limiter w)) u s) as [i | e];
      [| reflexivity].
    rewrite redis_active_with_local, Hr, call_backend_with_local.
    destruct (call_backend 0 _ w) as [r w1]. reflexivity.
  - rewrite (get_identifier_enabled_release u s w He).
    rewrite (get_identifier_enabled_release u s (with_local l' w) He').
    change (config (limiter (with_local l' w))) with (config (limiter w)).
    destruct (_get_identifier (config (limiter w)) u s) as [i | e];
      [| reflexivity].
    rewrite redis_active_with_local, Hr, call_backend_with_local.
    destruct (call_backend 0 _ w) as [r w1]. reflexivity.
Qed.

Lemma call_backend_active {A} (d : A) (m : B A) (w : World) :
  redis_active (limiter w) = true ->
  redis_active (limiter (call_backend d m w).2) = true.
Proof.
  intros Hr. destruct (redis_active_backend _ Hr) as [b Hb].
  unfold call_backend. rewrite Hb.
  destruct (m b (server w)) as [[a b'] srv']. cbn [snd limiter].
  unfold redis_active in *. simpl.
  apply andb_true_iff in Hr as [_ ->]. reflexivity.
Qed.

Lemma step_redis_active (c : call) (w : World) :
  redis_active (limiter w) = true ->
  redis_active (limiter (step c w).2) = true.
Proof.
  intros Hr. destruct (_enabled (limiter w)) eqn:He.
  2:{ rewrite (step_disabled c w He). exact Hr. }
  destruct c as [u n s now | u n s now | u s | u s]; simpl.
  - destruct (_get_identifier (config (limiter w)) u s) as [i | e] eqn:Hid.
    + rewrite (check_limit_enabled u s n now w i He Hid), Hr.
      destruct (check_limit_redis_kept i n now w) as (_ & ob & Hl).
      assert (Hx : redis_active (limiter (_check_limit_redis i n now w).2)
                   = true).
      { destruct (check_limit_redis_eq i n now w)
          as (c & mc & hc & w1 & w2 & w3 & E1 & E2 & E3 & E).
        cbv zeta in *.
        pose proof (call_backend_active 0
          (get_concurrent (config (limiter w)) i) w Hr) as A1.
        rewrite E1 in A1. cbn [snd] in A1.
        pose proof (call_backend_active 0
          (get_count (config (limiter w)) i (minute_window now)) w1 A1) as A2.
        rewrite E2 in A2. cbn [snd] in A2.
        pose proof (call_backend_active 0
          (get_count (config (limiter w)) i (hour_window now)) w2 A2) as A3.
        rewrite E3 in A3. cbn [snd] in A3.
        rewrite E. destruct (c >=? _); [exact A1 |].
        destruct (requests_ceiling _) as [ceiling | e]; [| exact A2].
        destruct (mc >=? _); [exact A2 |].
        destruct (hc >=? _); exact A3. }
      destruct (_check_limit_redis i n now w) as [[b | e] w1]; exact Hx.
    + rewrite (check_limit_unidentified u s n now w e He Hid). exact Hr.
  - rewrite (record_request_redis_eq u n s now w He Hr).
    destruct (_get_identifier (config (limiter w)) u s) as [i | e];
      [| exact Hr].
    pose proof (call_backend_active 0 (increment (config (limiter w)) i
                  (minute_window now) 120 1) w Hr) as A1.
    destruct (call_backend 0 _ w) as [r1 w1]. cbn [snd] in A1.
    pose proof (call_backend_active 0 (increment (config (limiter w)) i
                  (hour_window now) 7200 1) w1 A1) as A2.
    destruct (call_backend 0 _ w1) as [r2 w2]. exact A2.
  - rewrite (get_identifier_enabled_acquire u s w He).
    destruct (_get_identifier (config (limiter w)) u s) as [i | e];
      [| exact Hr].
    rewrite Hr.
    pose proof (call_backend_active 0
                  (incr_concurrent (config (limiter w)) i 300) w Hr) as A1.
    destruct (call_backend 0 _ w) as [r1 w1]. exact A1.
  - rewrite (get_identifier_enabled_release u s w He).
    destruct (_get_identifier (config (limiter w)) u s) as [i | e];
      [| exact Hr].
    rewrite Hr.
    pose proof (call_backend_active 0
                  (decr_concurrent (config (limiter w)) i) w Hr) as A1.
    destruct (call_backend 0 _ w) as [r1 w1]. exact A1.
Qed.

Lemma run_with_local (cs : list call) (l' : RateLimiter) (w : World) :
  redis_active (limiter w) = true ->
  run cs (with_local l' w) = ((run cs w).1, with_local l' (run cs w).2).
Proof.
  revert w. induction cs as [| c cs IH]; intros w Hr; [reflexivity |].
  simpl. rewrite (step_with_local c l' w Hr).
  pose proof (step_redis_active c w Hr) as Hr1.
  destruct (step c w) as [a w1]. cbn [fst snd] in *.
  rewrite (IH w1 Hr1). destruct (run cs w1) as [r w2]. reflexivity.
Qed.

Lemma redis_tables_kept (cs : list call) (w : World) :
  redis_active (limiter w) = true ->
  (run cs w).2 = with_local (limiter w) (run cs w).2 /\
  config (limiter (run cs w).2) = config (limiter w).
Proof.
  intros Hr.
  pose proof (run_with_local cs (limiter w) w Hr) as H.
  rewrite with_local_self in H.
  split; [rewrite H at 1; reflexivity |].
  clear H. revert w Hr. induction cs as [| c cs IH]; intros w Hr;
    [reflexivity |].
  rewrite run_cons_snd. rewrite (IH _ (step_redis_active c w Hr)).
  destruct (_enabled (limiter w)) eqn:He;
    [| rewrite (step_disabled c w He); reflexivity].
  destruct c as [u n s now | u n s now | u s | u s].
  - simpl. destruct (_get_identifier (config (limiter w)) u s)
      as [i | e] eqn:Hid.
    + rewrite (check_limit_enabled u s n now w i He Hid), Hr.
      destruct (check_limit_redis_kept i n now w) as (_ & ob & Hl).
      destruct (_check_limit_redis i n now w) as [[b | e] w1];
        cbn [snd] in *; rewrite Hl; reflexivity.
    + rewrite (check_limit_unidentified u s n now w e He Hid). reflexivity.
  - simpl. rewrite (record_request_redis_eq u n s now w He Hr).
    destruct (_get_identifier (config (limiter w)) u s) as [i | e];
      [| reflexivity].
    unfold call_backend.
    destruct (redis_active_backend _ Hr) as [b Hb]. rewrite Hb.
    destruct (increment _ _ _ _ _ b (server w)) as [[a1 b1] s1].
    cbn [limiter _redis_backend set_redis_backend server].
    destruct (increment _ _ _ _ _ b1 s1) as [[a2 b2] s2]. reflexivity.
  - destruct (slot_step (Acquire u s) w eq_refl He) as (H1 & _). exact H1.
  - destruct (slot_step (Release u s) w eq_refl He) as (H1 & _). exact H1.
Qed.

Lemma redis_usage_kept (cs : list call) (w : World) :
  redis_active (limiter w) = true ->
  forall uid t,
    get_usage (limiter (run cs w).2) uid t = get_usage (limiter w) uid t.
Proof.
  intros Hr uid t. destruct (redis_tables_kept cs w Hr) as (Hw & Hc).
  rewrite Hw. unfold get_usage, with_local.
  cbn [limiter config _user_minute_state _user_hour_state
       _concurrent_requests]. rewrite Hc. reflexivity.
Qed.

(** While the distributed backend is selected the local store is neither
    read nor written: the answers of any sequence of calls, and what it
    does to the server, do not depend on the local tables, and the calls
    leave the local tables, and with them everything [get_usage] reports,
    as they were. *)
Theorem redis_ignores_local_store (cs : list call) (w : World) :
  redis_active (limiter w) = true ->
  (forall l', run cs (with_local l' w) =
                ((run cs w).1, with_local l' (run cs w).2)) /\
  (forall j t,
     minute_at (limiter (run cs w).2) j t = minute_at (limiter w) j t /\
     hour_at (limiter (run cs w).2) j t = hour_at (limiter w) j t /\
     cur_concurrent (limiter (run cs w).2) j = cur_concurrent (limiter w) j) /\
  (forall uid t,
     get_usage (limiter (run cs w).2) uid t = get_usage (limiter w) uid t).
Proof.
  intros Hr. split; [intros l'; apply run_with_local; exact Hr |].
  destruct (redis_tables_kept cs w Hr) as (Hw & Hc).
  split.
  - intros j t. rewrite Hw. unfold minute_at, hour_at, cur_minute, cur_hour,
      cur_concurrent, with_local. cbn [limiter config _user_minute_state
      _user_hour_state _global_minute_state _global_hour_state
      _concurrent_requests _global_concurrent].
    rewrite Hc. auto.
  - apply redis_usage_kept. exact Hr.
Qed.

Lemma redis_ignores_local_store_witness :
  get_usage
    (limiter (run [Record_request (Some "u1") 5 None 0;
                   Acquire (Some "u1") None; Check (Some "u1") 0 None 0]
                  (new_world redis_config 0 empty_server)).2)
    (Some "u1") 0
  = get_usage (RateLimiter_new redis_config 0) (Some "u1") 0.
Proof.
  destruct (redis_ignores_local_store
              [Record_request (Some "u1") 5 None 0;
               Acquire (Some "u1") None; Check (Some "u1") 0 None 0]
              (new_world redis_config 0 empty_server) eq_refl)
    as (_ & _ & H).
  exact (H (Some "u1") 0%Q).
Defined.

(** ** What [get_usage] can see *)

Lemma setup_put_concurrent (l : RateLimiter) (i : string) (v : Z) :
  setup (put_concurrent l i v) = setup l.
Proof.
  unfold setup. destruct (redis_active_put_concurrent l i v) as (-> & -> & ->).
  reflexivity.
Qed.

Lemma record_request_unidentified (u s : option string) (n : Z) (now : Q)
    (w : World) (e : exn) :
  _enabled (limiter w) = true ->
  _get_identifier (config (limiter w)) u s = Raise e ->
  record_request u n s now w = (Raise e, w).
Proof.
  intros He Hid. unfold record_request, bind, gets, ret, lift.
  rewrite He. cbn [negb]. cbv beta iota. rewrite Hid. reflexivity.
Qed.

(** With global limits on the local store no call writes to the per-user
    tables. *)
Lemma global_step_tables (c : call) (w : World) :
  per_user (config (limiter w)) = false ->
  redis_active (limiter w) = false ->
  _user_minute_state (limiter w) = ∅ ->
  _user_hour_state (limiter w) = ∅ ->
  _concurrent_requests (limiter w) = ∅ ->
  let l1 := limiter (step c w).2 in
  setup l1 = setup (limiter w) /\
  _user_minute_state l1 = ∅ /\ _user_hour_state l1 = ∅ /\
  _concurrent_requests l1 = ∅.
Proof.
  intros Hp Hr Hm Hh Hcr. cbv zeta.
  destruct (_enabled (limiter w)) eqn:He.
  2:{ rewrite (step_disabled c w He). auto. }
  assert (Hput : forall l i ms hs,
            per_user (config l) = false ->
            _user_minute_state l = ∅ -> _user_hour_state l = ∅ ->
            _concurrent_requests l = ∅ ->
            _user_minute_state (put_hour (put_minute l i ms) i hs) = ∅ /\
            _user_hour_state (put_hour (put_minute l i ms) i hs) = ∅ /\
            _concurrent_requests (put_hour (put_minute l i ms) i hs) = ∅ /\
            _user_minute_state (put_minute l i ms) = ∅ /\
            _user_hour_state (put_minute l i ms) = ∅ /\
            _concurrent_requests (put_minute l i ms) = ∅).
  { intros l i ms hs Hpl H1 H2 H3. unfold put_hour.
    rewrite config_put_minute. unfold put_minute. rewrite Hpl. simpl.
    repeat split; assumption. }
  destruct c as [u n s now | u n s now | u s | u s]; simpl.
  - destruct (_get_identifier (config (limiter w)) u s) as [i | e] eqn:Hid.
    2:{ rewrite (check_limit_unidentified u s n now w e He Hid). auto. }
    rewrite (check_limit_enabled u s n now w i He Hid), Hr.
    destruct (check_limit_memory_final i n now w) as (_ & Hl).
    cbv zeta in Hl.
    assert (Hc0 : touched_concurrent (cleaned now (limiter w)) i
                  = cleaned now (limiter w)).
    { unfold touched_concurrent. change (config (cleaned now (limiter w)))
        with (config (limiter w)). rewrite Hp. reflexivity. }
    rewrite Hc0 in Hl.
    assert (Hcl : _user_minute_state (cleaned now (limiter w)) = ∅ /\
                  _user_hour_state (cleaned now (limiter w)) = ∅ /\
                  _concurrent_requests (cleaned now (limiter w)) = ∅).
    { unfold cleaned. simpl. rewrite Hm, Hh, Hcr, !map_filter_empty. auto. }
    destruct Hcl as (C1 & C2 & C3).
    destruct (Hput (cleaned now (limiter w)) i
                (rolled 60 now (minute_at (cleaned now (limiter w)) i now))
                (rolled 3600 now (hour_at (cleaned now (limiter w)) i now))
                Hp C1 C2 C3) as (P1 & P2 & P3 & P4 & P5 & P6).
    destruct (_check_limit_memory i n now w) as [[b | e] w1]; cbn [snd] in *.
    all: destruct Hl as [-> | [-> | ->]];
      rewrite ?setup_put_hour, ?setup_put_minute, ?setup_cleaned; auto.
  - destruct (_get_identifier (config (limiter w)) u s) as [i | e] eqn:Hid.
    + rewrite (record_request_local u s n now w i He Hr Hid).
      cbn [snd limiter]. rewrite setup_put_hour, setup_put_minute.
      destruct (Hput (limiter w) i
                  (recorded n (minute_at (limiter w) i now))
                  (recorded n (hour_at (limiter w) i now)) Hp Hm Hh Hcr)
        as (P1 & P2 & P3 & _). auto.
    + rewrite (record_request_unidentified u s n now w e He Hid). auto.
  - rewrite (get_identifier_enabled_acquire u s w He).
    destruct (_get_identifier (config (limiter w)) u s) as [i | e]; [| auto].
    rewrite Hr. cbn [snd limiter]. rewrite setup_put_concurrent.
    unfold put_concurrent. rewrite Hp. simpl. auto.
  - rewrite (get_identifier_enabled_release u s w He).
    destruct (_get_identifier (config (limiter w)) u s) as [i | e]; [| auto].
    rewrite Hr. cbn [snd limiter]. rewrite setup_put_concurrent.
    unfold put_concurrent. rewrite Hp. simpl. auto.
Qed.

Lemma global_run_tables (cs : list call) (w : World) :
  per_user (config (limiter w)) = false ->
  redis_active (limiter w) = false ->
  _user_minute_state (limiter w) = ∅ ->
  _user_hour_state (limiter w) = ∅ ->
  _concurrent_requests (limiter w) = ∅ ->
  _user_minute_state (limiter (run cs w).2) = ∅ /\
  _user_hour_state (limiter (run cs w).2) = ∅ /\
  _concurrent_requests (limiter (run cs w).2) = ∅.
Proof.
  revert w. induction cs as [| c cs IH]; intros w Hp Hr Hm Hh Hc; [auto |].
  rewrite run_cons_snd.
  destruct (global_step_tables c w Hp Hr Hm Hh Hc) as (Hs & M1 & H1 & C1).
  unfold setup in Hs. injection Hs as Hcfg _ Hr1.
  apply IH; try assumption; congruence.
Qed.

(** [get_usage] reads the per-user tables only.  With global limits, or on
    the distributed backend, no call writes to them: whatever was checked,
    recorded, acquired and released since the limiter was constructed,
    [get_usage] reports no use at all, for every user. *)
Theorem get_usage_blind (cfg : RateLimitConfig) (t0 : Q) (srv : RedisServer)
    (cs : list call) (uid : option string) (t : Q) :
  per_user cfg = false \/ use_redis cfg = true ->
  let l := limiter (run cs (new_world cfg t0 srv)).2 in
  used (requests_minute (get_usage l uid t)) = 0 /\
  used (requests_hour (get_usage l uid t)) = 0 /\
  used (tokens_minute (get_usage l uid t)) = 0 /\
  concurrent_used (get_usage l uid t) = 0.
Proof.
  intros H. cbv zeta. destruct (use_redis cfg) eqn:Hu.
  - assert (Hr : redis_active (limiter (new_world cfg t0 srv)) = true).
    { unfold redis_active, new_world. simpl. rewrite Hu. reflexivity. }
    rewrite (redis_usage_kept cs (new_world cfg t0 srv) Hr uid t).
    unfold get_usage, new_world. simpl. rewrite !lookup_empty. simpl. auto.
  - destruct H as [Hp | ?]; [| discriminate].
    assert (Hr : redis_active (limiter (new_world cfg t0 srv)) = false).
    { unfold redis_active, new_world. simpl. rewrite Hu. reflexivity. }
    destruct (global_run_tables cs (new_world cfg t0 srv) Hp Hr
                eq_refl eq_refl eq_refl) as (M & Hh & C).
    unfold get_usage. rewrite M, Hh, C, !lookup_empty. simpl. auto.
Qed.

Lemma get_usage_blind_witness :
  used (requests_minute
          (get_usage
             (limiter (run [Check (Some "u1") 0 None 0;
                            Record_request (Some "u1") 9 None 0]
                           (new_world global_config 0 empty_server)).2)
             (Some "u1") 0)) = 0.
Proof.
  exact (proj1 (get_usage_blind global_config 0 empty_server
                  [Check (Some "u1") 0 None 0;
                   Record_request (Some "u1") 9 None 0]
                  (Some "u1") 0 (or_introl eq_refl))).
Defined.

(** ** Waiting for [retry_after] *)

Lemma minute_at_cleaned_cases (t : Q) (l : RateLimiter) (id : string) :
  minute_at (cleaned t l) id t = minute_at l id t \/
  minute_at (cleaned t l) id t = RateLimitState_new t.
Proof.
  unfold minute_at. rewrite cur_minute_cleaned.
  destruct (cur_minute l id) as [st |]; [| auto].
  destruct (per_user (config l) && _); auto.
Qed.

Lemma hour_at_cleaned_cases (t : Q) (l : RateLimiter) (id : string) :
  hour_at (cleaned t l) id t = hour_at l id t \/
  hour_at (cleaned t l) id t = RateLimitState_new t.
Proof.
  unfold hour_at. rewrite cur_hour_cleaned.
  destruct (cur_hour l id) as [st |]; [| auto].
  destruct (per_user (config l) && _); auto.
Qed.

(** A window whose period has elapsed counts zero once rolled. *)
Lemma rolled_count_after (period now t : Q) (st : RateLimitState) :
  (now + max0 (period - (now - window_start st)) <= t)%Q ->
  count (rolled period t st) = 0.
Proof.
  intros H. unfold rolled.
  assert (Hs : stale period t st = true).
  { unfold stale, float_ge. apply Qle_bool_iff.
    unfold max0 in H.
    destruct (Qle_bool (period - (now - window_start st)) 0) eqn:E.
    - apply Qle_bool_iff in E. lra.
    - lra. }
  rewrite Hs. reflexivity.
Qed.

Lemma minute_limit_passes (u s : option string) (n : Z) (now t : Q)
    (w : World) (id : string) (ms : RateLimitState) (r' : option Q) :
  _enabled (limiter w) = true ->
  redis_active (limiter w) = false ->
  _get_identifier (config (limiter w)) u s = Ok id ->
  cur_minute (limiter w) id = Some ms ->
  (now + max0 (60 - (now - window_start ms)) <= t)%Q ->
  0 < max_requests (config (limiter w)) ->
  (check_limit u n s t w).1 <>
    Raise (RateLimitExceeded "requests_per_minute" r').
Proof.
  intros He Hr Hid Hm Ht Hmax.
  rewrite (check_limit_enabled u s n t w id He Hid), Hr.
  rewrite check_limit_memory_eq. cbv zeta.
  destruct (_ >=? max_concurrent_requests _); [discriminate |].
  assert (Hc : count (rolled 60 t (minute_at (cleaned t (limiter w)) id t))
               = 0).
  { destruct (minute_at_cleaned_cases t (limiter w) id) as [-> | ->].
    - unfold minute_at. rewrite Hm. simpl.
      apply (rolled_count_after 60 now t ms Ht).
    - apply rolled_fresh_counts. }
  destruct (requests_ceiling _) as [ceiling | e] eqn:Ec.
  2:{ intros [= ->]. exact (ceiling_not_rejection _ _ _ _ Ec). }
  rewrite (max_requests_ok _ _ Ec) in Hmax.
  rewrite Hc, (not_ge 0 _ Hmax).
  destruct (_ >=? requests_per_hour _); [discriminate |].
  destruct (n >? 0); [| discriminate].
  destruct (tokens_ceiling _) as [token_ceiling | e] eqn:Et.
  2:{ intros [= ->]. exact (ceiling_not_rejection _ _ _ _ Et). }
  destruct (_ >? token_ceiling); discriminate.
Qed.

Lemma hour_limit_passes (u s : option string) (n : Z) (now t : Q)
    (w : World) (id : string) (hs : RateLimitState) (r' : option Q) :
  _enabled (limiter w) = true ->
  redis_active (limiter w) = false ->
  _get_identifier (config (limiter w)) u s = Ok id ->
  cur_hour (limiter w) id = Some hs ->
  (now + max0 (3600 - (now - window_start hs)) <= t)%Q ->
  0 < requests_per_hour (config (limiter w)) ->
  (check_limit u n s t w).1 <>
    Raise (RateLimitExceeded "requests_per_hour" r').
Proof.
  intros He Hr Hid Hh Ht Hmax.
  rewrite (check_limit_enabled u s n t w id He Hid), Hr.
  rewrite check_limit_memory_eq. cbv zeta.
  destruct (_ >=? max_concurrent_requests _); [discriminate |].
  destruct (requests_ceiling _) as [ceiling | e] eqn:Ec.
  2:{ intros [= ->]. exact (ceiling_not_rejection _ _ _ _ Ec). }
  destruct (_ >=? ceiling); [discriminate |].
  assert (Hc : count (rolled 3600 t (hour_at (cleaned t (limiter w)) id t))
               = 0).
  { destruct (hour_at_cleaned_cases t (limiter w) id) as [-> | ->].
    - unfold hour_at. rewrite Hh. simpl.
      apply (rolled_count_after 3600 now t hs Ht).
    - apply rolled_fresh_counts. }
  rewrite Hc, (not_ge 0 _ Hmax).
  destruct (n >? 0); [| discriminate].
  destruct (tokens_ceiling _) as [token_ceiling | e] eqn:Et.
  2:{ intros [= ->]. exact (ceiling_not_rejection _ _ _ _ Et). }
  destruct (_ >? token_ceiling); discriminate.
Qed.

(** On the local store the hint of a request-count rejection is enough: a
    caller rejected for the minute (or hour) request count who waits at
    least [retry_after] is not rejected for that count again, whatever
    tokens it then asks for, as long as nothing is recorded meanwhile and
    the ceiling is positive. *)
Theorem retry_after_is_enough (u s : option string) (n n' : Z) (now t : Q)
    (w : World) (id ty : string) (r : Q) :
  _enabled (limiter w) = true ->
  redis_active (limiter w) = false ->
  _get_identifier (config (limiter w)) u s = Ok id ->
  (check_limit u n s now w).1 = Raise (RateLimitExceeded ty (Some r)) ->
  (now + r <= t)%Q ->
  let w' := (check_limit u n s now w).2 in
  (ty = "requests_per_minute" -> 0 < max_requests (config (limiter w)) ->
   forall r', (check_limit u n' s t w').1 <>
              Raise (RateLimitExceeded "requests_per_minute" r')) /\
  (ty = "requests_per_hour" -> 0 < requests_per_hour (config (limiter w)) ->
   forall r', (check_limit u n' s t w').1 <>
              Raise (RateLimitExceeded "requests_per_hour" r')).
Proof.
  intros He Hr Hid Hc Ht. cbv zeta.
  rewrite (check_limit_enabled u s n now w id He Hid), Hr in Hc |- *.
  rewrite check_limit_memory_eq in Hc |- *. cbv zeta in Hc |- *.
  set (l0 := touched_concurrent (cleaned now (limiter w)) id) in *.
  set (ms := rolled 60 now (minute_at (cleaned now (limiter w)) id now)) in *.
  set (hs := rolled 3600 now (hour_at (cleaned now (limiter w)) id now)) in *.
  assert (S0 : setup l0 = setup (limiter w))
    by (unfold l0; rewrite setup_touched; reflexivity).
  destruct (_ >=? max_concurrent_requests _).
  { cbn [fst] in Hc. injection Hc as <- _.
    split; intros; discriminate. }
  destruct (requests_ceiling _) as [ceiling | e0] eqn:Ec.
  2:{ cbn [fst] in Hc. injection Hc as ->.
      destruct (ceiling_not_rejection _ _ _ _ Ec). }
  destruct (_ >=? ceiling).
  { cbn [fst snd] in Hc |- *. injection Hc as <- <-.
    split; [| intros; discriminate]. intros _ Hmax r'.
    assert (S1 : setup (put_minute l0 id ms) = setup (limiter w))
      by (rewrite setup_put_minute; exact S0).
    unfold setup in S1. injection S1 as Hcfg He1 Hr1.
    apply (minute_limit_passes u s n' now t (mkWorld (put_minute l0 id ms)
             (server w)) id ms r'); cbn [limiter].
    - congruence.
    - congruence.
    - rewrite Hcfg. exact Hid.
    - apply cur_minute_put_minute.
    - exact Ht.
    - rewrite Hcfg. exact Hmax. }
  destruct (_ >=? requests_per_hour _).
  { cbn [fst snd] in Hc |- *. injection Hc as <- <-.
    split; [intros; discriminate |]. intros _ Hmax r'.
    assert (S1 : setup (put_hour (put_minute l0 id ms) id hs)
                 = setup (limiter w))
      by (rewrite setup_put_hour, setup_put_minute; exact S0).
    unfold setup in S1. injection S1 as Hcfg He1 Hr1.
    apply (hour_limit_passes u s n' now t
             (mkWorld (put_hour (put_minute l0 id ms) id hs) (server w))
             id hs r'); cbn [limiter].
    - congruence.
    - congruence.
    - rewrite Hcfg. exact Hid.
    - apply cur_hour_put_hour.
    - exact Ht.
    - rewrite Hcfg. exact Hmax. }
  destruct (n >? 0); cbn [fst] in Hc; [| discriminate].
  destruct (tokens_ceiling _) as [token_ceiling | e0] eqn:Et.
  2:{ cbn [fst] in Hc. injection Hc as ->.
      destruct (ceiling_not_rejection _ _ _ _ Et). }
  destruct (_ >? token_ceiling); cbn [fst] in Hc; [| discriminate].
  injection Hc as <- _. split; intros; discriminate.
Qed.

Lemma retry_after_is_enough_witness :
  (check_limit (Some "u1") 0 None 60
     (check_limit (Some "u1") 0 None 10 one_rpm_world).2).1 <>
  Raise (RateLimitExceeded "requests_per_minute" (Some 60%Q)).
Proof.
  refine (proj1 (retry_after_is_enough (Some "u1") None 0 0 10 60
                   one_rpm_world "u1" "requests_per_minute" 50
                   eq_refl eq_refl eq_refl _ _) eq_refl _ (Some 60%Q)).
  - vm_compute. reflexivity.
  - vm_compute. discriminate.
  - reflexivity.
Defined.

(** ** Callers do not disturb each other *)

Lemma cur_minute_put_minute_ne (l : RateLimiter) (i j : string)
    (s : RateLimitState) :
  per_user (config l) = true -> i <> j ->
  cur_minute (put_minute l i s) j = cur_minute l j.
Proof.
  intros Hp Hn. unfold cur_minute. rewrite config_put_minute.
  unfold put_minute. rewrite Hp. simpl. apply lookup_insert_ne. exact Hn.
Qed.

Lemma cur_hour_put_hour_ne (l : RateLimiter) (i j : string)
    (s : RateLimitState) :
  per_user (config l) = true -> i <> j ->
  cur_hour (put_hour l i s) j = cur_hour l j.
Proof.
  intros Hp Hn. unfold cur_hour. rewrite config_put_hour.
  unfold put_hour. rewrite Hp. simpl. apply lookup_insert_ne. exact Hn.
Qed.

Lemma cur_windows_put_concurrent (l : RateLimiter) (i j : string) (v : Z) :
  cur_minute (put_concurrent l i v) j = cur_minute l j /\
  cur_hour (put_concurrent l i v) j = cur_hour l j.
Proof.
  unfold cur_minute, cur_hour, put_concurrent.
  destruct (per_user (config l)) eqn:E; simpl; rewrite E; auto.
Qed.

Lemma cur_minute_cleaned_cases (t : Q) (l : RateLimiter) (j : string) :
  cur_minute (cleaned t l) j = cur_minute l j \/
  cur_minute (cleaned t l) j = None.
Proof.
  rewrite cur_minute_cleaned. destruct (cur_minute l j); [| auto].
  destruct (per_user (config l) && _); auto.
Qed.

Lemma cur_hour_cleaned_cases (t : Q) (l : RateLimiter) (j : string) :
  cur_hour (cleaned t l) j = cur_hour l j \/ cur_hour (cleaned t l) j = None.
Proof.
  rewrite cur_hour_cleaned. destruct (cur_hour l j); [| auto].
  destruct (per_user (config l) && _); auto.
Qed.

Lemma isolation_step (c : call) (w : World) (j : string) :
  per_user (config (limiter w)) = true ->
  redis_active (limiter w) = false ->
  caller (config (limiter w)) c <> Some j ->
  let l := limiter w in
  let l1 := limiter (step c w).2 in
  setup l1 = setup l /\
  cur_concurrent l1 j = cur_concurrent l j /\
  (cur_minute l1 j = cur_minute l j \/ cur_minute l1 j = None) /\
  (cur_hour l1 j = cur_hour l j \/ cur_hour l1 j = None) /\
  (is_check c = false ->
   cur_minute l1 j = cur_minute l j /\ cur_hour l1 j = cur_hour l j).
Proof.
  intros Hp Hr Hcaller. cbv zeta.
  destruct (_enabled (limiter w)) eqn:He.
  2:{ rewrite (step_disabled c w He). cbn [snd]. auto 10. }
  destruct c as [u n s now | u n s now | u s | u s]; simpl in Hcaller |- *.
  - destruct (_get_identifier (config (limiter w)) u s) as [i | e] eqn:Hid.
    2:{ rewrite (check_limit_unidentified u s n now w e He Hid).
        cbn [snd]. auto 10. }
    assert (Hij : i <> j) by congruence.
    rewrite (check_limit_enabled u s n now w i He Hid), Hr.
    destruct (check_limit_memory_final i n now w) as (_ & Hl).
    cbv zeta in Hl.
    assert (Hp0 : per_user (config (touched_concurrent
                                      (cleaned now (limiter w)) i)) = true)
      by (rewrite config_touched_concurrent; exact Hp).
    assert (Hp1 : forall ms, per_user (config (put_minute (touched_concurrent
                     (cleaned now (limiter w)) i) i ms)) = true)
      by (intros; rewrite config_put_minute; exact Hp0).
    assert (Hres : forall w1, limiter w1 = limiter (_check_limit_memory i n now w).2 ->
      setup (limiter w1) = setup (limiter w) /\
      cur_concurrent (limiter w1) j = cur_concurrent (limiter w) j /\
      (cur_minute (limiter w1) j = cur_minute (limiter w) j \/
       cur_minute (limiter w1) j = None) /\
      (cur_hour (limiter w1) j = cur_hour (limiter w) j \/
       cur_hour (limiter w1) j = None)).
    { intros w1 ->. destruct Hl as [-> | [-> | ->]].
      - rewrite setup_touched, cur_concurrent_touched, cur_concurrent_cleaned,
          cur_minute_touched_concurrent, cur_hour_touched_concurrent.
        split; [reflexivity |]. split; [reflexivity |].
        split; [apply cur_minute_cleaned_cases | apply cur_hour_cleaned_cases].
      - rewrite setup_put_minute, setup_touched, cur_concurrent_put_minute,
          cur_concurrent_touched, cur_concurrent_cleaned,
          cur_hour_put_minute, cur_hour_touched_concurrent.
        rewrite (cur_minute_put_minute_ne _ i j _ Hp0 Hij),
          cur_minute_touched_concurrent.
        split; [reflexivity |]. split; [reflexivity |].
        split; [apply cur_minute_cleaned_cases | apply cur_hour_cleaned_cases].
      - rewrite setup_put_hour, setup_put_minute, setup_touched,
          cur_concurrent_put_hour, cur_concurrent_put_minute,
          cur_concurrent_touched, cur_concurrent_cleaned,
          cur_minute_put_hour.
        rewrite (cur_hour_put_hour_ne _ i j _ (Hp1 _) Hij),
          cur_hour_put_minute, cur_hour_touched_concurrent.
        rewrite (cur_minute_put_minute_ne _ i j _ Hp0 Hij),
          cur_minute_touched_concurrent.
        split; [reflexivity |]. split; [reflexivity |].
        split; [apply cur_minute_cleaned_cases | apply cur_hour_cleaned_cases]. }
    destruct (_check_limit_memory i n now w) as [[b | e] w1]; cbn [snd] in *.
    all: destruct (Hres w1 eq_refl) as (R1 & R2 & R3 & R4).
    all: repeat split; auto; discriminate.
  - destruct (_get_identifier (config (limiter w)) u s) as [i | e] eqn:Hid.
    2:{ rewrite (record_request_unidentified u s n now w e He Hid).
        cbn [snd]. auto 10. }
    assert (Hij : i <> j) by congruence.
    rewrite (record_request_local u s n now w i He Hr Hid). cbn [snd limiter].
    rewrite setup_put_hour, setup_put_minute, cur_concurrent_put_hour,
      cur_concurrent_put_minute, cur_minute_put_hour.
    rewrite (cur_hour_put_hour_ne _ i j _
               ltac:(rewrite config_put_minute; exact Hp) Hij),
      cur_hour_put_minute.
    rewrite (cur_minute_put_minute_ne _ i j _ Hp Hij). auto 10.
  - rewrite (get_identifier_enabled_acquire u s w He).
    destruct (_get_identifier (config (limiter w)) u s) as [i | e] eqn:Hid;
      [| cbn [snd]; auto 10].
    assert (Hij : i <> j) by congruence.
    rewrite Hr. cbn [snd limiter].
    destruct (cur_windows_put_concurrent (limiter w) i j
                (cur_concurrent (limiter w) i + 1)) as [-> ->].
    rewrite setup_put_concurrent, cur_concurrent_put, Hp. simpl.
    destruct (String.eqb_spec i j); [contradiction |]. auto 10.
  - rewrite (get_identifier_enabled_release u s w He).
    destruct (_get_identifier (config (limiter w)) u s) as [i | e] eqn:Hid;
      [| cbn [snd]; auto 10].
    assert (Hij : i <> j) by congruence.
    rewrite Hr. cbn [snd limiter].
    destruct (cur_windows_put_concurrent (limiter w) i j
                (Z.max 0 (cur_concurrent (limiter w) i - 1))) as [-> ->].
    rewrite setup_put_concurrent, cur_concurrent_put, Hp. simpl.
    destruct (String.eqb_spec i j); [contradiction |]. auto 10.
Qed.

(** With per-user limits on the local store the calls made for other
    identifiers leave an identifier alone: whatever the others check,
    record, acquire or release, its concurrency counter and its window
    states are what they were, except that a check of another caller may
    drop its windows through cleanup (which only drops windows stale for
    more than twice their period). *)
Theorem per_user_isolation (cs : list call) (w : World) (j : string) :
  per_user (config (limiter w)) = true ->
  redis_active (limiter w) = false ->
  Forall (fun c => caller (config (limiter w)) c <> Some j) cs ->
  let l := limiter w in
  let l1 := limiter (run cs w).2 in
  cur_concurrent l1 j = cur_concurrent l j /\
  (cur_minute l1 j = cur_minute l j \/ cur_minute l1 j = None) /\
  (cur_hour l1 j = cur_hour l j \/ cur_hour l1 j = None) /\
  (existsb is_check cs = false ->
   cur_minute l1 j = cur_minute l j /\ cur_hour l1 j = cur_hour l j).
Proof.
  intros Hp Hr Hcs. cbv zeta. revert w Hp Hr Hcs.
  induction cs as [| c cs IH]; intros w Hp Hr Hcs.
  - simpl. auto 10.
  - inversion Hcs as [| c' cs' Hc Hrest]; subst.
    rewrite run_cons_snd.
    destruct (isolation_step c w j Hp Hr Hc) as (Hs & C & M & H & NC).
    unfold setup in Hs. injection Hs as Hcfg _ Hr1.
    assert (Hrest' : Forall (fun c0 => caller (config (limiter (step c w).2))
                                         c0 <> Some j) cs)
      by (rewrite Hcfg; exact Hrest).
    destruct (IH (step c w).2 ltac:(congruence) ltac:(congruence) Hrest')
      as (C' & M' & H' & NC').
    split; [congruence |].
    split; [destruct M' as [-> | ->]; auto |].
    split; [destruct H' as [-> | ->]; auto |].
    intros Hk.
    simpl in Hk. apply orb_false_iff in Hk as [K1 K2].
    destruct (NC K1) as [N1 N2]. destruct (NC' K2) as [N3 N4].
    split; congruence.
Qed.

Lemma per_user_isolation_witness :
  cur_minute
    (limiter (run [Record_request (Some "u2") 7 None 5;
                   Acquire (Some "u2") None; Record_request None 1 None 6]
                  one_request_world).2) "u1"
  = cur_minute (limiter one_request_world) "u1".
Proof.
  destruct (per_user_isolation
              [Record_request (Some "u2") 7 None 5;
               Acquire (Some "u2") None; Record_request None 1 None 6]
              one_request_world "u1" eq_refl eq_refl) as (_ & _ & _ & H).
  - repeat constructor; discriminate.
  - exact (proj1 (H eq_refl)).
Defined.

(** ** Cleanup *)

Lemma float_gt_false (a b : Q) : float_gt a b = false <-> (a <= b)%Q.
Proof.
  unfold float_gt. rewrite negb_false_iff. apply Qle_bool_iff.
Qed.

(** [_cleanup_windows] keeps exactly the per-user minute windows that
    started at most 120 seconds ago, the hour windows that started at most
    7200 seconds ago and the concurrency entries that are not zero, and
    leaves the global state alone; a cleanup after an earlier cleanup
    leaves what the later one alone would leave (so cleaning twice at one
    instant is cleaning once). *)
Theorem cleanup_keeps_recent (t : Q) (l : RateLimiter) :
  (forall k st,
     _user_minute_state (cleaned t l) !! k = Some st <->
     _user_minute_state l !! k = Some st /\ (t - window_start st <= 120)%Q) /\
  (forall k st,
     _user_hour_state (cleaned t l) !! k = Some st <->
     _user_hour_state l !! k = Some st /\ (t - window_start st <= 7200)%Q) /\
  (forall k v,
     _concurrent_requests (cleaned t l) !! k = Some v <->
     _concurrent_requests l !! k = Some v /\ v <> 0) /\
  _global_minute_state (cleaned t l) = _global_minute_state l /\
  _global_hour_state (cleaned t l) = _global_hour_state l /\
  _global_concurrent (cleaned t l) = _global_concurrent l /\
  (forall t', (t <= t')%Q -> cleaned t' (cleaned t l) = cleaned t' l).
Proof.
  split; [| split; [| split]].
  - intros k st. unfold cleaned. simpl.
    rewrite map_lookup_filter_Some. simpl. rewrite float_gt_false. reflexivity.
  - intros k st. unfold cleaned. simpl.
    rewrite map_lookup_filter_Some. simpl. rewrite float_gt_false. reflexivity.
  - intros k v. unfold cleaned. simpl.
    rewrite map_lookup_filter_Some. reflexivity.
  - split; [reflexivity |]. split; [reflexivity |]. split; [reflexivity |].
    intros t' Ht. unfold cleaned. simpl.
    unfold set_concurrent_requests, set_user_hour_state,
      set_user_minute_state. simpl. f_equal.
    + apply map_filter_filter_l. intros i x _. simpl.
      rewrite !float_gt_false. lra.
    + apply map_filter_filter_l. intros i x _. simpl.
      rewrite !float_gt_false. lra.
    + apply map_filter_filter_l. intros i x _ H. exact H.
Qed.

Lemma cleanup_keeps_recent_witness :
  cleaned 200 (cleaned 100 (limiter one_request_world))
  = cleaned 200 (limiter one_request_world).
Proof.
  destruct (cleanup_keeps_recent 100 (limiter one_request_world))
    as (_ & _ & _ & _ & _ & _ & H).
  apply H. discriminate.
Defined.

(** ** Decisions on an answering distributed backend *)

Lemma setup_set_redis_backend (l : RateLimiter) (b : RedisRateLimitBackend) :
  redis_active l = true -> setup (set_redis_backend l (Some b)) = setup l.
Proof.
  intros Hr. unfold setup, redis_active in *. simpl.
  apply andb_true_iff in Hr as [Hs Hu]. rewrite Hs, Hu. reflexivity.
Qed.

(** A read of a counter on an answering backend. *)
Lemma call_get_healthy (cfg : RateLimitConfig) (i window : string)
    (w : World) :
  healthy w -> redis_active (limiter w) = true ->
  exists w1,
    call_backend 0 (get_count cfg i window) w =
      (Ok (default 0 (kv (server w) !! _make_key cfg i window)), w1) /\
    healthy w1 /\ setup (limiter w1) = setup (limiter w) /\
    server w1 = server w.
Proof.
  intros (Hi & Hre & Hb) Hr. destruct (redis_active_backend _ Hr) as [b Eb].
  unfold call_backend. rewrite Eb. unfold get_count.
  destruct (ensure_connected_healthy b (server w) Hi Hre (Hb b Eb))
    as (b1 & -> & Hb1 & Hb2).
  simpl. unfold redis_get. rewrite Hre.
  eexists. split; [reflexivity |]. cbn [limiter server].
  split; [| split; [apply setup_set_redis_backend; exact Hr | reflexivity]].
  unfold healthy. cbn [limiter server]. split; [exact Hi |].
  split; [exact Hre |]. intros b0 E0 _. simpl in E0. injection E0 as <-.
  exact Hb2.
Qed.

(** A write of a counter on an answering backend. *)
Lemma call_increment_healthy (cfg : RateLimitConfig) (i window : string)
    (t a : Z) (w : World) :
  healthy w -> redis_active (limiter w) = true ->
  exists r w1,
    call_backend 0 (increment cfg i window t a) w = (Ok r, w1) /\
    healthy w1 /\ setup (limiter w1) = setup (limiter w) /\
    kv (server w1) =
      <[_make_key cfg i window :=
          default 0 (kv (server w) !! _make_key cfg i window) + a]>
        (kv (server w)).
Proof.
  intros (Hi & Hre & Hb) Hr. destruct (redis_active_backend _ Hr) as [b Eb].
  unfold call_backend. rewrite Eb.
  pose proof (increment_kv cfg i window t a b (server w))
    as (Hi1 & Hr1 & _ & Hh). cbv zeta in *.
  destruct (Hh Hi Hre (Hb b Eb)) as (Hk & Hb1 & Hb2). clear Hh.
  destruct (increment cfg i window t a b (server w)) as [[r b1] srv1].
  cbn [fst snd] in *. eexists. eexists. split; [reflexivity |].
  cbn [limiter server].
  split; [| split; [apply setup_set_redis_backend; exact Hr | exact Hk]].
  unfold healthy. cbn [limiter server]. split; [congruence |].
  split; [congruence |]. intros b0 E0 _. simpl in E0. injection E0 as <-.
  exact Hb2.
Qed.

Lemma redis_check_table (u s : option string) (n : Z) (now : Q) (w : World)
    (id : string) :
  _enabled (limiter w) = true ->
  redis_active (limiter w) = true ->
  healthy w ->
  _get_identifier (config (limiter w)) u s = Ok id ->
  let cfg := config (limiter w) in
  (check_limit u n s now w).1 =
    (if concurrency_counter w id >=? max_concurrent_requests cfg then
       Raise (RateLimitExceeded "concurrent" (Some 1%Q))
     else
       match requests_ceiling cfg with
       | Raise e => Raise e
       | Ok ceiling =>
         if redis_count w id (minute_window now) >=? ceiling then
           Raise (RateLimitExceeded "requests_per_minute"
                    (Some (60 - float_mod now 60)%Q))
         else if redis_count w id (hour_window now)
                 >=? requests_per_hour cfg then
           Raise (RateLimitExceeded "requests_per_hour"
                    (Some (3600 - float_mod now 3600)%Q))
         else Ok true
       end) /\
  server (check_limit u n s now w).2 = server w /\
  healthy (check_limit u n s now w).2 /\
  setup (limiter (check_limit u n s now w).2) = setup (limiter w).
Proof.
  intros He Hr Hh Hid. cbv zeta.
  rewrite (check_limit_enabled u s n now w id He Hid), Hr.
  unfold _check_limit_redis, bind, gets, raise, ret, lift. cbn beta.
  destruct (call_get_healthy (config (limiter w)) id "concurrent" w Hh Hr)
    as (w1 & G1 & H1 & S1 & V1).
  change (get_count (config (limiter w)) id "concurrent")
    with (get_concurrent (config (limiter w)) id) in G1.
  rewrite G1.
  assert (Hr1 : redis_active (limiter w1) = true)
    by (unfold setup in S1; congruence).
  unfold concurrency_counter, redis_count, requests_ceiling. rewrite Hr.
  destruct (_ >=? max_concurrent_requests _); [cbn [fst snd]; auto |].
  destruct (call_get_healthy (config (limiter w)) id (minute_window now) w1
              H1 Hr1) as (w2 & G2 & H2 & S2 & V2).
  rewrite G2, V1.
  assert (Hr2 : redis_active (limiter w2) = true)
    by (unfold setup in S2; congruence).
  destruct (burst_limit _ _) as [ceiling | e].
  2:{ cbn [fst snd]. split; [reflexivity |]. split; [congruence |].
      split; [assumption | congruence]. }
  destruct (_ >=? ceiling).
  { cbn [fst snd]. split; [reflexivity |]. split; [congruence |].
    split; [assumption | congruence]. }
  destruct (call_get_healthy (config (limiter w)) id (hour_window now) w2
              H2 Hr2) as (w3 & G3 & H3 & S3 & V3).
  rewrite G3, V2, V1.
  destruct (_ >=? requests_per_hour _); cbn [fst snd].
  all: split; [reflexivity |]; split; [congruence |].
  all: split; [assumption | congruence].
Qed.

(** On an answering distributed backend a check decides from the three
    counters the server holds for the identifier: its concurrency counter
    and the request counts of the current minute and hour windows, compared
    in that order with the concurrency cap, the minute ceiling
    [int(requests_per_minute * burst_multiplier)], computed in floating
    point after the minute count was read, and the hour limit.  The check
    writes nothing to the server. *)
Theorem redis_decision (u s : option string) (n : Z) (now : Q) (w : World)
    (id : string) :
  _enabled (limiter w) = true ->
  redis_active (limiter w) = true ->
  healthy w ->
  _get_identifier (config (limiter w)) u s = Ok id ->
  let cfg := config (limiter w) in
  (check_limit u n s now w).1 =
    (if concurrency_counter w id >=? max_concurrent_requests cfg then
       Raise (RateLimitExceeded "concurrent" (Some 1%Q))
     else
       match requests_ceiling cfg with
       | Raise e => Raise e
       | Ok ceiling =>
         if redis_count w id (minute_window now) >=? ceiling then
           Raise (RateLimitExceeded "requests_per_minute"
                    (Some (60 - float_mod now 60)%Q))
         else if redis_count w id (hour_window now)
                 >=? requests_per_hour cfg then
           Raise (RateLimitExceeded "requests_per_hour"
                    (Some (3600 - float_mod now 3600)%Q))
         else Ok true
       end) /\
  server (check_limit u n s now w).2 = server w /\
  healthy (check_limit u n s now w).2 /\
  setup (limiter (check_limit u n s now w).2) = setup (limiter w).
Proof. exact (redis_check_table u s n now w id). Qed.

Lemma redis_decision_witness :
  (check_limit (Some "u1") 5 None 70
     (new_world closed_redis_config 0 empty_server)).1 =
  Raise (RateLimitExceeded "requests_per_minute" (Some 50%Q)).
Proof.
  destruct (redis_decision (Some "u1") None 5 70
              (new_world closed_redis_config 0 empty_server) "u1"
              eq_refl eq_refl
              (new_world_healthy closed_redis_config 0 empty_server
                 eq_refl eq_refl)
              eq_refl) as (H & _).
  rewrite H. vm_compute. reflexivity.
Defined.

(** ** Fixed windows on the distributed backend *)

Lemma make_key_window_inj (cfg : RateLimitConfig) (i w1 w2 : string) :
  _make_key cfg i w1 = _make_key cfg i w2 -> w1 = w2.
Proof.
  unfold _make_key. intros H. do 3 apply String.app_inj in H. exact H.
Qed.

Lemma minute_window_inj (t t' : Q) :
  minute_window t = minute_window t' <->
  float_floordiv t 60 = float_floordiv t' 60.
Proof.
  unfold minute_window. split.
  - intros H. apply String.app_inj in H. apply (inj pretty) in H. exact H.
  - intros ->. reflexivity.
Qed.

Lemma hour_window_inj (t t' : Q) :
  hour_window t = hour_window t' <->
  float_floordiv t 3600 = float_floordiv t' 3600.
Proof.
  unfold hour_window. split.
  - intros H. apply String.app_inj in H. apply (inj pretty) in H. exact H.
  - intros ->. reflexivity.
Qed.

Lemma minute_hour_windows_differ (t t' : Q) :
  minute_window t <> hour_window t'.
Proof. unfold minute_window, hour_window. discriminate. Qed.

(** One record on an answering backend: the count of every window of the
    identifier, as the server holds it afterwards. *)
Lemma record_redis_counts (u s : option string) (n : Z) (now : Q)
    (w : World) (id : string) :
  _enabled (limiter w) = true ->
  redis_active (limiter w) = true ->
  healthy w ->
  _get_identifier (config (limiter w)) u s = Ok id ->
  let w1 := (record_request u n s now w).2 in
  (record_request u n s now w).1 = Ok tt /\
  healthy w1 /\ setup (limiter w1) = setup (limiter w) /\
  forall window,
    redis_count w1 id window =
      if String.eqb window (minute_window now)
         || String.eqb window (hour_window now)
      then redis_count w id window + 1
      else redis_count w id window.
Proof.
  intros He Hr Hh Hid. cbv zeta.
  rewrite (record_request_redis_eq u n s now w He Hr), Hid.
  destruct (call_increment_healthy (config (limiter w)) id (minute_window now)
              120 1 w Hh Hr) as (r1 & w1 & -> & H1 & S1 & K1).
  assert (Hr1 : redis_active (limiter w1) = true)
    by (unfold setup in S1; congruence).
  destruct (call_increment_healthy (config (limiter w)) id (hour_window now)
              7200 1 w1 H1 Hr1) as (r2 & w2 & -> & H2 & S2 & K2).
  cbn [fst snd]. split; [reflexivity |]. split; [exact H2 |].
  split; [congruence |]. intros window. unfold redis_count.
  assert (Hc : config (limiter w2) = config (limiter w))
    by (unfold setup in S1, S2; congruence).
  rewrite Hc, K2, K1.
  destruct (String.eqb_spec window (hour_window now)) as [-> | Nh].
  - rewrite orb_true_r, lookup_insert_eq.
    rewrite lookup_insert_ne by apply window_keys_differ. reflexivity.
  - rewrite orb_false_r.
    rewrite lookup_insert_ne
      by (intros E; apply make_key_window_inj in E; congruence).
    destruct (String.eqb_spec window (minute_window now)) as [-> | Nm].
    + rewrite lookup_insert_eq. reflexivity.
    + rewrite lookup_insert_ne
        by (intros E; apply make_key_window_inj in E; congruence).
      reflexivity.
Qed.

Lemma how_many_cons (p : Q -> bool) (t : Q) (ts : list Q) :
  how_many p (t :: ts) = (if p t then 1 else 0) + how_many p ts.
Proof.
  unfold how_many. simpl. destruct (p t); simpl; lia.
Qed.

Lemma redis_run_counts (u s : option string) (ts : list Q) (t : Q)
    (w : World) (id : string) :
  _enabled (limiter w) = true ->
  redis_active (limiter w) = true ->
  healthy w ->
  _get_identifier (config (limiter w)) u s = Ok id ->
  let w1 := (run (records_at u s ts) w).2 in
  healthy w1 /\ setup (limiter w1) = setup (limiter w) /\
  redis_count w1 id (minute_window t) =
    redis_count w id (minute_window t) + how_many (same_minute t) ts /\
  redis_count w1 id (hour_window t) =
    redis_count w id (hour_window t) + how_many (same_hour t) ts /\
  redis_count w1 id "concurrent" = redis_count w id "concurrent".
Proof.
  cbv zeta. revert w. induction ts as [| a ts IH]; intros w He Hr Hh Hid.
  - simpl. unfold how_many. simpl. rewrite !Z.add_0_r. auto.
  - change (records_at u s (a :: ts))
      with (Record_request u 0 s a :: records_at u s ts).
    rewrite run_cons_snd.
    assert (Hst : (step (Record_request u 0 s a) w).2
                  = (record_request u 0 s a w).2).
    { simpl. destruct (record_request u 0 s a w) as [[x | e] w']; reflexivity. }
    rewrite Hst.
    destruct (record_redis_counts u s 0 a w id He Hr Hh Hid)
      as (_ & H1 & S1 & C1).
    set (w1 := (record_request u 0 s a w).2) in *.
    assert (S1' := S1). unfold setup in S1'. injection S1' as Hcfg He1 Hr1.
    destruct (IH w1 ltac:(congruence) ltac:(congruence) H1
                ltac:(rewrite Hcfg; exact Hid)) as (H2 & S2 & M2 & Ho2 & Cc2).
    split; [exact H2 |]. split; [congruence |].
    rewrite M2, Ho2, Cc2, !C1, !how_many_cons.
    assert (Em : String.eqb (minute_window t) (minute_window a)
                 || String.eqb (minute_window t) (hour_window a)
                 = same_minute t a).
    { destruct (String.eqb_spec (minute_window t) (hour_window a)) as [E | _];
        [destruct (minute_hour_windows_differ _ _ E) |].
      rewrite orb_false_r. unfold same_minute.
      destruct (String.eqb_spec (minute_window t) (minute_window a))
        as [E | E]; rewrite minute_window_inj in E; symmetry.
      - apply Z.eqb_eq. congruence.
      - apply Z.eqb_neq. congruence. }
    assert (Eh : String.eqb (hour_window t) (minute_window a)
                 || String.eqb (hour_window t) (hour_window a)
                 = same_hour t a).
    { destruct (String.eqb_spec (hour_window t) (minute_window a)) as [E | _];
        [destruct (minute_hour_windows_differ _ _ (eq_sym E)) |].
      rewrite orb_false_l. unfold same_hour.
      destruct (String.eqb_spec (hour_window t) (hour_window a))
        as [E | E]; rewrite hour_window_inj in E; symmetry.
      - apply Z.eqb_eq. congruence.
      - apply Z.eqb_neq. congruence. }
    rewrite Em, Eh.
    assert (Ec : String.eqb "concurrent" (minute_window a)
                 || String.eqb "concurrent" (hour_window a) = false)
      by reflexivity.
    rewrite Ec.
    repeat split; destruct (same_minute t a), (same_hour t a); lia.
Qed.

(** The distributed backend counts in fixed calendar windows.  Of the
    requests a caller recorded on an answering backend, a later check counts
    for the minute exactly those recorded in the calendar minute of the
    check, and for the hour exactly those recorded in its calendar hour,
    on top of what the server held before; the concurrency counter is not
    touched by recording.  (The calls follow each other with no key
    expiring in between.) *)
Theorem redis_fixed_windows (u s : option string) (n : Z) (ts : list Q)
    (t : Q) (w : World) (id : string) :
  _enabled (limiter w) = true ->
  redis_active (limiter w) = true ->
  healthy w ->
  _get_identifier (config (limiter w)) u s = Ok id ->
  let cfg := config (limiter w) in
  let w1 := (run (records_at u s ts) w).2 in
  (check_limit u n s t w1).1 =
    (if concurrency_counter w id >=? max_concurrent_requests cfg then
       Raise (RateLimitExceeded "concurrent" (Some 1%Q))
     else
       match requests_ceiling cfg with
       | Raise e => Raise e
       | Ok ceiling =>
         if redis_count w id (minute_window t)
            + how_many (same_minute t) ts >=? ceiling then
           Raise (RateLimitExceeded "requests_per_minute"
                    (Some (60 - float_mod t 60)%Q))
         else if redis_count w id (hour_window t)
                 + how_many (same_hour t) ts >=? requests_per_hour cfg then
           Raise (RateLimitExceeded "requests_per_hour"
                    (Some (3600 - float_mod t 3600)%Q))
         else Ok true
       end).
Proof.
  intros He Hr Hh Hid. cbv zeta.
  destruct (redis_run_counts u s ts t w id He Hr Hh Hid)
    as (H1 & S1 & M1 & Ho1 & C1).
  assert (S1' := S1). unfold setup in S1'. injection S1' as Hcfg He1 Hr1.
  destruct (redis_check_table u s n t (run (records_at u s ts) w).2 id
              ltac:(congruence) ltac:(congruence) H1
              ltac:(rewrite Hcfg; exact Hid)) as (-> & _).
  rewrite Hcfg, M1, Ho1.
  unfold concurrency_counter. rewrite Hr, Hr1, Hr.
  fold (redis_count (run (records_at u s ts) w).2 id "concurrent").
  fold (redis_count w id "concurrent"). rewrite C1. reflexivity.
Qed.

Lemma redis_fixed_windows_witness :
  (check_limit (Some "u1") 0 None 60
     (run (records_at (Some "u1") None (repeat 59%Q 90))
          (new_world redis_config 0 empty_server)).2).1 = Ok true /\
  (check_limit (Some "u1") 0 None 59
     (run (records_at (Some "u1") None (repeat 59%Q 90))
          (new_world redis_config 0 empty_server)).2).1 =
  Raise (RateLimitExceeded "requests_per_minute" (Some 1%Q)).
Proof.
  split.
  - rewrite (redis_fixed_windows (Some "u1") None 0 (repeat 59%Q 90) 60
               (new_world redis_config 0 empty_server) "u1" eq_refl eq_refl
               (new_world_healthy redis_config 0 empty_server
                  eq_refl eq_refl) eq_refl).
    vm_compute. reflexivity.
  - rewrite (redis_fixed_windows (Some "u1") None 0 (repeat 59%Q 90) 59
               (new_world redis_config 0 empty_server) "u1" eq_refl eq_refl
               (new_world_healthy redis_config 0 empty_server
                  eq_refl eq_refl) eq_refl).
    vm_compute. reflexivity.
Defined.

(** ** The order of the local checks *)

(** On the local store a check decides in this order: the concurrency
    counter against its cap, the request count of the minute window (rolled
    over if stale) against the minute ceiling, the request count of the
    hour window against the hour limit and, for a positive estimate, the
    tokens of the minute window plus the estimate against the token
    ceiling; the first limit reached gives the rejection and its hint.
    The two ceilings are [int(limit * burst_multiplier)], the product in
    floating point; each is computed where it is compared, and the
    exception of a conversion that cannot be made leaves the check there. *)
Theorem local_decision (u s : option string) (n : Z) (now : Q) (w : World)
    (id : string) :
  _enabled (limiter w) = true ->
  redis_active (limiter w) = false ->
  _get_identifier (config (limiter w)) u s = Ok id ->
  let cfg := config (limiter w) in
  let ms := rolled 60 now (minute_at (cleaned now (limiter w)) id now) in
  let hs := rolled 3600 now (hour_at (cleaned now (limiter w)) id now) in
  (check_limit u n s now w).1 =
    (if cur_concurrent (limiter w) id >=? max_concurrent_requests cfg then
       Raise (RateLimitExceeded "concurrent" (Some 1%Q))
     else
       match requests_ceiling cfg with
       | Raise e => Raise e
       | Ok ceiling =>
         if count ms >=? ceiling then
           Raise (RateLimitExceeded "requests_per_minute"
                    (Some (max0 (60 - (now - window_start ms)))))
         else if count hs >=? requests_per_hour cfg then
           Raise (RateLimitExceeded "requests_per_hour"
                    (Some (max0 (3600 - (now - window_start hs)))))
         else if n >? 0 then
           match tokens_ceiling cfg with
           | Raise e => Raise e
           | Ok token_ceiling =>
             if tokens ms + n >? token_ceiling then
               Raise (RateLimitExceeded "tokens_per_minute"
                        (Some (max0 (60 - (now - window_start ms)))))
             else Ok true
           end
         else Ok true
       end).
Proof.
  intros He Hr Hid. cbv zeta.
  rewrite (check_limit_enabled u s n now w id He Hid), Hr.
  rewrite check_limit_memory_eq. cbv zeta. rewrite cur_concurrent_cleaned.
  split_checks; reflexivity.
Qed.

Lemma local_decision_witness :
  (check_limit (Some "u1") 200000 None 10 hour_saturated_world).1 =
  Raise (RateLimitExceeded "requests_per_minute" (Some 50%Q)).
Proof.
  rewrite (local_decision (Some "u1") None 200000 10 hour_saturated_world
             "u1" eq_refl eq_refl eq_refl).
  vm_compute. reflexivity.
Defined.

(** ** Slots are counted, not capped *)

Lemma acquire_answer (u s : option string) (w : World) (id : string) :
  _enabled (limiter w) = true ->
  _get_identifier (config (limiter w)) u s = Ok id ->
  (step (Acquire u s) w).1 = Returned.
Proof.
  intros He Hid. simpl. rewrite (get_identifier_enabled_acquire u s w He), Hid.
  destruct (redis_active (limiter w)); [| reflexivity].
  destruct (call_backend 0 _ w). reflexivity.
Qed.

Lemma shares_refl (l : RateLimiter) (i : string) : shares l i i = true.
Proof. unfold shares. rewrite String.eqb_refl. apply orb_true_r. Qed.

Lemma run_cons_fst (c : call) (cs : list call) (w : World) :
  (run (c :: cs) w).1 = (step c w).1 :: (run cs (step c w).2).1.
Proof.
  simpl. destruct (step c w) as [a w1]. simpl.
  destruct (run cs w1) as [r w2]. reflexivity.
Qed.

Lemma run_acquires (u s : option string) (k : nat) (w : World)
    (id : string) :
  _enabled (limiter w) = true ->
  (redis_active (limiter w) = true -> healthy w) ->
  _get_identifier (config (limiter w)) u s = Ok id ->
  let w1 := (run (repeat (Acquire u s) k) w).2 in
  (run (repeat (Acquire u s) k) w).1 = repeat Returned k /\
  concurrency_counter w1 id = concurrency_counter w id + Z.of_nat k /\
  setup (limiter w1) = setup (limiter w) /\
  (redis_active (limiter w1) = true -> healthy w1).
Proof.
  cbv zeta. revert w. induction k as [| k IH]; intros w He Hh Hid.
  - simpl. rewrite Z.add_0_r. auto.
  - change (repeat (Acquire u s) (S k))
      with (Acquire u s :: repeat (Acquire u s) k).
    rewrite run_cons_fst, run_cons_snd.
    destruct (slot_step (Acquire u s) w eq_refl He)
      as (Hc & He1 & Hr1 & _ & Hex).
    destruct (Hex Hh) as (Hh1 & Hcount). clear Hex.
    destruct (IH (step (Acquire u s) w).2 He1 Hh1
                ltac:(rewrite Hc; exact Hid)) as (A & C & S & H).
    rewrite (acquire_answer u s w id He Hid), A, C, (Hcount id), S.
    simpl slot_effect. rewrite Hid, shares_refl. simpl slot_update.
    split; [reflexivity |]. split; [lia |]. split; [| exact H].
    unfold setup. congruence.
Qed.

(** On the local store taking a slot never looks at the cap: from an
    enabled limiter [k] acquisitions by an identified caller all return,
    and raise the caller's counter by exactly [k], whatever
    [max_concurrent_requests] is; only a later check compares the counter
    with the cap, and it is rejected with "concurrent" and a one second
    hint exactly when the counter has reached it. *)
Theorem slots_are_counted_not_capped (u s : option string) (k : nat)
    (w : World) (id : string) :
  _enabled (limiter w) = true ->
  redis_active (limiter w) = false ->
  _get_identifier (config (limiter w)) u s = Ok id ->
  let cfg := config (limiter w) in
  let w1 := (run (repeat (Acquire u s) k) w).2 in
  (run (repeat (Acquire u s) k) w).1 = repeat Returned k /\
  cur_concurrent (limiter w1) id
    = cur_concurrent (limiter w) id + Z.of_nat k /\
  forall n t,
    (check_limit u n s t w1).1
      = Raise (RateLimitExceeded "concurrent" (Some 1%Q)) <->
    max_concurrent_requests cfg
      <= cur_concurrent (limiter w) id + Z.of_nat k.
Proof.
  intros He Hr Hid. cbv zeta.
  destruct (run_acquires u s k w id He ltac:(congruence) Hid)
    as (A & C & S & _).
  set (w1 := (run (repeat (Acquire u s) k) w).2) in *.
  unfold setup in S.
  assert (Hc : config (limiter w1) = config (limiter w)) by congruence.
  assert (He1 : _enabled (limiter w1) = true) by congruence.
  assert (Hr1 : redis_active (limiter w1) = false) by congruence.
  assert (Hid1 : _get_identifier (config (limiter w1)) u s = Ok id)
    by (rewrite Hc; exact Hid).
  unfold concurrency_counter in C. rewrite Hr, Hr1 in C.
  split; [exact A |]. split; [exact C |].
  intros n t. rewrite <- C.
  rewrite (check_limit_enabled u s n t w1 id He1 Hid1), Hr1.
  rewrite check_limit_memory_eq. cbv zeta. rewrite cur_concurrent_cleaned.
  rewrite Hc.
  destruct (Z.geb_spec (cur_concurrent (limiter w1) id)
              (max_concurrent_requests (config (limiter w)))).
  - split; [lia | reflexivity].
  - split; [| lia].
    destruct (requests_ceiling _) as [ceiling | e] eqn:Ec.
    2:{ cbn [fst]. intros [= ->].
        destruct (ceiling_not_rejection _ _ _ _ Ec). }
    destruct (_ >=? ceiling); [intros X; discriminate X |].
    destruct (_ >=? requests_per_hour _); [intros X; discriminate X |].
    destruct (n >? 0); [| intros X; discriminate X].
    destruct (tokens_ceiling _) as [token_ceiling | e] eqn:Et.
    2:{ cbn [fst]. intros [= ->].
        destruct (ceiling_not_rejection _ _ _ _ Et). }
    destruct (_ >? token_ceiling); intros X; discriminate X.
Qed.

Lemma slots_are_counted_not_capped_witness :
  let w0 := new_world default_config 0 empty_server in
  let w1 := (run (repeat (Acquire (Some "u1") None) 12) w0).2 in
  cur_concurrent (limiter w1) "u1" = 12 /\
  (check_limit (Some "u1") 0 None 1 w1).1
    = Raise (RateLimitExceeded "concurrent" (Some 1%Q)).
Proof.
  cbv zeta.
  destruct (slots_are_counted_not_capped (Some "u1") None 12
              (new_world default_config 0 empty_server) "u1"
              eq_refl eq_refl eq_refl) as (_ & C & T).
  split; [exact C |]. apply T. vm_compute. discriminate.
Defined.

(** ** What the usage report shows of recorded requests *)

Lemma get_identifier_nonempty (cfg : RateLimitConfig) (u s : option string)
    (id : string) :
  _get_identifier cfg u s = Ok id -> id <> "".
Proof.
  unfold _get_identifier. destruct u as [v |]; simpl.
  - destruct (String.eqb_spec v "") as [-> | Hv]; simpl.
    + destruct (require_user_id cfg); [discriminate |].
      destruct (fallback_to_session cfg && truthy s);
        intros [= <-]; discriminate.
    + intros [= <-]. exact Hv.
  - destruct (require_user_id cfg); [discriminate |].
    destruct (fallback_to_session cfg && truthy s);
      intros [= <-]; discriminate.
Qed.

Lemma usage_per_user (l : RateLimiter) (id : string) (t : Q) :
  per_user (config l) = true -> id <> "" ->
  get_usage l (Some id) t =
    {| requests_minute :=
         mkUsage (count (minute_at l id t)) (requests_per_minute (config l))
           (Z.max 0 (requests_per_minute (config l)
                     - count (minute_at l id t)));
       requests_hour :=
         mkUsage (count (hour_at l id t)) (requests_per_hour (config l))
           (Z.max 0 (requests_per_hour (config l) - count (hour_at l id t)));
       tokens_minute :=
         mkUsage (tokens (minute_at l id t)) (tokens_per_minute (config l))
           (Z.max 0 (tokens_per_minute (config l)
                     - tokens (minute_at l id t)));
       concurrent_used := cur_concurrent l id;
       concurrent_limit := max_concurrent_requests (config l) |}.
Proof.
  intros Hp Hid. unfold get_usage, minute_at, hour_at, cur_minute, cur_hour,
    cur_concurrent.
  rewrite (truthy_Some id Hid), Hp. reflexivity.
Qed.

Lemma counters_at_any_time (l : RateLimiter) (id : string) (t t' : Q) :
  count (minute_at l id t) = count (minute_at l id t') /\
  tokens (minute_at l id t) = tokens (minute_at l id t') /\
  count (hour_at l id t) = count (hour_at l id t').
Proof.
  unfold minute_at, hour_at.
  destruct (cur_minute l id), (cur_hour l id); simpl; auto.
Qed.

Lemma run_records_usage (u s : option string) (rs : list (Z * Q))
    (w : World) (id : string) :
  _enabled (limiter w) = true ->
  redis_active (limiter w) = false ->
  per_user (config (limiter w)) = true ->
  _get_identifier (config (limiter w)) u s = Ok id ->
  let l := limiter w in
  let l1 := limiter (run (records u s rs) w).2 in
  setup l1 = setup l /\
  (forall t t',
     count (minute_at l1 id t') = count (minute_at l id t)
                                  + Z.of_nat (length rs) /\
     tokens (minute_at l1 id t') = tokens (minute_at l id t)
                                   + total_tokens rs /\
     count (hour_at l1 id t') = count (hour_at l id t)
                                + Z.of_nat (length rs)) /\
  (forall j, cur_concurrent l1 j = cur_concurrent l j) /\
  (forall j t, j <> id ->
     minute_at l1 j t = minute_at l j t /\ hour_at l1 j t = hour_at l j t).
Proof.
  cbv zeta. revert w. induction rs as [| [n now] rs IH]; intros w He Hr Hp Hid.
  - simpl. split; [reflexivity |].
    split; [| split; [reflexivity | intros; split; reflexivity]].
    intros t t'. rewrite !Z.add_0_r.
    destruct (counters_at_any_time (limiter w) id t' t) as (A & B & C). auto.
  - change (records u s ((n, now) :: rs))
      with (Record_request u n s now :: records u s rs).
    rewrite run_cons_snd.
    assert (Hs : (step (Record_request u n s now) w).2 =
                 mkWorld
                   (put_hour
                      (put_minute (limiter w) id
                         (recorded n (minute_at (limiter w) id now)))
                      id (recorded n (hour_at (limiter w) id now)))
                   (server w)).
    { simpl step. rewrite (record_request_local u s n now w id He Hr Hid).
      reflexivity. }
    rewrite Hs.
    set (l1 := put_hour _ id _).
    assert (S1 : setup l1 = setup (limiter w))
      by (subst l1; rewrite setup_put_hour, setup_put_minute; reflexivity).
    assert (Hc1 : config l1 = config (limiter w))
      by (unfold setup in S1; congruence).
    destruct (IH (mkWorld l1 (server w))) as (S & U & C & O).
    + cbn [limiter]. unfold setup in S1. congruence.
    + cbn [limiter]. unfold setup in S1. congruence.
    + cbn [limiter]. rewrite Hc1. exact Hp.
    + cbn [limiter]. rewrite Hc1. exact Hid.
    + cbn [limiter] in *.
      split; [congruence |]. split; [| split].
      * intros t t'. destruct (U now t') as (A & B & D).
        rewrite A, B, D. subst l1.
        rewrite minute_at_put_hour, minute_at_put_minute, hour_at_put_hour.
        destruct (counters_at_any_time (limiter w) id now t) as (E & F & G).
        unfold recorded. simpl count. simpl tokens. rewrite E, F, G.
        simpl total_tokens. simpl length. lia.
      * intros j. rewrite C. subst l1.
        rewrite cur_concurrent_put_hour, cur_concurrent_put_minute.
        reflexivity.
      * intros j t Hj. destruct (O j t Hj) as (A & B). rewrite A, B.
        subst l1.
        rewrite minute_at_put_hour, minute_at_put_minute_any,
          hour_at_put_hour_any, hour_at_put_minute, config_put_minute, Hp.
        destruct (String.eqb_spec id j) as [<- | _]; [contradiction |].
        split; reflexivity.
Qed.

(** With per-user limits on the local store, recording never rolls a window
    over: after a caller has recorded the requests [rs], at whatever
    instants, the usage report of its identifier shows [length rs] more
    requests in both windows and the recorded tokens more in the minute
    window, the concurrency figure is the same, and the report of every
    other user is unchanged. *)
Theorem usage_accumulates (u s : option string) (rs : list (Z * Q))
    (w : World) (id : string) :
  _enabled (limiter w) = true ->
  redis_active (limiter w) = false ->
  per_user (config (limiter w)) = true ->
  _get_identifier (config (limiter w)) u s = Ok id ->
  let w1 := (run (records u s rs) w).2 in
  (forall t t',
     let r0 := get_usage (limiter w) (Some id) t in
     let r1 := get_usage (limiter w1) (Some id) t' in
     used (requests_minute r1)
       = used (requests_minute r0) + Z.of_nat (length rs) /\
     used (requests_hour r1)
       = used (requests_hour r0) + Z.of_nat (length rs) /\
     used (tokens_minute r1) = used (tokens_minute r0) + total_tokens rs /\
     concurrent_used r1 = concurrent_used r0) /\
  (forall v t, v <> "" -> v <> id ->
     get_usage (limiter w1) (Some v) t = get_usage (limiter w) (Some v) t).
Proof.
  intros He Hr Hp Hid. cbv zeta.
  destruct (run_records_usage u s rs w id He Hr Hp Hid) as (S & U & C & O).
  cbv zeta in S, U, C, O.
  set (w1 := (run (records u s rs) w).2) in *.
  assert (Hc : config (limiter w1) = config (limiter w))
    by (unfold setup in S; congruence).
  assert (Hp1 : per_user (config (limiter w1)) = true)
    by (rewrite Hc; exact Hp).
  pose proof (get_identifier_nonempty _ u s id Hid) as Hne.
  split.
  - intros t t'.
    rewrite (usage_per_user (limiter w1) id t' Hp1 Hne),
      (usage_per_user (limiter w) id t Hp Hne).
    cbn [requests_minute requests_hour tokens_minute concurrent_used used].
    destruct (U t t') as (A & B & D). rewrite A, B, D, C. auto.
  - intros v t Hv Hvi.
    rewrite (usage_per_user (limiter w1) v t Hp1 Hv),
      (usage_per_user (limiter w) v t Hp Hv).
    destruct (O v t Hvi) as (A & B). rewrite A, B, C, Hc. reflexivity.
Qed.

Lemma usage_accumulates_witness :
  let w0 := new_world default_config 0 empty_server in
  let w1 := (run (records (Some "u1") None [(10, 0%Q); (20, 100%Q)]) w0).2 in
  let r := get_usage (limiter w1) (Some "u1") 100 in
  used (requests_minute r) = 2 /\ used (requests_hour r) = 2 /\
  used (tokens_minute r) = 30 /\ concurrent_used r = 0.
Proof.
  cbv zeta.
  destruct (usage_accumulates (Some "u1") None [(10, 0%Q); (20, 100%Q)]
              (new_world default_config 0 empty_server) "u1"
              eq_refl eq_refl eq_refl eq_refl) as (U & _).
  exact (U 0%Q 100%Q).
Defined.
